(** * equinix-billing-tools: usage aggregation, gateway split and upload rows

    A shallow embedding of the Go sources of the billing tool
    ([equinix/equinix.go], [common], [cmd/cost_summary.go] and the
    bigquery upload command) together with the properties of the
    aggregation model.

    Conventions of the embedding:
    - a Go [float64] is a primitive binary64 float ([PrimFloat.float]), so
      every sum below rounds exactly as the program does;
    - a Go [string] is a [string] of bytes, [len] is [String.length];
    - a Go [map[string]V] is a [gmap string V]; a [range] loop over a map
      visits the entries in an order the language leaves unspecified, which
      is modelled by quantifying over every enumeration of the map
      ([mapRange]);
    - a Go struct is a record living in a module of its own, so that the
      field names of the source can be kept ([UsageRecord.Name],
      [Project.Name], ...).  The field [Type] is spelled [Type_]. *)

From Stdlib Require Import ZArith Lia String Ascii List Floats.
From stdpp Require Import gmap strings list fin_maps.
Import ListNotations.

Local Open Scope string_scope.
Local Open Scope Z_scope.

(** ** float64 *)

Definition float64 : Type := PrimFloat.float.

Module f64.

Definition zero : float64 := 0%float.
Definition add : float64 -> float64 -> float64 := PrimFloat.add.
Definition div : float64 -> float64 -> float64 := PrimFloat.div.

(** The value of a [+=] loop started at [init]. *)
Definition sumFrom (init : float64) (l : list float64) : float64 :=
  fold_left add l init.

(** Left-to-right sum from [0], the way every accumulator of the program
    is initialised. *)
Definition sum (l : list float64) : float64 := sumFrom zero l.

(** Conversion [float64(n)] of an integer with [|n| < 2^63]: the nearest
    binary64 value, the sign handled apart since rounding is symmetric. *)
Definition ofInt (n : Z) : float64 :=
  if n <? 0 then PrimFloat.opp (PrimFloat.of_uint63 (Uint63.of_Z (- n)))
  else PrimFloat.of_uint63 (Uint63.of_Z n).

(** The comparison [x != y] of two floats. *)
Definition neq (x y : float64) : bool := negb (PrimFloat.eqb x y).

End f64.

(** ** package time (standard library), as far as the tool uses it

    An instant is a number of seconds since the Unix epoch with a
    nanosecond part; a [Location] is reduced to the offset, in seconds east
    of UTC, that it prescribes for the instant at hand.  The calendar
    computations follow the library: days are counted from January 1 of
    year 1 and cut into 400-, 100-, 4- and 1-year cycles. *)

Module time.

(** [int64] nanoseconds. *)
Definition Duration : Type := Z.
Definition Second : Duration := 1000000000.
Definition minDuration : Duration := - 2 ^ 63.
Definition maxDuration : Duration := 2 ^ 63 - 1.

Definition Month : Type := Z.
Definition February : Month := 2.
Definition March : Month := 3.

Definition Location : Type := Z.
Definition UTC : Location := 0.

Record Time : Type := mkTime { unixSec : Z; nsec : Z; loc : Location }.

Definition secondsPerDay : Z := 86400.
Definition daysPer400Years : Z := 365 * 400 + 97.
Definition daysPer100Years : Z := 365 * 100 + 24.
Definition daysPer4Years : Z := 365 * 4 + 1.
(** Days from January 1 of year 1 to January 1 of 1970. *)
Definition unixToInternalDays : Z :=
  1969 * 365 + 1969 / 4 - 1969 / 100 + 1969 / 400.

(** [daysBefore[m]]: days of a non-leap year before month [m+1]. *)
Definition daysBefore : list Z :=
  [0; 31; 59; 90; 120; 151; 181; 212; 243; 273; 304; 334; 365].
Definition daysBeforeAt (i : Z) : Z := nth (Z.to_nat i) daysBefore 0.

Definition isLeap (year : Z) : bool :=
  (Z.rem year 4 =? 0)
  && (negb (Z.rem year 100 =? 0) || (Z.rem year 400 =? 0)).

(** Number of days of month [m] of [year]. *)
Definition daysIn (m : Month) (year : Z) : Z :=
  if (m =? February) && isLeap year then 29
  else daysBeforeAt m - daysBeforeAt (m - 1).

(** [norm hi lo base]: carry [lo] into [hi] so that [0 <= lo < base]. *)
Definition norm (hi lo base : Z) : Z * Z := (hi + lo / base, lo mod base).

(** Days from January 1 of year 1 to January 1 of [year]. *)
Definition daysSinceEpoch (year : Z) : Z :=
  let y := year - 1 in
  let n := y / 400 in
  let y := y - 400 * n in
  let d := daysPer400Years * n in
  let n := y / 100 in
  let y := y - 100 * n in
  let d := d + daysPer100Years * n in
  let n := y / 4 in
  let y := y - 4 * n in
  let d := d + daysPer4Years * n in
  d + 365 * y.

(** Year, month and day of month of a day number counted from
    January 1 of year 1. *)
Definition absDate (days : Z) : Z * Month * Z :=
  let d := days in
  let n := d / daysPer400Years in
  let y := 400 * n in
  let d := d - daysPer400Years * n in
  let n := d / daysPer100Years in
  let n := n - Z.shiftr n 2 in
  let y := y + 100 * n in
  let d := d - daysPer100Years * n in
  let n := d / daysPer4Years in
  let y := y + 4 * n in
  let d := d - daysPer4Years * n in
  let n := d / 365 in
  let n := n - Z.shiftr n 2 in
  let y := y + n in
  let d := d - 365 * n in
  let year := y + 1 in
  let day := d in
  if isLeap year && (day =? 31 + 29 - 1) then (year, February, 29)
  else
    let day := if isLeap year && (day >? 31 + 29 - 1) then day - 1 else day in
    let month := day / 31 in
    let end_ := daysBeforeAt (month + 1) in
    let '(month, begin) :=
      if day >=? end_ then (month + 1, end_) else (month, daysBeforeAt month) in
    (year, month + 1, day - begin + 1).

(** The day number of the wall-clock date of [t] in its location. *)
Definition absDays (t : Time) : Z :=
  (unixSec t + loc t) / secondsPerDay + unixToInternalDays.

Definition Year (t : Time) : Z := (absDate (absDays t)).1.1.
Definition MonthOf (t : Time) : Month := (absDate (absDays t)).1.2.
Definition Day (t : Time) : Z := (absDate (absDays t)).2.

(** [time.Date]: out-of-range fields are normalised, so that month 13 is
    January of the next year and day 0 the last day of the previous month. *)
Definition Date (year : Z) (month : Month) (day hour min sec nsec : Z)
    (loc : Location) : Time :=
  let m := month - 1 in
  let '(year, m) := norm year m 12 in
  let month := m + 1 in
  let '(sec, nsec) := norm sec nsec 1000000000 in
  let '(min, sec) := norm min sec 60 in
  let '(hour, min) := norm hour min 60 in
  let '(day, hour) := norm day hour 24 in
  let d := daysSinceEpoch year in
  let d := d + daysBeforeAt (month - 1) in
  let d := if isLeap year && (month >=? March) then d + 1 else d in
  let d := d + (day - 1) in
  let abs := d * secondsPerDay + (hour * 3600 + min * 60 + sec) in
  let unix := abs - unixToInternalDays * secondsPerDay in
  mkTime (unix - loc) nsec loc.

(** Seconds and nanoseconds elapsed since midnight of the wall-clock day. *)
Definition clockSeconds (t : Time) : Z := (unixSec t + loc t) mod secondsPerDay.

(** [t.AddDate(years, months, days)]: the date fields are shifted and
    normalised again by [Date], the clock and the location are kept. *)
Definition AddDate (t : Time) (years months days : Z) : Time :=
  let '(year, month, day) := absDate (absDays t) in
  Date (year + years) (month + months) (day + days)
       0 0 (clockSeconds t) (nsec t) (loc t).

(** [t.UTC()]: the same instant, read in UTC. *)
Definition toUTC (t : Time) : Time := mkTime (unixSec t) (nsec t) UTC.

(** [t.Add(d)]. *)
Definition Add (t : Time) (d : Duration) : Time :=
  let '(sec, ns) := norm (unixSec t) (nsec t + d) 1000000000 in
  mkTime sec ns (loc t).

(** [t.Sub(u)]: the elapsed nanoseconds, saturated to the range of an
    [int64]. *)
Definition Sub (t u : Time) : Duration :=
  let d := (unixSec t - unixSec u) * Second + (nsec t - nsec u) in
  if d <? minDuration then minDuration
  else if maxDuration <? d then maxDuration
  else d.

(** [d.Seconds()]: the duration as a floating-point number of seconds,
    computed as [float64(sec) + float64(nsec)/1e9] with [sec = d / Second]
    and [nsec = d % Second] (truncated division). *)
Definition Seconds (d : Duration) : float64 :=
  let sec := Z.quot d Second in
  let nsec := Z.rem d Second in
  f64.add (f64.ofInt sec) (f64.div (f64.ofInt nsec) 1e9%float).

(** Decimal digits of a non-negative integer, most significant first. *)
Fixpoint digitsFuel (fuel : nat) (n : Z) (acc : string) : string :=
  match fuel with
  | O => acc
  | S fuel' =>
      let acc' := String (ascii_of_nat (48 + Z.to_nat (n mod 10))) acc in
      if n / 10 =? 0 then acc' else digitsFuel fuel' (n / 10) acc'
  end.

Definition digits (n : Z) : string :=
  digitsFuel (S (Z.to_nat (Z.log2 n))) n "".

Fixpoint zeros (n : nat) : string :=
  match n with O => "" | S k => String "0" (zeros k) end.

(** [appendInt]: sign, zero padding up to [width] digits, digits. *)
Definition appendInt (x : Z) (width : nat) : string :=
  let ds := digits (Z.abs x) in
  (if x <? 0 then "-" else "") +:+ zeros (width - String.length ds) +:+ ds.

(** The value an [int64] computation wraps to. *)
Definition wrapInt64 (z : Z) : Z := (z + 2 ^ 63) mod 2 ^ 64 - 2 ^ 63.

(** [time.Duration(seconds) * time.Second]: a product of [int64]s. *)
Definition secondsDuration (seconds : Z) : Duration :=
  wrapInt64 (seconds * Second).

(** [t.Format("2006-01-02")]. *)
Definition FormatDate (t : Time) : string :=
  let '(year, month, day) := absDate (absDays t) in
  appendInt year 4 +:+ "-" +:+ appendInt month 2 +:+ "-" +:+ appendInt day 2.

End time.

(** ** package equinix: the data model *)

Module equinix.

Module Project.
Record t : Type := mk { Id : string; Name : string }.
(** The zero value of the struct. *)
Definition zero : t := mk "" "".
End Project.

Module UsageRecord.
Record t : Type := mk {
  Date : string;
  Metro : string;
  Plan : string;
  Type_ : string;
  Name : string;
  Price : float64;
  Quantity : float64;
  Total : float64
}.
End UsageRecord.

(** The client value [Equinix{Token}]. *)
Module Equinix.
Record t : Type := mk { Token : string }.
End Equinix.

(** *** The HTTP transport

    A request carries what the client sets; a response its status code and
    its body, which [io.ReadAll] either yields or fails to read. *)

Module Request.
Record t : Type := mk { Method : string; URL : string; XAuthToken : string }.
End Request.

Module Response.
Record t : Type := mk { StatusCode : Z; Body : string + string }.
End Response.

(** The errors of the client, one per [fmt.Errorf] of the source; [cause]
    is the text of the wrapped error, [project] the project id. *)
Inductive error : Type :=
| ErrNewRequest (project cause : string)
| ErrDo (project cause : string)
| ErrReadBody (project cause : string)
| ErrStatus (project : string) (StatusCode : Z) (body : string)
| ErrUnmarshal (project cause : string).

#[global] Instance Project_eq_dec : EqDecision Project.t.
Proof. solve_decision. Defined.

#[global] Instance Project_countable : Countable Project.t :=
  inj_countable' (fun p => (Project.Id p, Project.Name p))
                 (fun '(i, n) => Project.mk i n)
                 (fun p => match p with Project.mk _ _ => eq_refl end).

Section Client.

(** The outside world: what [url.Parse] refuses, how the network answers a
    request (a transport error or a response) and what [json.Unmarshal]
    makes of a body. *)
Context {World : Type}.
Variable parseURL : string -> option string.
Variable Do : World -> Request.t -> World * (string + Response.t).
Variable unmarshalProjects : string -> string + list Project.t.
Variable unmarshalUsages : string -> string + list UsageRecord.t.

(** The state threaded through the client: the world and the requests
    sent so far, oldest first. *)
Record Net : Type := mkNet { world : World; sent : list Request.t }.

Definition NewRequest (method url : string) : string + Request.t :=
  match parseURL url with
  | Some cause => inl cause
  | None => inr (Request.mk method url "")
  end.

(** [client.Do(req)]. *)
Definition send (req : Request.t) (n : Net)
    : Net * (string + Response.t) :=
  let '(w, r) := Do (world n) req in (mkNet w (sent n ++ [req]), r).

Definition projectsURI : string :=
  "https://api.equinix.com/metal/v1/projects?page=1&per_page=1000&include=id,name".

Definition GetProjects (eq : Equinix.t) (n : Net)
    : Net * (error + list Project.t) :=
  match NewRequest "GET" projectsURI with
  | inl cause => (n, inl (ErrNewRequest "" cause))
  | inr req =>
      let req := Request.mk (Request.Method req) (Request.URL req)
                            (Equinix.Token eq) in
      let '(n, r) := send req n in
      match r with
      | inl cause => (n, inl (ErrDo "" cause))
      | inr resp =>
          match Response.Body resp with
          | inl cause => (n, inl (ErrReadBody "" cause))
          | inr bytes =>
              if negb (Response.StatusCode resp =? 200)
              then (n, inl (ErrStatus "" (Response.StatusCode resp) bytes))
              else
                match unmarshalProjects bytes with
                | inl cause => (n, inl (ErrUnmarshal "" cause))
                | inr projects => (n, inr projects)
                end
          end
      end
  end.

Definition usagesURI (project : Project.t) (startDate endDate : time.Time)
    : string :=
  "https://api.equinix.com/metal/v1/projects/" +:+ Project.Id project
  +:+ "/usages?created[after]=" +:+ time.FormatDate startDate
  +:+ "T00:00:00&created[before]=" +:+ time.FormatDate endDate
  +:+ "T23:59:59.999".

(** The body of the loop of [GetUsages], up to the assignment into the
    map: the usage records of one project, or the error returned. *)
Definition fetchUsages (eq : Equinix.t) (startDate endDate : time.Time)
    (project : Project.t) (n : Net) : Net * (error + list UsageRecord.t) :=
  let uri := usagesURI project startDate endDate in
  match NewRequest "GET" uri with
  | inl cause => (n, inl (ErrNewRequest (Project.Id project) cause))
  | inr req =>
      let req := Request.mk (Request.Method req) (Request.URL req)
                            (Equinix.Token eq) in
      let '(n, r) := send req n in
      match r with
      | inl cause => (n, inl (ErrDo (Project.Id project) cause))
      | inr resp =>
          match Response.Body resp with
          | inl cause => (n, inl (ErrReadBody (Project.Id project) cause))
          | inr bytes =>
              if negb (Response.StatusCode resp =? 200)
              then (n, inl (ErrStatus (Project.Id project)
                                      (Response.StatusCode resp) bytes))
              else
                match unmarshalUsages bytes with
                | inl cause => (n, inl (ErrUnmarshal (Project.Id project) cause))
                | inr records => (n, inr records)
                end
          end
      end
  end.

(** The loop of [GetUsages] over the remaining [projects], [usages] being
    the map filled so far; [key] is the map key of a project. *)
Fixpoint GetUsagesLoop {K : Type} `{Countable K} (key : Project.t -> K)
    (eq : Equinix.t) (startDate endDate : time.Time)
    (projects : list Project.t) (usages : gmap K (list UsageRecord.t))
    (n : Net) : Net * (error + gmap K (list UsageRecord.t)) :=
  match projects with
  | [] => (n, inr usages)
  | project :: rest =>
      match fetchUsages eq startDate endDate project n with
      | (n, inl err) => (n, inl err)
      | (n, inr records) =>
          GetUsagesLoop key eq startDate endDate rest
                        (<[key project := records]> usages) n
      end
  end.

Definition GetUsagesBy {K : Type} `{Countable K} (key : Project.t -> K)
    (eq : Equinix.t) (startDate endDate : time.Time)
    (projects : list Project.t) (n : Net)
    : Net * (error + gmap K (list UsageRecord.t)) :=
  GetUsagesLoop key eq startDate endDate projects ∅ n.

(** [GetUsages] of [equinix.go]: the map is keyed by the project. *)
Definition GetUsages (eq : Equinix.t) (startDate endDate : time.Time)
    (projects : list Project.t) (n : Net)
    : Net * (error + gmap Project.t (list UsageRecord.t)) :=
  GetUsagesBy (fun project => project) eq startDate endDate projects n.

(** Modelled from the spec: the [GetUsages] that the commands are built
    against is not among the sources.  [cost_summary.go] passes the result
    to [splitGateways] and [summarize], which take a
    [map[string][]UsageRecord], and the upload stores the key in the
    [string] field [project] of a row, whereas the [GetUsages] of
    [equinix.go] returns a map keyed by the [Project] struct.  The spec
    names the grouping key "project id or project name" and applies the
    gateway split to "the single project whose name is gateway", read in
    the code as [usages["gateway"]]: the missing variant is taken to
    differ from [GetUsages] of [equinix.go] in the key alone, which is the
    name of the project.  Projects of the same name then share one entry,
    which holds the records of the last of them. *)
Definition GetUsagesByName (eq : Equinix.t) (startDate endDate : time.Time)
    (projects : list Project.t) (n : Net)
    : Net * (error + gmap string (list UsageRecord.t)) :=
  GetUsagesBy Project.Name eq startDate endDate projects n.

End Client.

End equinix.

Import equinix.

(** ** package common *)

Module common.

(** [PartialToFullIso] completes a partial ISO datetime; the format is
    selected by the length alone. *)
Definition PartialToFullIso (partial : string) : string :=
  match String.length partial with
  | 10%nat => partial +:+ "T00:00:00.000-0000"
  | 19%nat => partial +:+ ".000-0000"
  | 23%nat => partial +:+ "-0000"
  | _ => partial
  end.

(** [ParsePartialIsoTime] parses a partial ISO timestamp once it is
    completed; [parseISO] stands for [time.Parse] with the layout
    [ISO8601_FORMAT], [None] for its error. *)
Definition ParsePartialIsoTime (parseISO : string -> option time.Time)
    (ts : string) : option time.Time :=
  let t := PartialToFullIso ts in
  parseISO t.

End common.

(** ** package strings (standard library) *)

Module Strings.

Definition HasPrefix (s prefix : string) : bool := String.prefix prefix s.

(** [Contains s substr]: [substr] occurs in [s]. *)
Fixpoint Contains (s substr : string) : bool :=
  String.prefix substr s
  || match s with
     | EmptyString => false
     | String _ s' => Contains s' substr
     end.

Definition upperByte (c : ascii) : ascii :=
  let n := nat_of_ascii c in
  if (97 <=? n)%nat && (n <=? 122)%nat then ascii_of_nat (n - 32) else c.

(** [ToUpper] on ASCII text: the letters a-z are raised, every other byte
    is kept.  [strings.ToUpper] of Go also maps the letters outside ASCII,
    through the Unicode tables of its library, which are not modelled:
    names with such letters are outside the model. *)
Fixpoint ToUpper (s : string) : string :=
  match s with
  | EmptyString => EmptyString
  | String c s' => String (upperByte c) (ToUpper s')
  end.

End Strings.

(** ** Ranging over a Go map *)

(** [mapRange m entries]: [entries] is one order in which
    [for k, v := range m] may visit the map. *)
Definition mapRange {V : Type} (m : gmap string V)
    (entries : list (string * V)) : Prop :=
  entries ≡ₚ map_to_list m.

(** [m[k]] for a map of slices: a missing key reads as the nil slice. *)
Definition index {V : Type} (m : gmap string (list V)) (k : string) : list V :=
  default [] (m !! k).

(** ** package cmd: cost_summary *)

Module cmd.

Module SummaryRecord.
Record t : Type := mk {
  Price : float64;
  Quantity : float64;
  Total : float64;
  BasePrice : float64;
  BaseQuantity : float64;
  BaseTotal : float64
}.
Definition zero : t := mk f64.zero f64.zero f64.zero f64.zero f64.zero f64.zero.
End SummaryRecord.

Definition ReportType : Type := string.

(** Display hardware reservations. *)
Definition ReservationsReport : ReportType := "reservations".
(** Display everything except hardware reservations. *)
Definition NonReservationsReport : ReportType := "".

Definition includeUsage (t : ReportType) (usage : UsageRecord.t) : bool :=
  (String.eqb t ReservationsReport
     && String.eqb (UsageRecord.Type_ usage) "HardwareReservation")
  || (String.eqb t NonReservationsReport
        && negb (String.eqb (UsageRecord.Type_ usage) "HardwareReservation")).

(** Body of the first inner loop of [summarize]. *)
Definition addUsage (reportType : ReportType) (summary : SummaryRecord.t)
    (usage : UsageRecord.t) : SummaryRecord.t :=
  if includeUsage reportType usage then
    SummaryRecord.mk
      (f64.add (SummaryRecord.Price summary) (UsageRecord.Price usage))
      (f64.add (SummaryRecord.Quantity summary) (UsageRecord.Quantity usage))
      (f64.add (SummaryRecord.Total summary) (UsageRecord.Total usage))
      (SummaryRecord.BasePrice summary)
      (SummaryRecord.BaseQuantity summary)
      (SummaryRecord.BaseTotal summary)
  else summary.

(** Body of the second inner loop of [summarize]. *)
Definition addBaseUsage (reportType : ReportType) (summary : SummaryRecord.t)
    (usage : UsageRecord.t) : SummaryRecord.t :=
  if includeUsage reportType usage then
    SummaryRecord.mk
      (SummaryRecord.Price summary)
      (SummaryRecord.Quantity summary)
      (SummaryRecord.Total summary)
      (f64.add (SummaryRecord.BasePrice summary) (UsageRecord.Price usage))
      (f64.add (SummaryRecord.BaseQuantity summary) (UsageRecord.Quantity usage))
      (f64.add (SummaryRecord.BaseTotal summary) (UsageRecord.Total usage))
  else summary.

(** The summary of one project: both inner loops, from the zero record. *)
Definition summarizeProject (reportType : ReportType)
    (projectUsages baseUsages : list UsageRecord.t) : SummaryRecord.t :=
  let summary := SummaryRecord.zero in
  let summary := fold_left (addUsage reportType) projectUsages summary in
  fold_left (addBaseUsage reportType) baseUsages summary.

(** [totals.X += summary.X] for the six fields. *)
Definition addTotals (totals summary : SummaryRecord.t) : SummaryRecord.t :=
  SummaryRecord.mk
    (f64.add (SummaryRecord.Price totals) (SummaryRecord.Price summary))
    (f64.add (SummaryRecord.Quantity totals) (SummaryRecord.Quantity summary))
    (f64.add (SummaryRecord.Total totals) (SummaryRecord.Total summary))
    (f64.add (SummaryRecord.BasePrice totals) (SummaryRecord.BasePrice summary))
    (f64.add (SummaryRecord.BaseQuantity totals) (SummaryRecord.BaseQuantity summary))
    (f64.add (SummaryRecord.BaseTotal totals) (SummaryRecord.BaseTotal summary)).

(** One iteration of the outer loop [for project, projectUsages := range usages]. *)
Definition summarizeStep (reportType : ReportType)
    (baseline : gmap string (list UsageRecord.t))
    (acc : gmap string SummaryRecord.t * SummaryRecord.t)
    (entry : string * list UsageRecord.t)
    : gmap string SummaryRecord.t * SummaryRecord.t :=
  let '(perProjectSummary, totals) := acc in
  let '(project, projectUsages) := entry in
  let baseUsages := index baseline project in
  let summary := summarizeProject reportType projectUsages baseUsages in
  (<[project := summary]> perProjectSummary, addTotals totals summary).

(** [summarize] along one visiting order [entries] of the [usages] map. *)
Definition summarizeEntries (reportType : ReportType)
    (baseline : gmap string (list UsageRecord.t))
    (entries : list (string * list UsageRecord.t))
    : gmap string SummaryRecord.t * SummaryRecord.t :=
  fold_left (summarizeStep reportType baseline) entries (∅, SummaryRecord.zero).

(** The results [summarize] may return: one per visiting order of [usages]. *)
Inductive summarize (reportType : ReportType)
    (baseline usages : gmap string (list UsageRecord.t))
    : gmap string SummaryRecord.t * SummaryRecord.t -> Prop :=
| summarize_intro (entries : list (string * list UsageRecord.t)) :
    mapRange usages entries ->
    summarize reportType baseline usages
      (summarizeEntries reportType baseline entries).

(** *** The gateway split *)

(** The key [k] chosen for one usage of the gateway project; [""] is the
    zero value of [var k string], kept when neither test succeeds. *)
Definition gatewayKey (u : UsageRecord.t) : string :=
  if Strings.HasPrefix (UsageRecord.Name u) "ipfs-"
     || (String.eqb (UsageRecord.Type_ u) "HardwareReservation"
         && Strings.Contains (UsageRecord.Plan u) "medium")
  then "gateway-kubo"
  else if Strings.HasPrefix (UsageRecord.Name u) "gateway-"
          || (String.eqb (UsageRecord.Type_ u) "HardwareReservation"
              && Strings.Contains (UsageRecord.Plan u) "small")
  then "gateway-lb"
  else "".

(** [usages[k] = append(usages[k], u)]. *)
Definition appendUsage (usages : gmap string (list UsageRecord.t))
    (u : UsageRecord.t) : gmap string (list UsageRecord.t) :=
  let k := gatewayKey u in
  <[k := (index usages k ++ [u])%list]> usages.

Definition splitGateways (usages : gmap string (list UsageRecord.t))
    : gmap string (list UsageRecord.t) :=
  let gateways := index usages "gateway" in
  fold_left appendUsage gateways ∅.

(** *** The projects to fetch *)

(** Gateway-only mode: a slice of length one whose element is overwritten
    by every project named "gateway". *)
Definition gatewayProjects (projects : list Project.t) : list Project.t :=
  fold_left
    (fun projs p =>
       if String.eqb (Project.Name p) "gateway" then <[0%nat := p]> projs
       else projs)
    projects [Project.zero].

(** The comparison handed to [sort.Slice]. *)
Definition less (a b : Project.t) : bool :=
  String.ltb (Strings.ToUpper (Project.Name a))
             (Strings.ToUpper (Project.Name b)).

(** What [sort.Slice] guarantees of its result: a rearrangement of the
    slice in which no element is [less] than an earlier one. *)
Definition sortSlice (projects sorted : list Project.t) : Prop :=
  sorted ≡ₚ projects
  /\ forall (i j : nat) (a b : Project.t),
       (i < j)%nat -> sorted !! i = Some a -> sorted !! j = Some b ->
       less b a = false.

(** *** The command [cost_summary] *)

Module CostSummaryT.
Record t : Type := mk {
  equinix : Equinix.t;
  reportType : ReportType;
  onlyGateways : bool;
  startDate : time.Time;
  endDate : time.Time;
  baselineStart : time.Time;
  baselineEnd : time.Time
}.
End CostSummaryT.

(** The projects handed to [GetUsages]. *)
Definition fetchedProjects (s : CostSummaryT.t)
    (projects fetched : list Project.t) : Prop :=
  if CostSummaryT.onlyGateways s then fetched = gatewayProjects projects
  else sortSlice projects fetched.

(** A printed line, as the arguments handed to [Printf]: the header with
    its two dates, or a row with its label, baseline total, total and
    percentage of change.  The layout that the format string gives them
    ([%-15.15s] pads the label and cuts it to 15 characters, [%11.2f]
    rounds the amounts to two decimals) is not modelled. *)
Inductive Line : Type :=
| Header (baselineEnd endDate : string)
| Row (label : string) (baseTotal total change : float64).

Definition change (summary : SummaryRecord.t) : float64 :=
  PrimFloat.div
    (PrimFloat.mul 100%float
       (PrimFloat.sub (SummaryRecord.Total summary)
                      (SummaryRecord.BaseTotal summary)))
    (SummaryRecord.BaseTotal summary).

Definition rowOf (entry : string * SummaryRecord.t) : Line :=
  Row entry.1 (SummaryRecord.BaseTotal entry.2) (SummaryRecord.Total entry.2)
      (change entry.2).

(** The lines printed for one visiting order [rows] of the summary map. *)
Definition report (s : CostSummaryT.t)
    (rows : list (string * SummaryRecord.t)) (totals : SummaryRecord.t)
    : list Line :=
  Header (time.FormatDate (CostSummaryT.baselineEnd s))
         (time.FormatDate (CostSummaryT.endDate s))
  :: (map rowOf rows ++ [rowOf ("Total", totals)])%list.

(** How a command ends: [os.Exit(1)] or a normal return after printing. *)
Inductive Outcome : Type :=
| Exit1
| Printed (lines : list Line).

(** *** The command [bigquery] *)

(** A row of the table. *)
Module usageRecord.
Record t : Type := mk {
  startTime : time.Time;
  endTime : time.Time;
  project : string;
  metro : string;
  plan : string;
  tpe : string;
  name : string;
  price : float64;
  quantity : float64;
  total : float64
}.
End usageRecord.

Module UploadToBigqueryT.
Record t : Type := mk {
  equinix : Equinix.t;
  startTime : time.Time;
  endTime : time.Time;
  projectId : string;
  datasetId : string;
  tableId : string
}.
End UploadToBigqueryT.

(** [if u.Plan == "Outbound Bandwidth" { u.Type = u.Plan }]. *)
Definition normalizeType (u : UsageRecord.t) : UsageRecord.t :=
  if String.eqb (UsageRecord.Plan u) "Outbound Bandwidth" then
    UsageRecord.mk (UsageRecord.Date u) (UsageRecord.Metro u)
      (UsageRecord.Plan u) (UsageRecord.Plan u) (UsageRecord.Name u)
      (UsageRecord.Price u) (UsageRecord.Quantity u) (UsageRecord.Total u)
  else u.

(** The test [up.endTime.Sub(up.startTime).Seconds() != 86400]. *)
Definition notFullDay (up : UploadToBigqueryT.t) : bool :=
  f64.neq
    (time.Seconds (time.Sub (UploadToBigqueryT.endTime up)
                            (UploadToBigqueryT.startTime up)))
    86400%float.

(** [time.Date(start.Year(), start.Month()+1, 0, 0, 0, 0, 0, time.UTC).Day()]. *)
Definition daysInMonth (up : UploadToBigqueryT.t) : Z :=
  let startTime := UploadToBigqueryT.startTime up in
  time.Day (time.Date (time.Year startTime) (time.MonthOf startTime + 1)
                      0 0 0 0 0 time.UTC).

(** The pro-rating of a hardware reservation: [None] stands for
    [continue], the record being skipped. *)
Definition prorate (up : UploadToBigqueryT.t) (u : UsageRecord.t)
    : option UsageRecord.t :=
  if String.eqb (UsageRecord.Type_ u) "HardwareReservation" then
    if notFullDay up then None
    else
      let daysInMonth := f64.ofInt (daysInMonth up) in
      Some (UsageRecord.mk (UsageRecord.Date u) (UsageRecord.Metro u)
              (UsageRecord.Plan u) (UsageRecord.Type_ u)
              "Hardware Reservation daily pro-rated"
              (f64.div (UsageRecord.Price u) daysInMonth)
              (UsageRecord.Quantity u)
              (f64.div (UsageRecord.Total u) daysInMonth))
  else Some u.

Definition bqRow (up : UploadToBigqueryT.t) (project : string)
    (u : UsageRecord.t) : usageRecord.t :=
  usageRecord.mk (UploadToBigqueryT.startTime up)
    (UploadToBigqueryT.endTime up) project
    (UsageRecord.Metro u) (UsageRecord.Plan u) (UsageRecord.Type_ u)
    (UsageRecord.Name u) (UsageRecord.Price u) (UsageRecord.Quantity u)
    (UsageRecord.Total u).

(** One iteration of the loop over the usages of a project: [items]
    grows by one row, or stays as it is when the record is skipped. *)
Definition appendItem (up : UploadToBigqueryT.t) (project : string)
    (items : list usageRecord.t) (u : UsageRecord.t) : list usageRecord.t :=
  let u := normalizeType u in
  match prorate up u with
  | None => items
  | Some u => (items ++ [bqRow up project u])%list
  end.

(** The batch handed to [inserter.Put] for one project. *)
Definition uploadItems (up : UploadToBigqueryT.t) (project : string)
    (usages : list UsageRecord.t) : list usageRecord.t :=
  fold_left (appendItem up project) usages [].

(** *** Running the commands *)

Section Run.

Context {World : Type}.
Variable parseURL : string -> option string.
Variable Do : World -> Request.t -> World * (string + Response.t).
Variable unmarshalProjects : string -> string + list Project.t.
Variable unmarshalUsages : string -> string + list UsageRecord.t.
(** [bq.NewClient] and [inserter.Put]: [Some cause] is a failure. *)
Variable NewClient : World -> string -> World * option string.
Variable Put :
  World -> string -> string -> list usageRecord.t -> World * option string.

(** [if s.onlyGateways { usages = splitGateways(usages) }]. *)
Definition splitIfGateways (s : CostSummaryT.t)
    (usages : gmap string (list UsageRecord.t))
    : gmap string (list UsageRecord.t) :=
  if CostSummaryT.onlyGateways s then splitGateways usages else usages.

(** [CostSummaryT.Run]: from the state [n] of the network, the command
    ends in state [n'] with the given outcome.  The relation has one rule
    per way out of the function. *)
Inductive CostSummaryRun (s : CostSummaryT.t) (n : Net)
    : Net -> Outcome -> Prop :=
| CostSummary_projects_failed n1 err :
    GetProjects parseURL Do unmarshalProjects (CostSummaryT.equinix s) n
      = (n1, inl err) ->
    CostSummaryRun s n n1 Exit1
| CostSummary_usages_failed n1 projects fetched n2 err :
    GetProjects parseURL Do unmarshalProjects (CostSummaryT.equinix s) n
      = (n1, inr projects) ->
    fetchedProjects s projects fetched ->
    GetUsagesByName parseURL Do unmarshalUsages (CostSummaryT.equinix s)
      (CostSummaryT.startDate s)
      (time.AddDate (CostSummaryT.endDate s) 0 0 1) fetched n1
      = (n2, inl err) ->
    CostSummaryRun s n n2 Exit1
| CostSummary_baseline_failed n1 projects fetched n2 usages n3 err :
    GetProjects parseURL Do unmarshalProjects (CostSummaryT.equinix s) n
      = (n1, inr projects) ->
    fetchedProjects s projects fetched ->
    GetUsagesByName parseURL Do unmarshalUsages (CostSummaryT.equinix s)
      (CostSummaryT.startDate s)
      (time.AddDate (CostSummaryT.endDate s) 0 0 1) fetched n1
      = (n2, inr usages) ->
    GetUsagesByName parseURL Do unmarshalUsages (CostSummaryT.equinix s)
      (CostSummaryT.baselineStart s)
      (time.AddDate (CostSummaryT.baselineEnd s) 0 0 1) fetched n2
      = (n3, inl err) ->
    CostSummaryRun s n n3 Exit1
| CostSummary_printed n1 projects fetched n2 usages n3 baseline
    perProjectSummary totals rows :
    GetProjects parseURL Do unmarshalProjects (CostSummaryT.equinix s) n
      = (n1, inr projects) ->
    fetchedProjects s projects fetched ->
    GetUsagesByName parseURL Do unmarshalUsages (CostSummaryT.equinix s)
      (CostSummaryT.startDate s)
      (time.AddDate (CostSummaryT.endDate s) 0 0 1) fetched n1
      = (n2, inr usages) ->
    GetUsagesByName parseURL Do unmarshalUsages (CostSummaryT.equinix s)
      (CostSummaryT.baselineStart s)
      (time.AddDate (CostSummaryT.baselineEnd s) 0 0 1) fetched n2
      = (n3, inr baseline) ->
    summarize (CostSummaryT.reportType s) (splitIfGateways s baseline)
      (splitIfGateways s usages) (perProjectSummary, totals) ->
    mapRange perProjectSummary rows ->
    CostSummaryRun s n n3 (Printed (report s rows totals)).

(** The loop of [UploadToBigqueryT.Run] over one visiting order of the
    usages map: the batches handed to [inserter.Put] so far, and whether
    the loop ran to its end ([false]: a [Put] failed and the process
    exited). *)
Fixpoint putBatches (up : UploadToBigqueryT.t)
    (entries : list (string * list UsageRecord.t))
    (batches : list (list usageRecord.t)) (w : World)
    : World * list (list usageRecord.t) * bool :=
  match entries with
  | [] => (w, batches, true)
  | (project, usages) :: rest =>
      let items := uploadItems up project usages in
      match Put w (UploadToBigqueryT.datasetId up)
                (UploadToBigqueryT.tableId up) items with
      | (w, Some _) => (w, (batches ++ [items])%list, false)
      | (w, None) => putBatches up rest (batches ++ [items])%list w
      end
  end.


End Run.

(** *** Building the commands from the flags *)

(** The flags of [cost_summary], as [cmd.Parse] leaves them. *)
Module CostSummaryFlags.
Record t : Type := mk {
  h : bool;
  d : Z;
  e : string;
  b : string;
  t_ : string;
  g : bool
}.
End CostSummaryFlags.

(** The flags of [bigquery]. *)
Module UploadFlags.
Record t : Type := mk {
  h : bool;
  s : string;
  i : Z;
  p : string;
  d : string;
  t_ : string
}.
End UploadFlags.

(** How a constructor ends: [os.Exit(code)], or the command it returns. *)
Inductive Constructed (A : Type) : Type :=
| ExitCode (code : Z)
| Built (command : A).

Arguments ExitCode {A} code.
Arguments Built {A} command.

Section Constructors.

(** [time.Parse("2006-01-02", _)] and [time.Parse(ISO8601_FORMAT, _)];
    [None] is a parse error. *)
Variable parseDate : string -> option time.Time.
Variable parseISO : string -> option time.Time.

(** [CostSummary].  The day counts are Go [int]s; the arithmetic on them
    is taken in [Z]. *)
Definition CostSummary (eq : Equinix.t) (flags : CostSummaryFlags.t)
    : Constructed CostSummaryT.t :=
  if CostSummaryFlags.h flags then ExitCode 0
  else
    let days := CostSummaryFlags.d flags in
    let typeF := CostSummaryFlags.t_ flags in
    match (if String.eqb typeF "reservations" then Some ReservationsReport
           else if String.eqb typeF "" then Some NonReservationsReport
           else None) with
    | None => ExitCode 1
    | Some reportType =>
        match parseDate (CostSummaryFlags.e flags) with
        | None => ExitCode 1
        | Some endTime =>
            let startTime := time.AddDate endTime 0 0 (- days + 1) in
            match (if String.eqb (CostSummaryFlags.b flags) ""
                   then Some (time.AddDate startTime 0 0 (-1))
                   else parseDate (CostSummaryFlags.b flags)) with
            | None => ExitCode 1
            | Some baseEnd =>
                let baseStart := time.AddDate baseEnd 0 0 (- days + 1) in
                Built (CostSummaryT.mk eq reportType (CostSummaryFlags.g flags)
                         startTime endTime baseStart baseEnd)
            end
        end
    end.

(** [UploadToBigquery]. *)
Definition UploadToBigquery (eq : Equinix.t) (flags : UploadFlags.t)
    : Constructed UploadToBigqueryT.t :=
  if UploadFlags.h flags then ExitCode 0
  else
    match common.ParsePartialIsoTime parseISO (UploadFlags.s flags) with
    | None => ExitCode 1
    | Some startTime =>
        let endTime :=
          time.Add startTime (time.secondsDuration (UploadFlags.i flags)) in
        Built (UploadToBigqueryT.mk eq startTime endTime
                 (UploadFlags.p flags) (UploadFlags.d flags)
                 (UploadFlags.t_ flags))
    end.

End Constructors.

End cmd.

Import cmd.
Import time.

(** * Vocabulary of the properties

    The notions the statements below are worded with, and the sample data
    they are tried on. *)

Definition included (reportType : ReportType) (usages : list UsageRecord.t)
    : list UsageRecord.t :=
  List.filter (includeUsage reportType) usages.

Definition sumOf (field : UsageRecord.t -> float64)
    (usages : list UsageRecord.t) : float64 :=
  f64.sum (map field usages).

Definition projectSums (reportType : ReportType)
    (projectUsages baseUsages : list UsageRecord.t) : SummaryRecord.t :=
  SummaryRecord.mk
    (sumOf UsageRecord.Price (included reportType projectUsages))
    (sumOf UsageRecord.Quantity (included reportType projectUsages))
    (sumOf UsageRecord.Total (included reportType projectUsages))
    (sumOf UsageRecord.Price (included reportType baseUsages))
    (sumOf UsageRecord.Quantity (included reportType baseUsages))
    (sumOf UsageRecord.Total (included reportType baseUsages)).

Definition usage (type_ name plan : string) (price quantity total : float64)
    : UsageRecord.t :=
  UsageRecord.mk "" "" plan type_ name price quantity total.

(** The sum of an amount over a list, in an arbitrary arithmetic. *)
Definition sumIn {A : Type} (add : A -> A -> A) (zero : A)
    (amount : UsageRecord.t -> A) (l : list UsageRecord.t) : A :=
  fold_left (fun acc u => add acc (amount u)) l zero.

Definition cents (u : UsageRecord.t) : Z :=
  if String.eqb (UsageRecord.Type_ u) "HardwareReservation" then 31000 else 250.

(** The two rules of the split, as the specification words them. *)
Definition kuboRule (u : UsageRecord.t) : bool :=
  Strings.HasPrefix (UsageRecord.Name u) "ipfs-"
  || (String.eqb (UsageRecord.Type_ u) "HardwareReservation"
      && Strings.Contains (UsageRecord.Plan u) "medium").

Definition lbRule (u : UsageRecord.t) : bool :=
  Strings.HasPrefix (UsageRecord.Name u) "gateway-"
  || (String.eqb (UsageRecord.Type_ u) "HardwareReservation"
      && Strings.Contains (UsageRecord.Plan u) "small").

(** The records of [usages] that the split files under [k]. *)
Definition keyed (k : string) (usages : list UsageRecord.t) : list UsageRecord.t :=
  List.filter (fun u => String.eqb (gatewayKey u) k) usages.

Definition unmatched (usages : gmap string (list UsageRecord.t))
    : list UsageRecord.t :=
  List.filter (fun u => negb (kuboRule u) && negb (lbRule u))
              (index usages "gateway").

Definition isGateway (p : Project.t) : bool := String.eqb (Project.Name p) "gateway".

(** The request [GetUsages] sends for a project. *)
Definition usagesRequest (eq : Equinix.t) (startDate endDate : time.Time)
    (project : Project.t) : Request.t :=
  Request.mk "GET" (usagesURI project startDate endDate) (Equinix.Token eq).

(** The answers that make the fetch of a project fail: a transport error,
    a body that cannot be read, a status other than 200, or a body that is
    not the expected JSON. *)
Definition fetchFailed (unmarshalUsages : string -> string + list UsageRecord.t)
    (r : string + Response.t) : bool :=
  match r with
  | inl _ => true
  | inr resp =>
      match Response.Body resp with
      | inl _ => true
      | inr bytes =>
          negb (Response.StatusCode resp =? 200)
          || match unmarshalUsages bytes with inl _ => true | inr _ => false end
      end
  end.

(** A network in which every project but "p-down" answers with an empty
    usage list and "p-down" answers 503. *)
Definition demoParseURL (url : string) : option string := None.

Definition demoStart : time.Time := time.Date 2023 1 22 0 0 0 0 time.UTC.
Definition demoEnd : time.Time := time.Date 2023 1 23 0 0 0 0 time.UTC.

Definition demoDo (w : unit) (req : Request.t)
    : unit * (string + Response.t) :=
  if Strings.Contains (Request.URL req) "/projects/p-down/"
  then (w, inr (Response.mk 503 (inr "unavailable")))
  else (w, inr (Response.mk 200 (inr (Request.URL req)))).

Definition demoUnmarshalUsages (body : string) : string + list UsageRecord.t :=
  inr [].

Definition alpha : Project.t := Project.mk "p-1" "alpha".
Definition Beta : Project.t := Project.mk "p-2" "Beta".

Definition demoUnmarshalProjects (body : string) : string + list Project.t :=
  inr [alpha; Beta].

Definition demoSummary : CostSummaryT.t :=
  CostSummaryT.mk (Equinix.mk "token") NonReservationsReport false
    (time.Date 2023 1 22 0 0 0 0 time.UTC) (time.Date 2023 1 22 0 0 0 0 time.UTC)
    (time.Date 2023 1 21 0 0 0 0 time.UTC) (time.Date 2023 1 21 0 0 0 0 time.UTC).

Definition label (line : Line) : string :=
  match line with
  | Header _ _ => "Project"
  | Row l _ _ _ => l
  end.

(** The month lengths of one 400-year cycle, month by month: the day
    before the first of the following month, as the upload command
    computes it, against [daysIn].  The index [i] runs over the 4800
    months of the years 1 to 400. *)
Definition monthCheck (i : Z) : bool :=
  let y := i / 12 + 1 in
  let m := i mod 12 + 1 in
  Day (Date y (m + 1) 0 0 0 0 0 UTC) =? daysIn m y.

Fixpoint checkFrom (f : Z -> bool) (start : Z) (count : nat) : bool :=
  match count with
  | O => true
  | S k => f start && checkFrom f (start + 1) k
  end.

(** A record that the upload treats as a hardware reservation: its type
    once [Outbound Bandwidth] plans have had their type overwritten. *)
Definition isReservation (u : UsageRecord.t) : bool :=
  String.eqb (UsageRecord.Type_ (normalizeType u)) "HardwareReservation".

(** The row of a reservation pro-rated over [days] days. *)
Definition dailyRow (up : UploadToBigqueryT.t) (project : string)
    (days : float64) (u : UsageRecord.t) : usageRecord.t :=
  usageRecord.mk (UploadToBigqueryT.startTime up) (UploadToBigqueryT.endTime up)
    project (UsageRecord.Metro u) (UsageRecord.Plan u) "HardwareReservation"
    "Hardware Reservation daily pro-rated"
    (f64.div (UsageRecord.Price u) days) (UsageRecord.Quantity u)
    (f64.div (UsageRecord.Total u) days).

(** The row of any other record. *)
Definition plainRow (up : UploadToBigqueryT.t) (project : string)
    (u : UsageRecord.t) : usageRecord.t :=
  bqRow up project (normalizeType u).

Definition demoUpload (startTime : Time) (seconds : Z) : UploadToBigqueryT.t :=
  UploadToBigqueryT.mk (Equinix.mk "token") startTime
    (Add startTime (seconds * Second)) "bq-project" "billing" "usages".

Definition january22 : Time := Date 2023 1 22 0 0 0 0 UTC.

(** ** Vocabulary of the constructors, the client and the runs *)

(** The day number of a date, the way [Date] counts it. *)
Definition dayNumber (year : Z) (month : Month) (day : Z) : Z :=
  daysSinceEpoch year + daysBeforeAt (month - 1)
  + (if isLeap year && (month >=? March) then 1 else 0) + (day - 1).

(** A well-formed [Time]: the nanoseconds are below one second. *)
Definition validTime (t : Time) : Prop := 0 <= nsec t < 1000000000.

(** The time [days] whole days after [t]. *)
Definition daysAfter (t : Time) (days : Z) : Time :=
  mkTime (unixSec t + secondsPerDay * days) (nsec t) (time.loc t).

(** The report type a [-t] flag selects. *)
Definition reportTypeOf (typeF : string) : option ReportType :=
  if String.eqb typeF "reservations" then Some ReservationsReport
  else if String.eqb typeF "" then Some NonReservationsReport
  else None.

(** The six fields of a summary summed, each left to right from zero, over
    a list of summaries. *)
Definition summarySums (summaries : list SummaryRecord.t) : SummaryRecord.t :=
  SummaryRecord.mk
    (f64.sum (map SummaryRecord.Price summaries))
    (f64.sum (map SummaryRecord.Quantity summaries))
    (f64.sum (map SummaryRecord.Total summaries))
    (f64.sum (map SummaryRecord.BasePrice summaries))
    (f64.sum (map SummaryRecord.BaseQuantity summaries))
    (f64.sum (map SummaryRecord.BaseTotal summaries)).

(** The records that yield a row: all but the reservations of a window
    that is not a full day. *)
Definition uploaded (up : UploadToBigqueryT.t) (u : UsageRecord.t) : bool :=
  negb (isReservation u && notFullDay up).

(** The row of one record, when it yields one. *)
Definition itemOf (up : UploadToBigqueryT.t) (project : string)
    (u : UsageRecord.t) : option usageRecord.t :=
  match prorate up (normalizeType u) with
  | None => None
  | Some u' => Some (bqRow up project u')
  end.

(** The batch of one entry of the usages map. *)
Definition batchOf (up : UploadToBigqueryT.t)
    (entry : string * list UsageRecord.t) : list usageRecord.t :=
  uploadItems up entry.1 entry.2.

(** The project id an error of the client names. *)
Definition errorProject (e : error) : string :=
  match e with
  | ErrNewRequest project _ => project
  | ErrDo project _ => project
  | ErrReadBody project _ => project
  | ErrStatus project _ _ => project
  | ErrUnmarshal project _ => project
  end.

(** The request [GetProjects] sends. *)
Definition projectsRequest (eq : Equinix.t) : Request.t :=
  Request.mk "GET" projectsURI (Equinix.Token eq).

(** ** Further sample data *)

Definition demoParseDate (s : string) : option Time :=
  if String.eqb s "2023-01-22" then Some january22
  else if String.eqb s "2023-01-08" then Some (Date 2023 1 8 0 0 0 0 UTC)
  else None.

Definition demoParseISO (s : string) : option Time :=
  if String.eqb s "2023-01-22T00:00:00.000-0000" then Some january22 else None.

Definition demoFlags : CostSummaryFlags.t :=
  CostSummaryFlags.mk false 7 "2023-01-22" "" "" false.

Definition demoUploadFlags : UploadFlags.t :=
  UploadFlags.mk false "2023-01-22" 86400 "bq-project" "billing" "usages".


(** A sink that accepts empty batches only. *)
Definition demoPut (w : unit) (dataset table : string)
    (items : list usageRecord.t) : unit * option string :=
  (w, match items with [] => None | _ => Some "rejected" end).

Definition demoNode : UsageRecord.t :=
  usage "Instance" "node-1" "c3.small.x86" 2.5%float 1%float 2.5%float.

Definition demoReservation : UsageRecord.t :=
  usage "HardwareReservation" "res-1" "m3.large.x86" 310%float 1%float 310%float.

Definition demoGatewaySummary : CostSummaryT.t :=
  CostSummaryT.mk (Equinix.mk "token") NonReservationsReport true
    january22 january22 (Date 2023 1 21 0 0 0 0 UTC) (Date 2023 1 21 0 0 0 0 UTC).

Definition demoNet : @Net unit := mkNet tt [].

Definition demoDown : Project.t := Project.mk "p-down" "Beta".

Definition demoRows : list (string * SummaryRecord.t) :=
  [("Beta", SummaryRecord.zero); ("alpha", SummaryRecord.zero)].

Definition demoSent : list Request.t :=
  ([projectsRequest (Equinix.mk "token")]
   ++ map (usagesRequest (Equinix.mk "token") (CostSummaryT.startDate demoSummary)
             (AddDate (CostSummaryT.endDate demoSummary) 0 0 1)) [alpha; Beta]
   ++ map (usagesRequest (Equinix.mk "token") (CostSummaryT.baselineStart demoSummary)
             (AddDate (CostSummaryT.baselineEnd demoSummary) 0 0 1)) [alpha; Beta])%list.

Definition gatewayProject : Project.t := Project.mk "p-gw" "gateway".

Definition demoKubo : UsageRecord.t :=
  usage "Instance" "ipfs-node-1" "c3.medium.x86" 1%float 24%float 24%float.

Definition demoLb : UsageRecord.t :=
  usage "Instance" "gateway-lb-1" "c3.small.x86" 0.5%float 24%float 12%float.

Definition demoBandwidth : UsageRecord.t :=
  usage "Outbound Bandwidth" "" "Outbound Bandwidth" 0.25%float 100%float 25%float.

Definition gatewayUnmarshalProjects (body : string) : string + list Project.t :=
  inr [alpha; gatewayProject].

Definition gatewayUnmarshalUsages (body : string) : string + list UsageRecord.t :=
  inr [demoKubo; demoLb; demoBandwidth].


Definition gatewayEntries : list (string * list UsageRecord.t) :=
  [("gateway-kubo", [demoKubo]); ("gateway-lb", [demoLb]); ("", [demoBandwidth])].

Definition gatewayRows : list (string * SummaryRecord.t) :=
  [("gateway-kubo", SummaryRecord.mk 1%float 24%float 24%float 1%float 24%float 24%float);
   ("gateway-lb", SummaryRecord.mk 0.5%float 24%float 12%float 0.5%float 24%float 12%float);
   ("", SummaryRecord.mk 0.25%float 100%float 25%float 0.25%float 100%float 25%float)].

Definition gatewayTotals : SummaryRecord.t :=
  SummaryRecord.mk 1.75%float 148%float 61%float 1.75%float 148%float 61%float.

Definition gatewaySent : list Request.t :=
  [projectsRequest (Equinix.mk "token");
   usagesRequest (Equinix.mk "token") (CostSummaryT.startDate demoGatewaySummary)
     (AddDate (CostSummaryT.endDate demoGatewaySummary) 0 0 1) gatewayProject;
   usagesRequest (Equinix.mk "token") (CostSummaryT.baselineStart demoGatewaySummary)
     (AddDate (CostSummaryT.baselineEnd demoGatewaySummary) 0 0 1) gatewayProject].







(** * Properties *)

Section Summarize.

Variable reportType : ReportType.

Lemma fold_addUsage (l : list UsageRecord.t) : forall s : SummaryRecord.t,
  fold_left (addUsage reportType) l s =
  SummaryRecord.mk
    (f64.sumFrom (SummaryRecord.Price s)
       (map UsageRecord.Price (included reportType l)))
    (f64.sumFrom (SummaryRecord.Quantity s)
       (map UsageRecord.Quantity (included reportType l)))
    (f64.sumFrom (SummaryRecord.Total s)
       (map UsageRecord.Total (included reportType l)))
    (SummaryRecord.BasePrice s) (SummaryRecord.BaseQuantity s)
    (SummaryRecord.BaseTotal s).
Proof.
  induction l as [|u l IH]; intros s.
  - now destruct s.
  - cbn [fold_left included List.filter]. rewrite IH. unfold addUsage, included.
    destruct (includeUsage reportType u); reflexivity.
Qed.

Lemma fold_addBaseUsage (l : list UsageRecord.t) : forall s : SummaryRecord.t,
  fold_left (addBaseUsage reportType) l s =
  SummaryRecord.mk
    (SummaryRecord.Price s) (SummaryRecord.Quantity s) (SummaryRecord.Total s)
    (f64.sumFrom (SummaryRecord.BasePrice s)
       (map UsageRecord.Price (included reportType l)))
    (f64.sumFrom (SummaryRecord.BaseQuantity s)
       (map UsageRecord.Quantity (included reportType l)))
    (f64.sumFrom (SummaryRecord.BaseTotal s)
       (map UsageRecord.Total (included reportType l))).
Proof.
  induction l as [|u l IH]; intros s.
  - now destruct s.
  - cbn [fold_left included List.filter]. rewrite IH. unfold addBaseUsage, included.
    destruct (includeUsage reportType u); reflexivity.
Qed.

Lemma summarizeProject_sums (projectUsages baseUsages : list UsageRecord.t) :
  summarizeProject reportType projectUsages baseUsages =
  projectSums reportType projectUsages baseUsages.
Proof.
  unfold summarizeProject. cbv zeta.
  rewrite fold_addBaseUsage, fold_addUsage. reflexivity.
Qed.

Variable baseline : gmap string (list UsageRecord.t).

Lemma summarizeStep_fst acc entry :
  (summarizeStep reportType baseline acc entry).1 =
  <[entry.1 := summarizeProject reportType entry.2 (index baseline entry.1)]> acc.1.
Proof. destruct acc, entry. reflexivity. Qed.

Lemma fold_summarizeStep_notin entries : forall acc project,
  project ∉ entries.*1 ->
  (fold_left (summarizeStep reportType baseline) entries acc).1 !! project
  = acc.1 !! project.
Proof.
  induction entries as [|e entries IH]; intros acc project Hnotin; [reflexivity|].
  cbn [fold_left]. rewrite fmap_cons in Hnotin.
  apply not_elem_of_cons in Hnotin as [Hne Hnotin].
  rewrite IH by exact Hnotin.
  rewrite summarizeStep_fst. now rewrite lookup_insert_ne.
Qed.

Lemma fold_summarizeStep_in entries : forall acc project projectUsages,
  NoDup entries.*1 ->
  (project, projectUsages) ∈ entries ->
  (fold_left (summarizeStep reportType baseline) entries acc).1 !! project
  = Some (summarizeProject reportType projectUsages (index baseline project)).
Proof.
  induction entries as [|e entries IH]; intros acc project pu Hnd Hin.
  - now apply elem_of_nil in Hin.
  - rewrite fmap_cons in Hnd. apply NoDup_cons in Hnd as [Hfresh Hnd].
    cbn [fold_left]. apply elem_of_cons in Hin as [<-|Hin].
    + rewrite fold_summarizeStep_notin by exact Hfresh.
      rewrite summarizeStep_fst. cbn [fst snd]. now rewrite lookup_insert_eq.
    + now apply IH.
Qed.

End Summarize.

Lemma mapRange_NoDup {V : Type} (m : gmap string V) entries :
  mapRange m entries -> NoDup entries.*1.
Proof.
  unfold mapRange. intros ->. apply NoDup_fst_map_to_list.
Qed.

Lemma mapRange_elem_of {V : Type} (m : gmap string V) entries k v :
  mapRange m entries -> (k, v) ∈ entries <-> m !! k = Some v.
Proof.
  unfold mapRange. intros ->. apply elem_of_map_to_list.
Qed.

Lemma mapRange_keys {V : Type} (m : gmap string V) entries k :
  mapRange m entries -> k ∈ entries.*1 <-> is_Some (m !! k).
Proof.
  intros H. rewrite list_elem_of_fmap. split.
  - intros [[k' v] [-> Hin]]. exists v. now apply (mapRange_elem_of m entries).
  - intros [v Hv]. exists (k, v). split; [reflexivity|].
    now apply (mapRange_elem_of m entries).
Qed.

(** The summary of a key of the report map, for every visiting order. *)
Lemma summarize_lookup (reportType : ReportType)
    (baseline usages : gmap string (list UsageRecord.t))
    (result : gmap string SummaryRecord.t * SummaryRecord.t)
    (project : string) (projectUsages : list UsageRecord.t) :
  summarize reportType baseline usages result ->
  usages !! project = Some projectUsages ->
  result.1 !! project
    = Some (projectSums reportType projectUsages (index baseline project)).
Proof.
  intros Hrun Hlookup. destruct Hrun as [entries Hrange].
  unfold summarizeEntries.
  rewrite (fold_summarizeStep_in reportType baseline entries _ project projectUsages).
  - now rewrite summarizeProject_sums.
  - exact (mapRange_NoDup _ _ Hrange).
  - now apply (mapRange_elem_of usages entries).
Qed.

(** C1.  For every project key of the report usage map, the summary that
    [summarize] returns for it has [Price], [Quantity] and [Total] equal to
    the sums of the price, quantity and total of the included records of
    that key (those whose type passes [includeUsage]), and [BasePrice],
    [BaseQuantity] and [BaseTotal] equal to the same sums over the baseline
    records found under the same key; when the key is absent from the
    baseline map the three baseline fields are zero.  This holds for every
    order in which the map is ranged over. *)
Theorem summarize_project_sums (reportType : ReportType)
    (baseline usages : gmap string (list UsageRecord.t))
    (result : gmap string SummaryRecord.t * SummaryRecord.t)
    (project : string) (projectUsages : list UsageRecord.t) :
  summarize reportType baseline usages result ->
  usages !! project = Some projectUsages ->
  result.1 !! project
    = Some (projectSums reportType projectUsages (index baseline project))
  /\ (baseline !! project = None ->
      result.1 !! project
        = Some (SummaryRecord.mk
                  (sumOf UsageRecord.Price (included reportType projectUsages))
                  (sumOf UsageRecord.Quantity (included reportType projectUsages))
                  (sumOf UsageRecord.Total (included reportType projectUsages))
                  f64.zero f64.zero f64.zero)).
Proof.
  intros Hrun Hlookup.
  pose proof (summarize_lookup reportType baseline usages result project
                projectUsages Hrun Hlookup) as Hsum.
  split; [exact Hsum|].
  intros Hnone. rewrite Hsum. unfold index. rewrite Hnone. reflexivity.
Qed.

Lemma summarize_project_sums_witness :
  let u := usage "Instance" "node-1" "c3.small.x86" 2%float 3%float 6%float in
  (summarizeEntries NonReservationsReport ∅ [("alpha", [u])]).1 !! "alpha"
    = Some (projectSums NonReservationsReport [u] (index ∅ "alpha"))
  /\ ((∅ : gmap string (list UsageRecord.t)) !! "alpha" = None ->
      (summarizeEntries NonReservationsReport ∅ [("alpha", [u])]).1 !! "alpha"
        = Some (SummaryRecord.mk
                  (sumOf UsageRecord.Price (included NonReservationsReport [u]))
                  (sumOf UsageRecord.Quantity (included NonReservationsReport [u]))
                  (sumOf UsageRecord.Total (included NonReservationsReport [u]))
                  f64.zero f64.zero f64.zero)).
Proof.
  intros u.
  apply (summarize_project_sums NonReservationsReport ∅ {["alpha" := [u]]}
           _ "alpha" [u]).
  - apply summarize_intro. unfold mapRange. now rewrite map_to_list_singleton.
  - apply lookup_singleton_eq.
Defined.

Lemma fold_left_ext_in {A B : Type} (f g : A -> B -> A) (l : list B) :
  (forall a b, b ∈ l -> f a b = g a b) ->
  forall a, fold_left f l a = fold_left g l a.
Proof.
  induction l as [|b l IH]; intros H a; [reflexivity|].
  cbn [fold_left]. rewrite H by apply list_elem_of_here.
  apply IH. intros a' b' Hin. apply H. now apply list_elem_of_further.
Qed.

Lemma index_delete_ne {V : Type} (m : gmap string (list V)) (k k' : string) :
  k <> k' -> index (delete k m) k' = index m k'.
Proof. intros Hne. unfold index. now rewrite lookup_delete_ne. Qed.

Lemma summarizeEntries_delete reportType baseline entries k :
  k ∉ entries.*1 ->
  summarizeEntries reportType (delete k baseline) entries
  = summarizeEntries reportType baseline entries.
Proof.
  intros Hnotin. unfold summarizeEntries. apply fold_left_ext_in.
  intros [pps totals] [project projectUsages] Hin.
  unfold summarizeStep. rewrite index_delete_ne; [reflexivity|].
  intros ->. apply Hnotin. apply list_elem_of_fmap.
  now exists (project, projectUsages).
Qed.

(** C8.  A project key that is not in the report usage map, whatever the
    baseline map holds for it, is absent from the summaries [summarize]
    returns, and it contributes nothing to the result, grand total
    included: the very same result is returned for the baseline map from
    which the key has been deleted. *)
Theorem baseline_only_project_excluded (reportType : ReportType)
    (baseline usages : gmap string (list UsageRecord.t))
    (result : gmap string SummaryRecord.t * SummaryRecord.t) (project : string) :
  summarize reportType baseline usages result ->
  usages !! project = None ->
  result.1 !! project = None
  /\ summarize reportType (delete project baseline) usages result.
Proof.
  intros Hrun Hnone. destruct Hrun as [entries Hrange].
  assert (Hnotin : project ∉ entries.*1).
  { rewrite (mapRange_keys usages entries project Hrange), Hnone.
    now intros [v Hv]. }
  split.
  - unfold summarizeEntries.
    rewrite fold_summarizeStep_notin by exact Hnotin. apply lookup_empty.
  - rewrite <- (summarizeEntries_delete reportType baseline entries project Hnotin).
    now apply summarize_intro.
Qed.

Lemma baseline_only_project_excluded_witness :
  let u := usage "Instance" "node-1" "c3.small.x86" 2%float 3%float 6%float in
  let b := usage "Instance" "old-1" "c3.small.x86" 1%float 1%float 1%float in
  let result :=
    summarizeEntries NonReservationsReport {["retired" := [b]]} [("alpha", [u])] in
  result.1 !! "retired" = None
  /\ summarize NonReservationsReport (delete "retired" {["retired" := [b]]})
       {["alpha" := [u]]} result.
Proof.
  intros u b result.
  apply (baseline_only_project_excluded NonReservationsReport
           {["retired" := [b]]} {["alpha" := [u]]} result "retired").
  - apply summarize_intro. unfold mapRange. now rewrite map_to_list_singleton.
  - now apply lookup_singleton_ne.
Defined.

(** ** The two report types partition the records *)

Lemma includeUsage_exclusive (u : UsageRecord.t) :
  includeUsage ReservationsReport u = negb (includeUsage NonReservationsReport u).
Proof.
  unfold includeUsage, ReservationsReport, NonReservationsReport. cbn.
  now destruct (String.eqb (UsageRecord.Type_ u) "HardwareReservation").
Qed.

Lemma included_partition (l : list UsageRecord.t) :
  (included ReservationsReport l ++ included NonReservationsReport l)%list ≡ₚ l.
Proof.
  unfold included. induction l as [|u l IH]; [reflexivity|].
  cbn [List.filter]. rewrite includeUsage_exclusive.
  destruct (includeUsage NonReservationsReport u); cbn [negb].
  - rewrite <- Permutation_middle. now constructor.
  - cbn [app]. now constructor.
Qed.

Section ExactSums.

Context {A : Type} (add : A -> A -> A) (zero : A) (amount : UsageRecord.t -> A).
Hypothesis add_assoc : forall x y z, add x (add y z) = add (add x y) z.
Hypothesis add_comm : forall x y, add x y = add y x.
Hypothesis add_zero : forall x, add zero x = x.

Lemma sumIn_from (l : list UsageRecord.t) : forall a,
  fold_left (fun acc u => add acc (amount u)) l a = add a (sumIn add zero amount l).
Proof.
  unfold sumIn. induction l as [|u l IH]; intros a; cbn [fold_left].
  - now rewrite add_comm, add_zero.
  - rewrite IH, (IH (add zero (amount u))), add_zero. now rewrite add_assoc.
Qed.

Lemma sumIn_cons u l :
  sumIn add zero amount (u :: l) = add (amount u) (sumIn add zero amount l).
Proof. unfold sumIn at 1. cbn [fold_left]. now rewrite sumIn_from, add_zero. Qed.

Lemma sumIn_split (l : list UsageRecord.t) :
  add (sumIn add zero amount (included ReservationsReport l))
      (sumIn add zero amount (included NonReservationsReport l))
  = sumIn add zero amount l.
Proof.
  unfold included. induction l as [|u l IH].
  - cbn. apply add_zero.
  - cbn [List.filter]. rewrite includeUsage_exclusive.
    destruct (includeUsage NonReservationsReport u); cbn [negb];
      rewrite !sumIn_cons, <- IH.
    + rewrite !add_assoc. f_equal. apply add_comm.
    + now rewrite add_assoc.
Qed.

End ExactSums.

(** C2, amended.  Every record is included by exactly one of the two report
    types, so the records selected under [ReservationsReport] and those
    selected under [NonReservationsReport] are, together, a rearrangement
    of all the records; and in any exact arithmetic (an associative and
    commutative addition with a neutral element) the two filtered sums add
    up to the sum over all the records. *)
Theorem report_types_partition {A : Type} (add : A -> A -> A) (zero : A)
    (amount : UsageRecord.t -> A) (l : list UsageRecord.t) :
  (forall x y z, add x (add y z) = add (add x y) z) ->
  (forall x y, add x y = add y x) ->
  (forall x, add zero x = x) ->
  (forall u, includeUsage ReservationsReport u
             = negb (includeUsage NonReservationsReport u))
  /\ (included ReservationsReport l ++ included NonReservationsReport l)%list ≡ₚ l
  /\ add (sumIn add zero amount (included ReservationsReport l))
         (sumIn add zero amount (included NonReservationsReport l))
     = sumIn add zero amount l.
Proof.
  intros Hassoc Hcomm Hzero. split; [exact includeUsage_exclusive|].
  split; [apply included_partition|]. now apply sumIn_split.
Qed.

Lemma report_types_partition_witness :
  let l := [usage "HardwareReservation" "res-1" "m3.large" 310%float 1%float 310%float;
            usage "Instance" "node-1" "c3.small.x86" 2.5%float 1%float 2.5%float] in
  (forall u, includeUsage ReservationsReport u
             = negb (includeUsage NonReservationsReport u))
  /\ (included ReservationsReport l ++ included NonReservationsReport l)%list ≡ₚ l
  /\ (sumIn Z.add 0 cents (included ReservationsReport l)
      + sumIn Z.add 0 cents (included NonReservationsReport l)
      = sumIn Z.add 0 cents l).
Proof.
  intros l.
  apply (report_types_partition Z.add 0 cents l); intros; lia.
Defined.

(** C2 as stated, on the [float64] totals of the program, fails: with a
    reservation of 1e16 and two other records of 1, the reservations sum
    to 1e16 and the others to 2, which add up to 10000000000000002, while
    the sum over all the records, taken in order, is 1e16 (each addition
    of 1 is rounded away). *)
Lemma float_totals_do_not_add_up :
  let l := [usage "HardwareReservation" "res-1" "m3.large" 1e16%float 1%float 1e16%float;
            usage "Instance" "node-1" "c3.small.x86" 1%float 1%float 1%float;
            usage "Instance" "node-2" "c3.small.x86" 1%float 1%float 1%float] in
  f64.add (sumOf UsageRecord.Total (included ReservationsReport l))
          (sumOf UsageRecord.Total (included NonReservationsReport l))
    = 10000000000000002%float
  /\ sumOf UsageRecord.Total l = 1e16%float
  /\ f64.add (sumOf UsageRecord.Total (included ReservationsReport l))
             (sumOf UsageRecord.Total (included NonReservationsReport l))
     <> sumOf UsageRecord.Total l.
Proof.
  intros l. split; [reflexivity|]. split; [reflexivity|].
  intros H.
  apply (f_equal (fun x => PrimFloat.eqb x 1e16%float)) in H.
  vm_compute in H. discriminate H.
Qed.

(** Nor are the two sides close on [float64] totals: with totals 2^1023
    and -2^1023 on reservations and 2^1023 on another record in between,
    the filtered sums add up to 2^1023 while the sum over all the records,
    taken in order, overflows to infinity. *)
Lemma float_totals_far_apart :
  let l := [usage "HardwareReservation" "res-1" "m3.large" 1%float 1%float 0x1p1023%float;
            usage "Instance" "node-1" "c3.small.x86" 1%float 1%float 0x1p1023%float;
            usage "HardwareReservation" "res-2" "m3.large" 1%float 1%float (-0x1p1023)%float] in
  f64.add (sumOf UsageRecord.Total (included ReservationsReport l))
          (sumOf UsageRecord.Total (included NonReservationsReport l))
    = 0x1p1023%float
  /\ sumOf UsageRecord.Total l = infinity.
Proof. intros l. split; reflexivity. Qed.

(** ** The gateway split *)

Lemma gatewayKey_rules (u : UsageRecord.t) :
  gatewayKey u =
  if kuboRule u then "gateway-kubo" else if lbRule u then "gateway-lb" else "".
Proof. reflexivity. Qed.

Lemma index_insert_eq {V : Type} (m : gmap string (list V)) k l :
  index (<[k := l]> m) k = l.
Proof. unfold index. now rewrite lookup_insert_eq. Qed.

Lemma index_insert_ne {V : Type} (m : gmap string (list V)) k k' l :
  k <> k' -> index (<[k := l]> m) k' = index m k'.
Proof. intros Hne. unfold index. now rewrite lookup_insert_ne. Qed.

Lemma index_appendUsage usages u k :
  index (appendUsage usages u) k = (index usages k ++ keyed k [u])%list.
Proof.
  unfold appendUsage, keyed. cbn [List.filter].
  destruct (String.eqb_spec (gatewayKey u) k) as [->|Hne].
  - now rewrite index_insert_eq.
  - rewrite index_insert_ne by exact Hne. now rewrite app_nil_r.
Qed.

Lemma keyed_app k l1 l2 : keyed k (l1 ++ l2) = (keyed k l1 ++ keyed k l2)%list.
Proof. apply List.filter_app. Qed.

Lemma index_fold_appendUsage gateways : forall usages k,
  index (fold_left appendUsage gateways usages) k
  = (index usages k ++ keyed k gateways)%list.
Proof.
  induction gateways as [|u gateways IH]; intros usages k; cbn [fold_left].
  - unfold keyed. cbn. now rewrite app_nil_r.
  - rewrite IH, index_appendUsage, <- app_assoc.
    change (u :: gateways) with ([u] ++ gateways)%list.
    now rewrite keyed_app.
Qed.

Lemma index_splitGateways usages k :
  index (splitGateways usages) k = keyed k (index usages "gateway").
Proof.
  unfold splitGateways. cbv zeta. rewrite index_fold_appendUsage.
  unfold index at 1. now rewrite lookup_empty.
Qed.

(** A key of the split map holds a non-empty list. *)
Lemma lookup_fold_appendUsage gateways : forall usages k l,
  (forall k' l', usages !! k' = Some l' -> l' <> []) ->
  fold_left appendUsage gateways usages !! k = Some l -> l <> [].
Proof.
  induction gateways as [|u gateways IH]; intros usages k l Hne; cbn [fold_left].
  - apply Hne.
  - apply IH. intros k' l'. unfold appendUsage.
    destruct (decide (gatewayKey u = k')) as [->|Hk].
    + rewrite lookup_insert_eq. intros [= <-]. now destruct (index usages _).
    + rewrite lookup_insert_ne by exact Hk. apply Hne.
Qed.

Lemma lookup_splitGateways usages k :
  splitGateways usages !! k =
  match keyed k (index usages "gateway") with
  | [] => None
  | l => Some l
  end.
Proof.
  pose proof (index_splitGateways usages k) as Hidx.
  pose proof (lookup_fold_appendUsage (index usages "gateway") ∅ k) as Hne.
  unfold splitGateways in *. cbv zeta in *. unfold index at 1 in Hidx.
  destruct (fold_left appendUsage (index usages "gateway") ∅ !! k) as [l|] eqn:E;
    cbn [default] in Hidx; rewrite <- Hidx.
  - specialize (Hne l). destruct l; [|reflexivity].
    exfalso. apply Hne; [|reflexivity|reflexivity].
    intros k' l'. now rewrite lookup_empty.
  - reflexivity.
Qed.

Lemma keyed_kubo l : keyed "gateway-kubo" l = List.filter kuboRule l.
Proof.
  unfold keyed. apply List.filter_ext. intros u. rewrite gatewayKey_rules.
  destruct (kuboRule u); [reflexivity|]. now destruct (lbRule u).
Qed.

Lemma keyed_lb l :
  keyed "gateway-lb" l = List.filter (fun u => negb (kuboRule u) && lbRule u) l.
Proof.
  unfold keyed. apply List.filter_ext. intros u. rewrite gatewayKey_rules.
  destruct (kuboRule u); [reflexivity|]. now destruct (lbRule u).
Qed.

Lemma keyed_empty l :
  keyed "" l = List.filter (fun u => negb (kuboRule u) && negb (lbRule u)) l.
Proof.
  unfold keyed. apply List.filter_ext. intros u. rewrite gatewayKey_rules.
  destruct (kuboRule u); [reflexivity|]. now destruct (lbRule u).
Qed.

(** C4, amended.  The gateway split files under "gateway-kubo" the records
    of the "gateway" project whose name starts with "ipfs-" or that are a
    hardware reservation on a plan containing "medium", and under
    "gateway-lb" the records that do not match that first rule and whose
    name starts with "gateway-" or that are a hardware reservation on a
    plan containing "small"; both lists keep the order of the records.  In
    particular, a list of a record named "ipfs-node-1" and a record named
    "gateway-lb-1" that is not a kubo record splits into the first under
    "gateway-kubo" and the second under "gateway-lb". *)
Theorem splitGateways_rules (usages : gmap string (list UsageRecord.t)) :
  index (splitGateways usages) "gateway-kubo"
    = List.filter kuboRule (index usages "gateway")
  /\ index (splitGateways usages) "gateway-lb"
    = List.filter (fun u => negb (kuboRule u) && lbRule u) (index usages "gateway")
  /\ forall r1 r2 : UsageRecord.t,
       UsageRecord.Name r1 = "ipfs-node-1" ->
       UsageRecord.Name r2 = "gateway-lb-1" ->
       kuboRule r2 = false ->
       usages !! "gateway" = Some [r1; r2] ->
       splitGateways usages !! "gateway-kubo" = Some [r1]
       /\ splitGateways usages !! "gateway-lb" = Some [r2].
Proof.
  split; [|split].
  - now rewrite index_splitGateways, keyed_kubo.
  - now rewrite index_splitGateways, keyed_lb.
  - intros r1 r2 Hn1 Hn2 Hk2 Hgw.
    rewrite !lookup_splitGateways, keyed_kubo, keyed_lb.
    unfold index. rewrite Hgw. cbn [default from_option id List.filter].
    assert (Hk1 : kuboRule r1 = true) by (unfold kuboRule; now rewrite Hn1).
    assert (Hl2 : lbRule r2 = true) by (unfold lbRule; now rewrite Hn2).
    rewrite Hk1, Hk2, Hl2. cbn. split; reflexivity.
Qed.

Lemma splitGateways_rules_witness :
  let r1 := usage "Instance" "ipfs-node-1" "c3.medium.x86" 1%float 24%float 24%float in
  let r2 := usage "Instance" "gateway-lb-1" "c3.small.x86" 0.5%float 24%float 12%float in
  splitGateways {["gateway" := [r1; r2]]} !! "gateway-kubo" = Some [r1]
  /\ splitGateways {["gateway" := [r1; r2]]} !! "gateway-lb" = Some [r2].
Proof.
  intros r1 r2.
  apply (proj2 (proj2 (splitGateways_rules {["gateway" := [r1; r2]]})) r1 r2);
    first [reflexivity | apply lookup_singleton_eq].
Defined.

(** C4 as stated fails on a record matching both rules: a hardware
    reservation named "gateway-lb-1" on a "medium" plan satisfies the
    gateway-lb rule, yet the split files it under "gateway-kubo" and
    creates no "gateway-lb" key. *)
Lemma gateway_lb_rule_overridden :
  let r := usage "HardwareReservation" "gateway-lb-1" "c3.medium.x86"
                 310%float 1%float 310%float in
  lbRule r = true
  /\ splitGateways {["gateway" := [r]]} !! "gateway-lb" = None
  /\ splitGateways {["gateway" := [r]]} !! "gateway-kubo" = Some [r].
Proof.
  intros r. split; [reflexivity|].
  rewrite !lookup_splitGateways. unfold index. rewrite lookup_singleton_eq.
  split; reflexivity.
Qed.

(** ** Records of the gateway project matching neither rule *)

Lemma summarizeStep_snd reportType baseline acc entry :
  (summarizeStep reportType baseline acc entry).2 =
  addTotals acc.2 (summarizeProject reportType entry.2 (index baseline entry.1)).
Proof. destruct acc, entry. reflexivity. Qed.

Lemma fold_summarizeStep_snd reportType baseline entries : forall acc,
  (fold_left (summarizeStep reportType baseline) entries acc).2 =
  fold_left addTotals
    (map (fun e => projectSums reportType e.2 (index baseline e.1)) entries)
    acc.2.
Proof.
  induction entries as [|e entries IH]; intros acc; [reflexivity|].
  cbn [fold_left map]. rewrite IH, summarizeStep_snd.
  now rewrite summarizeProject_sums.
Qed.

(** C5, amended.  The records of the "gateway" project that match neither
    rule are kept by the split under the empty key: they are in neither
    the "gateway-kubo" nor the "gateway-lb" list, and when there is at
    least one of them, [summarize] returns for the key "" the sums over
    them (of those the report type includes), and the grand total is
    accumulated over all the keys of the split map, "" among them. *)
Theorem unmatched_gateway_records_kept (reportType : ReportType)
    (baseline usages : gmap string (list UsageRecord.t))
    (result : gmap string SummaryRecord.t * SummaryRecord.t) :
  summarize reportType baseline (splitGateways usages) result ->
  index (splitGateways usages) "" = unmatched usages
  /\ (forall u, u ∈ unmatched usages ->
        (u ∉ index (splitGateways usages) "gateway-kubo")
        /\ (u ∉ index (splitGateways usages) "gateway-lb"))
  /\ (unmatched usages <> [] ->
        result.1 !! ""
          = Some (projectSums reportType (unmatched usages) (index baseline ""))
        /\ exists entries,
             mapRange (splitGateways usages) entries
             /\ ("", unmatched usages) ∈ entries
             /\ result.2
                = fold_left addTotals
                    (map (fun e => projectSums reportType e.2 (index baseline e.1))
                         entries)
                    SummaryRecord.zero).
Proof.
  intros Hrun.
  assert (Hidx : index (splitGateways usages) "" = unmatched usages).
  { now rewrite index_splitGateways, keyed_empty. }
  split; [exact Hidx|]. split.
  - intros u Hu. unfold unmatched in Hu.
    apply list_elem_of_In, List.filter_In in Hu as [_ Hu].
    apply andb_true_iff in Hu as [Hk Hl].
    apply negb_true_iff in Hk. apply negb_true_iff in Hl.
    rewrite !index_splitGateways, keyed_kubo, keyed_lb.
    split; intros Hin; apply list_elem_of_In, List.filter_In in Hin as [_ Hin].
    + congruence.
    + rewrite Hk, Hl in Hin. discriminate Hin.
  - intros Hne.
    assert (Hlookup : splitGateways usages !! "" = Some (unmatched usages)).
    { rewrite lookup_splitGateways, keyed_empty. fold (unmatched usages).
      now destruct (unmatched usages). }
    split.
    + now apply (summarize_lookup reportType baseline
                   (splitGateways usages) result "" (unmatched usages)).
    + destruct Hrun as [entries Hrange]. exists entries.
      split; [exact Hrange|]. split.
      * now apply (mapRange_elem_of (splitGateways usages) entries).
      * unfold summarizeEntries. now rewrite fold_summarizeStep_snd.
Qed.

Lemma splitGateways_unmatched_only (u : UsageRecord.t) :
  gatewayKey u = "" -> splitGateways {["gateway" := [u]]} = {["" := [u]]}.
Proof.
  intros Hkey. unfold splitGateways, index. rewrite lookup_singleton_eq.
  cbn [default from_option id fold_left]. unfold appendUsage. rewrite Hkey.
  unfold index. now rewrite lookup_empty.
Qed.

Lemma unmatched_gateway_records_kept_witness :
  let u := usage "Instance" "bootstrap-1" "c3.large.arm64" 5%float 1%float 5%float in
  let usages : gmap string (list UsageRecord.t) := {["gateway" := [u]]} in
  let result := summarizeEntries NonReservationsReport ∅ [("", [u])] in
  index (splitGateways usages) "" = unmatched usages
  /\ (forall u, u ∈ unmatched usages ->
        (u ∉ index (splitGateways usages) "gateway-kubo")
        /\ (u ∉ index (splitGateways usages) "gateway-lb"))
  /\ (unmatched usages <> [] ->
        result.1 !! ""
          = Some (projectSums NonReservationsReport (unmatched usages) (index ∅ ""))
        /\ exists entries,
             mapRange (splitGateways usages) entries
             /\ ("", unmatched usages) ∈ entries
             /\ result.2
                = fold_left addTotals
                    (map (fun e => projectSums NonReservationsReport e.2 (index ∅ e.1))
                         entries)
                    SummaryRecord.zero).
Proof.
  intros u usages result.
  apply (unmatched_gateway_records_kept NonReservationsReport ∅ usages result).
  unfold usages. rewrite (splitGateways_unmatched_only u eq_refl).
  apply summarize_intro. unfold mapRange. now rewrite map_to_list_singleton.
Defined.

(** C5 as stated fails: the unmatched record is summarised under the
    empty key and counted in the grand total. *)
Lemma unmatched_gateway_record_counted :
  let u := usage "Instance" "bootstrap-1" "c3.large.arm64" 5%float 1%float 5%float in
  let result := summarizeEntries NonReservationsReport ∅ [("", [u])] in
  kuboRule u = false /\ lbRule u = false
  /\ summarize NonReservationsReport ∅ (splitGateways {["gateway" := [u]]}) result
  /\ result.1 !! ""
     = Some (SummaryRecord.mk 5%float 1%float 5%float 0%float 0%float 0%float)
  /\ SummaryRecord.Total result.2 = 5%float.
Proof.
  intros u result. split; [reflexivity|]. split; [reflexivity|]. split.
  - rewrite (splitGateways_unmatched_only u eq_refl).
    apply summarize_intro. unfold mapRange. now rewrite map_to_list_singleton.
  - split.
    + unfold result, summarizeEntries. cbn [fold_left].
      rewrite summarizeStep_fst. cbn [fst snd]. rewrite lookup_insert_eq.
      f_equal.
    + reflexivity.
Qed.

(** ** Completion of a partial timestamp *)

(** C6, amended.  [PartialToFullIso] appends "T00:00:00.000-0000" to a
    string of length 10, ".000-0000" to a string of length 19 and "-0000"
    to a string of length 23; a string of any other length is returned
    unchanged. *)
Theorem PartialToFullIso_cases (partial : string) :
  (String.length partial = 10%nat ->
     common.PartialToFullIso partial = partial +:+ "T00:00:00.000-0000")
  /\ (String.length partial = 19%nat ->
     common.PartialToFullIso partial = partial +:+ ".000-0000")
  /\ (String.length partial = 23%nat ->
     common.PartialToFullIso partial = partial +:+ "-0000")
  /\ (String.length partial <> 10%nat -> String.length partial <> 19%nat ->
      String.length partial <> 23%nat ->
     common.PartialToFullIso partial = partial).
Proof.
  unfold common.PartialToFullIso.
  repeat split; intros H; try (now rewrite H).
  intros H19 H23. revert H H19 H23.
  generalize (String.length partial) as n. intros n H10 H19 H23.
  do 24 (destruct n as [|n]; [first [reflexivity | exfalso; lia]|]).
  reflexivity.
Qed.

Lemma PartialToFullIso_cases_witness :
  common.PartialToFullIso "2023-01-22" = "2023-01-22T00:00:00.000-0000"
  /\ common.PartialToFullIso "2023-01-22T10:30:00" = "2023-01-22T10:30:00.000-0000"
  /\ common.PartialToFullIso "2023-01-22T10:30:00.250"
     = "2023-01-22T10:30:00.250-0000"
  /\ common.PartialToFullIso "2023-01-22T10:30:00.250+0200"
     = "2023-01-22T10:30:00.250+0200".
Proof.
  split; [|split; [|split]].
  - apply (proj1 (PartialToFullIso_cases "2023-01-22")). reflexivity.
  - apply (proj1 (proj2 (PartialToFullIso_cases "2023-01-22T10:30:00"))).
    reflexivity.
  - apply (proj1 (proj2 (proj2 (PartialToFullIso_cases "2023-01-22T10:30:00.250")))).
    reflexivity.
  - apply (proj2 (proj2 (proj2
             (PartialToFullIso_cases "2023-01-22T10:30:00.250+0200"))));
      cbn; lia.
Defined.

(** C6 as stated fails: the offset appended is "-0000", not "+00:00". *)
Lemma PartialToFullIso_offset :
  common.PartialToFullIso "2023-01-22" = "2023-01-22T00:00:00.000-0000"
  /\ String.eqb (common.PartialToFullIso "2023-01-22")
                "2023-01-22T00:00:00.000+00:00" = false.
Proof. split; reflexivity. Qed.

(** ** The usage client *)

Section ClientFacts.

Context {World : Type}.
Variable parseURL : string -> option string.
Variable Do : World -> Request.t -> World * (string + Response.t).
Variable unmarshalUsages : string -> string + list UsageRecord.t.

Lemma fetchUsages_failed eq startDate endDate project (n : Net) w r :
  parseURL (usagesURI project startDate endDate) = None ->
  Do (world n) (usagesRequest eq startDate endDate project) = (w, r) ->
  fetchFailed unmarshalUsages r = true ->
  exists err,
    fetchUsages parseURL Do unmarshalUsages eq startDate endDate project n
    = (mkNet w (sent n ++ [usagesRequest eq startDate endDate project]), inl err).
Proof.
  intros Hurl Hdo Hfail. unfold fetchUsages, NewRequest, send. cbv zeta.
  rewrite Hurl. cbn [Request.Method Request.URL].
  fold (usagesRequest eq startDate endDate project). rewrite Hdo.
  unfold fetchFailed in Hfail.
  destruct r as [cause|resp]; [eauto|].
  destruct (Response.Body resp) as [cause|bytes]; [eauto|].
  destruct (negb (Response.StatusCode resp =? 200)); [eauto|].
  destruct (unmarshalUsages bytes) as [cause|records]; [eauto|discriminate].
Qed.

Section Keyed.

Context {K : Type} `{Countable K} (key : Project.t -> K).
Variables (eq : Equinix.t) (startDate endDate : time.Time).

Lemma GetUsagesLoop_app before : forall after usages (n n1 : Net) usages1,
  GetUsagesLoop parseURL Do unmarshalUsages key eq startDate endDate
    before usages n = (n1, inr usages1) ->
  GetUsagesLoop parseURL Do unmarshalUsages key eq startDate endDate
    (before ++ after) usages n
  = GetUsagesLoop parseURL Do unmarshalUsages key eq startDate endDate
      after usages1 n1.
Proof.
  induction before as [|p before IH]; intros after usages n n1 usages1 Hrun.
  - cbn in Hrun. now inversion Hrun.
  - cbn [app GetUsagesLoop] in *.
    destruct (fetchUsages _ _ _ _ _ _ p n) as [n' [err|records]];
      [discriminate|].
    now apply IH.
Qed.

Lemma GetUsagesBy_fails before project after (n n1 : Net) usages1 w r :
  GetUsagesBy parseURL Do unmarshalUsages key eq startDate endDate before n
    = (n1, inr usages1) ->
  parseURL (usagesURI project startDate endDate) = None ->
  Do (world n1) (usagesRequest eq startDate endDate project) = (w, r) ->
  fetchFailed unmarshalUsages r = true ->
  exists err,
    GetUsagesBy parseURL Do unmarshalUsages key eq startDate endDate
      (before ++ project :: after) n
    = (mkNet w (sent n1 ++ [usagesRequest eq startDate endDate project]),
       inl err).
Proof.
  intros Hbefore Hurl Hdo Hfail. unfold GetUsagesBy in *.
  rewrite (GetUsagesLoop_app before (project :: after) ∅ n n1 usages1 Hbefore).
  destruct (fetchUsages_failed eq startDate endDate project n1 w r Hurl Hdo Hfail)
    as [err Herr].
  exists err. cbn [GetUsagesLoop]. now rewrite Herr.
Qed.

End Keyed.

(** C9.  If the fetch of some project of the list fails (the transport
    returns an error, the body cannot be read, the status is not 200 or
    the body is not the expected JSON), then, the projects before it
    having been fetched, [GetUsages] returns an error and no map, the
    usages already fetched being discarded, and no request is sent for
    the projects after it. *)
Theorem GetUsages_fails_as_a_whole (eq : Equinix.t)
    (startDate endDate : time.Time)
    (before : list Project.t) (project : Project.t) (after : list Project.t)
    (n n1 : Net) (usages1 : gmap Project.t (list UsageRecord.t))
    (w : World) (r : string + Response.t) :
  GetUsages parseURL Do unmarshalUsages eq startDate endDate before n
    = (n1, inr usages1) ->
  parseURL (usagesURI project startDate endDate) = None ->
  Do (world n1) (usagesRequest eq startDate endDate project) = (w, r) ->
  fetchFailed unmarshalUsages r = true ->
  exists err,
    GetUsages parseURL Do unmarshalUsages eq startDate endDate
      (before ++ project :: after) n
    = (mkNet w (sent n1 ++ [usagesRequest eq startDate endDate project]),
       inl err).
Proof. unfold GetUsages. apply GetUsagesBy_fails. Qed.

End ClientFacts.

Lemma GetUsages_fails_as_a_whole_witness :
  let eq := Equinix.mk "token" in
  let p1 := Project.mk "p-up" "alpha" in
  let p2 := Project.mk "p-down" "Beta" in
  let p3 := Project.mk "p-late" "gamma" in
  let n := mkNet tt [] in
  exists err,
    GetUsages demoParseURL demoDo demoUnmarshalUsages eq demoStart demoEnd
      ([p1] ++ p2 :: [p3]) n
    = (mkNet tt ([usagesRequest eq demoStart demoEnd p1]
                 ++ [usagesRequest eq demoStart demoEnd p2]),
       inl err).
Proof.
  intros eq p1 p2 p3 n.
  apply (GetUsages_fails_as_a_whole demoParseURL demoDo demoUnmarshalUsages
           eq demoStart demoEnd [p1] p2 [p3] n
           (mkNet tt [usagesRequest eq demoStart demoEnd p1])
           (<[p1 := []]> ∅) tt (inr (Response.mk 503 (inr "unavailable")))).
  - reflexivity.
  - reflexivity.
  - reflexivity.
  - reflexivity.
Defined.

(** ** Gateway-only mode *)

Lemma fold_gatewayProjects projects : forall p0,
  fold_left
    (fun projs p => if isGateway p then <[0%nat := p]> projs else projs)
    projects [p0]
  = [default p0 (last (List.filter isGateway projects))].
Proof.
  induction projects as [|p projects IH]; intros p0; [reflexivity|].
  cbn [fold_left List.filter]. destruct (isGateway p) eqn:E.
  - cbn [insert list_insert]. rewrite IH.
    destruct (List.filter isGateway projects) as [|q qs] eqn:F; [reflexivity|].
    rewrite (last_cons p (q :: qs)). now destruct (last (q :: qs)).
  - apply IH.
Qed.

Lemma filter_isGateway_none (projects : list Project.t) :
  (forall p, p ∈ projects -> Project.Name p <> "gateway") ->
  List.filter isGateway projects = [].
Proof.
  induction projects as [|p ps IH]; intros Hnone; [reflexivity|].
  cbn [List.filter]. unfold isGateway at 1.
  destruct (String.eqb_spec (Project.Name p) "gateway") as [Hp|Hp].
  - exfalso. apply (Hnone p); [apply list_elem_of_here|exact Hp].
  - apply IH. intros q Hq. apply Hnone. now apply list_elem_of_further.
Qed.

Section GatewayOnly.

Context {World : Type}.
Variable parseURL : string -> option string.
Variable Do : World -> Request.t -> World * (string + Response.t).
Variable unmarshalUsages : string -> string + list UsageRecord.t.

(** C10.  In gateway-only mode the list of projects to fetch has exactly
    one element: the last project named "gateway" of the list, or the zero
    [Project] when there is none; in that case [GetUsages] still sends one
    request, for the empty project id. *)
Theorem gatewayProjects_single (projects : list Project.t) :
  gatewayProjects projects
    = [default Project.zero (last (List.filter isGateway projects))]
  /\ length (gatewayProjects projects) = 1%nat
  /\ ((forall p, p ∈ projects -> Project.Name p <> "gateway") ->
      gatewayProjects projects = [Project.mk "" ""]
      /\ forall (eq : Equinix.t) (startDate endDate : time.Time) (n : Net),
           parseURL (usagesURI (Project.mk "" "") startDate endDate) = None ->
           sent (GetUsagesByName parseURL Do unmarshalUsages eq startDate endDate
                   (gatewayProjects projects) n).1
           = (sent n ++ [usagesRequest eq startDate endDate (Project.mk "" "")])%list).
Proof.
  assert (Hsingle : gatewayProjects projects
            = [default Project.zero (last (List.filter isGateway projects))]).
  { unfold gatewayProjects. apply (fold_gatewayProjects projects Project.zero). }
  split; [exact Hsingle|]. split; [now rewrite Hsingle|].
  intros Hnone.
  assert (Hzero : gatewayProjects projects = [Project.mk "" ""]).
  { rewrite Hsingle. now rewrite (filter_isGateway_none projects Hnone). }
  split; [exact Hzero|].
  intros eq startDate endDate n Hurl. rewrite Hzero.
  unfold GetUsagesByName, GetUsagesBy. cbn [GetUsagesLoop].
  unfold fetchUsages, NewRequest, send. cbv zeta. rewrite Hurl.
  cbn [Request.Method Request.URL].
  fold (usagesRequest eq startDate endDate (Project.mk "" "")).
  destruct (Do (world n) _) as [w [cause|resp]]; [reflexivity|].
  destruct (Response.Body resp) as [cause|bytes]; [reflexivity|].
  destruct (negb (Response.StatusCode resp =? 200)); [reflexivity|].
  destruct (unmarshalUsages bytes) as [cause|records]; reflexivity.
Qed.

End GatewayOnly.

Lemma gatewayProjects_single_witness :
  let projects := [Project.mk "p-1" "alpha"; Project.mk "p-2" "Beta"] in
  gatewayProjects projects = [Project.mk "" ""]
  /\ forall (eq : Equinix.t) (startDate endDate : time.Time) (n : Net),
       demoParseURL (usagesURI (Project.mk "" "") startDate endDate) = None ->
       sent (GetUsagesByName demoParseURL demoDo demoUnmarshalUsages eq
               startDate endDate (gatewayProjects projects) n).1
       = (sent n ++ [usagesRequest eq startDate endDate (Project.mk "" "")])%list.
Proof.
  intros projects.
  apply (proj2 (proj2 (gatewayProjects_single demoParseURL demoDo
                         demoUnmarshalUsages projects))).
  intros p Hp. unfold projects in Hp.
  apply elem_of_cons in Hp as [->|Hp]; [discriminate|].
  apply elem_of_cons in Hp as [->|Hp]; [discriminate|].
  now apply elem_of_nil in Hp.
Defined.

(** ** The order of the printed rows *)

Lemma mapRange_list_to_map {V : Type} (entries : list (string * V)) :
  NoDup entries.*1 -> mapRange (list_to_map entries) entries.
Proof.
  intros Hnd. unfold mapRange. symmetry. now apply map_to_list_to_map.
Qed.

Lemma sortSlice_alpha_Beta : sortSlice [alpha; Beta] [alpha; Beta].
Proof.
  split; [reflexivity|].
  intros i j a b Hij Hi Hj.
  destruct i as [|[|i]]; destruct j as [|[|j]]; try lia; try discriminate.
  cbn in Hi, Hj. inversion Hi; inversion Hj; subst. reflexivity.
Qed.

(** C7.  The rows are printed by ranging over the summary map, not over
    the sorted slice of projects: for the projects "alpha" and "Beta",
    fetched in alphabetical order, there is a run of the command that
    prints the row of "Beta" before the row of "alpha". *)
Theorem cost_summary_rows_follow_map_order :
  exists (n' : Net) (lines : list Line),
    CostSummaryRun demoParseURL demoDo demoUnmarshalProjects demoUnmarshalUsages
      demoSummary (mkNet tt []) n' (Printed lines)
    /\ map label lines = ["Project"; "Beta"; "alpha"; "Total"].
Proof.
  set (s := demoSummary).
  set (rows := [("Beta", SummaryRecord.zero); ("alpha", SummaryRecord.zero)]).
  set (entries := [("alpha", @nil UsageRecord.t); ("Beta", @nil UsageRecord.t)]).
  pose (req1 := Request.mk "GET" projectsURI "token").
  pose (d1 := time.AddDate (CostSummaryT.endDate s) 0 0 1).
  pose (d0 := time.AddDate (CostSummaryT.baselineEnd s) 0 0 1).
  pose (n1 := @mkNet unit tt [req1]).
  pose (n2 := @mkNet unit tt
     [req1; usagesRequest (CostSummaryT.equinix s) (CostSummaryT.startDate s) d1 alpha;
      usagesRequest (CostSummaryT.equinix s) (CostSummaryT.startDate s) d1 Beta]).
  pose (n3 := @mkNet unit tt
     (sent n2 ++
      [usagesRequest (CostSummaryT.equinix s) (CostSummaryT.baselineStart s) d0 alpha;
       usagesRequest (CostSummaryT.equinix s) (CostSummaryT.baselineStart s) d0 Beta])).
  exists n3, (report s rows SummaryRecord.zero). split; [|reflexivity].
  apply (CostSummary_printed demoParseURL demoDo demoUnmarshalProjects
           demoUnmarshalUsages s (mkNet tt []) n1 [alpha; Beta] [alpha; Beta]
           n2 (list_to_map entries) n3 (list_to_map entries)
           (list_to_map rows) SummaryRecord.zero rows).
  - reflexivity.
  - exact sortSlice_alpha_Beta.
  - reflexivity.
  - reflexivity.
  - change (list_to_map rows, SummaryRecord.zero)
      with (summarizeEntries (CostSummaryT.reportType s) (list_to_map entries) entries).
    apply summarize_intro. apply mapRange_list_to_map.
    apply NoDup_cons. split; [|apply NoDup_singleton].
    intros Hin. apply list_elem_of_singleton in Hin. discriminate Hin.
  - apply mapRange_list_to_map.
    apply NoDup_cons. split; [|apply NoDup_singleton].
    intros Hin. apply list_elem_of_singleton in Hin. discriminate Hin.
Qed.

Lemma isLeap_add400 (y k : Z) : isLeap (y + 400 * k) = isLeap y.
Proof.
  unfold isLeap.
  assert (H : forall b, b <> 0 -> (b | 400) ->
            (Z.rem (y + 400 * k) b =? 0) = (Z.rem y b =? 0)).
  { intros b Hb [c Hc].
    apply eq_iff_eq_true. rewrite !Z.eqb_eq, !Z.rem_mod_eq_0 by exact Hb.
    rewrite Hc.
    replace (y + c * b * k) with (y + (c * k) * b) by ring.
    now rewrite Z.mod_add. }
  rewrite (H 4), (H 100), (H 400);
    first [reflexivity | lia | (exists 100; lia) | (exists 4; lia) | (exists 1; lia)].
Qed.

Lemma daysSinceEpoch_add400 (y k : Z) :
  daysSinceEpoch (y + 400 * k) = daysSinceEpoch y + daysPer400Years * k.
Proof.
  unfold daysSinceEpoch. cbv zeta.
  replace (y + 400 * k - 1) with (y - 1 + k * 400) by ring.
  rewrite Z.div_add by lia.
  replace (y - 1 + k * 400 - 400 * ((y - 1) / 400 + k))
    with (y - 1 - 400 * ((y - 1) / 400)) by ring.
  ring.
Qed.

Lemma absDate_add400 (d k : Z) :
  absDate (d + daysPer400Years * k) =
  let '(y, m, dd) := absDate d in (y + 400 * k, m, dd).
Proof.
  unfold absDate. cbv zeta.
  replace (d + daysPer400Years * k) with (d + k * daysPer400Years) by ring.
  rewrite Z.div_add by (unfold daysPer400Years; lia).
  replace (d + k * daysPer400Years - daysPer400Years * (d / daysPer400Years + k))
    with (d - daysPer400Years * (d / daysPer400Years)) by ring.
  set (r := d - daysPer400Years * (d / daysPer400Years)).
  set (q := d / daysPer400Years).
  set (n1 := r / daysPer100Years - Z.shiftr (r / daysPer100Years) 2).
  set (r1 := r - daysPer100Years * n1).
  set (n2 := r1 / daysPer4Years).
  set (r2 := r1 - daysPer4Years * n2).
  set (n3 := r2 / 365 - Z.shiftr (r2 / 365) 2).
  set (r3 := r2 - 365 * n3).
  replace (400 * (q + k) + 100 * n1 + 4 * n2 + n3 + 1)
    with (400 * q + 100 * n1 + 4 * n2 + n3 + 1 + 400 * k) by ring.
  rewrite isLeap_add400.
  destruct (isLeap _ && (r3 =? _)); [reflexivity|].
  destruct (_ >=? _); reflexivity.
Qed.

Lemma Date_add400 (y k : Z) (m : Month) (d h mi s ns : Z) (l : Location) :
  Date (y + 400 * k) m d h mi s ns l =
  let t := Date y m d h mi s ns l in
  mkTime (unixSec t + daysPer400Years * secondsPerDay * k) (nsec t) (time.loc t).
Proof.
  unfold Date, norm. cbv zeta beta iota.
  replace (y + 400 * k + (m - 1) / 12) with (y + (m - 1) / 12 + 400 * k) by ring.
  rewrite daysSinceEpoch_add400, isLeap_add400.
  destruct (isLeap _ && _); cbn [unixSec nsec time.loc]; f_equal; ring.
Qed.

Lemma absDays_shift (u n : Z) (l : Location) (k : Z) :
  absDays (mkTime (u + daysPer400Years * secondsPerDay * k) n l) =
  absDays (mkTime u n l) + daysPer400Years * k.
Proof.
  unfold absDays. cbn [unixSec time.loc].
  replace (u + daysPer400Years * secondsPerDay * k + l)
    with (u + l + (daysPer400Years * k) * secondsPerDay) by ring.
  rewrite Z.div_add by (unfold secondsPerDay; lia). ring.
Qed.

Lemma daysIn_add400 (m : Month) (y k : Z) : daysIn m (y + 400 * k) = daysIn m y.
Proof. unfold daysIn. now rewrite isLeap_add400. Qed.

Lemma checkFrom_spec (f : Z -> bool) (count : nat) :
  forall start, checkFrom f start count = true ->
  forall z, start <= z < start + Z.of_nat count -> f z = true.
Proof.
  induction count as [|n IH]; intros start H z Hz; [lia|].
  cbn [checkFrom] in H. apply andb_true_iff in H as [H1 H2].
  destruct (Z.eq_dec z start) as [->|Hne]; [exact H1|].
  apply (IH (start + 1)); [exact H2|lia].
Qed.

Lemma monthCheck_cycle : checkFrom monthCheck 0 (Z.to_nat 4800) = true.
Proof. vm_cast_no_check (eq_refl true). Qed.

Lemma isLeap_true_iff (y : Z) :
  isLeap y = true <-> (y mod 4 = 0 /\ (y mod 100 <> 0 \/ y mod 400 = 0)).
Proof.
  unfold isLeap.
  rewrite andb_true_iff, orb_true_iff, negb_true_iff, !Z.eqb_eq, Z.eqb_neq.
  rewrite !Z.rem_mod_eq_0 by lia. reflexivity.
Qed.

(** The day of the year left by the cycle cuts of [absDate] is at most
    365, and it is 365 in leap years only. *)
Lemma yday_range (d : Z) :
  let n := d / daysPer400Years in
  let r := d - daysPer400Years * n in
  let n1 := r / daysPer100Years - Z.shiftr (r / daysPer100Years) 2 in
  let r1 := r - daysPer100Years * n1 in
  let n2 := r1 / daysPer4Years in
  let r2 := r1 - daysPer4Years * n2 in
  let n3 := r2 / 365 - Z.shiftr (r2 / 365) 2 in
  let r3 := r2 - 365 * n3 in
  let year := 400 * n + 100 * n1 + 4 * n2 + n3 + 1 in
  0 <= r3 <= 365 /\ (r3 = 365 -> isLeap year = true).
Proof.
  intros n r n1 r1 n2 r2 n3 r3 year.
  rewrite isLeap_true_iff.
  unfold daysPer400Years, daysPer100Years, daysPer4Years in *.
  subst year r3 n3 r2 n2 r1 n1 r n.
  rewrite !Z.shiftr_div_pow2 by lia.
  change (2 ^ 2) with 4.
  Z.div_mod_to_equations; lia.
Qed.

Lemma absDate_month_range (d : Z) : 1 <= (absDate d).1.2 <= 12.
Proof.
  pose proof (yday_range d) as Hy. cbv zeta in Hy. unfold absDate. cbv zeta.
  set (n := d / daysPer400Years) in *.
  set (r := d - daysPer400Years * n) in *.
  set (n1 := r / daysPer100Years - Z.shiftr (r / daysPer100Years) 2) in *.
  set (r1 := r - daysPer100Years * n1) in *.
  set (n2 := r1 / daysPer4Years) in *.
  set (r2 := r1 - daysPer4Years * n2) in *.
  set (n3 := r2 / 365 - Z.shiftr (r2 / 365) 2) in *.
  set (r3 := r2 - 365 * n3) in *.
  set (year := 400 * n + 100 * n1 + 4 * n2 + n3 + 1) in *.
  destruct Hy as [Hrange Hleap].
  destruct (isLeap year && (r3 =? 31 + 29 - 1)) eqn:Hfeb;
    [cbn; unfold February; lia|].
  set (day := if isLeap year && (r3 >? 31 + 29 - 1) then r3 - 1 else r3).
  assert (Hday : 0 <= day <= 364).
  { subst day. destruct (isLeap year) eqn:E; cbn [andb].
    - destruct (r3 >? 31 + 29 - 1) eqn:G; lia.
    - assert (r3 <> 365) by (intros H365; specialize (Hleap H365); discriminate).
      lia. }
  assert (Hmonth : 0 <= day / 31 <= 11).
  { split; [apply Z.div_pos; lia|].
    apply Z.lt_succ_r. apply Z.div_lt_upper_bound; lia. }
  destruct (Z.eq_dec (day / 31) 11) as [E11|N11].
  - rewrite E11. change (daysBeforeAt (11 + 1)) with 365.
    destruct (day >=? 365) eqn:G; cbn [fst snd]; lia.
  - destruct (day >=? daysBeforeAt (day / 31 + 1)); cbn [fst snd]; lia.
Qed.

Lemma Day_Date_add400 (y k : Z) (m : Month) (d : Z) :
  Day (Date (y + 400 * k) m d 0 0 0 0 UTC) = Day (Date y m d 0 0 0 0 UTC).
Proof.
  rewrite Date_add400. cbv zeta.
  destruct (Date y m d 0 0 0 0 UTC) as [u ns l]. cbn [unixSec nsec time.loc].
  unfold Day. rewrite absDays_shift, absDate_add400.
  now destruct (absDate _) as [[y' m'] d'].
Qed.

Lemma monthCheck_unfold (i : Z) :
  monthCheck i
  = (Day (Date (i / 12 + 1) (i mod 12 + 1 + 1) 0 0 0 0 0 UTC)
     =? daysIn (i mod 12 + 1) (i / 12 + 1)).
Proof. reflexivity. Qed.

Lemma monthCheck_holds (y0 : Z) (m : Month) :
  1 <= y0 <= 400 -> 1 <= m <= 12 ->
  monthCheck ((y0 - 1) * 12 + (m - 1)) = true.
Proof.
  intros Hy Hm. apply (checkFrom_spec monthCheck _ 0 monthCheck_cycle).
  rewrite Z2Nat.id by lia. lia.
Qed.

Lemma month_length_cycle (y0 : Z) (m : Month) :
  1 <= y0 <= 400 -> 1 <= m <= 12 ->
  Day (Date y0 (m + 1) 0 0 0 0 0 UTC) = daysIn m y0.
Proof.
  intros Hy Hm. pose proof (monthCheck_holds y0 m Hy Hm) as Hcheck.
  rewrite monthCheck_unfold in Hcheck.
  assert (E1 : ((y0 - 1) * 12 + (m - 1)) / 12 + 1 = y0)
    by (Z.div_mod_to_equations; lia).
  assert (E2 : ((y0 - 1) * 12 + (m - 1)) mod 12 + 1 = m)
    by (Z.div_mod_to_equations; lia).
  rewrite E1, E2 in Hcheck. apply Z.eqb_eq. exact Hcheck.
Qed.

Lemma month_length (y : Z) (m : Month) :
  1 <= m <= 12 -> Day (Date y (m + 1) 0 0 0 0 0 UTC) = daysIn m y.
Proof.
  intros Hm.
  pose proof (Z.div_mod (y - 1) 400 ltac:(lia)) as Hdm.
  pose proof (Z.mod_pos_bound (y - 1) 400 ltac:(lia)) as Hb.
  generalize dependent ((y - 1) mod 400). generalize dependent ((y - 1) / 400).
  intros k r Hdm Hb.
  replace y with (r + 1 + 400 * k) by lia.
  rewrite Day_Date_add400, daysIn_add400.
  apply month_length_cycle; lia.
Qed.

Lemma last_day_of_month (t : Time) :
  Day (Date (Year t) (MonthOf t + 1) 0 0 0 0 0 UTC) = daysIn (MonthOf t) (Year t)
  /\ 1 <= MonthOf t <= 12.
Proof.
  pose proof (absDate_month_range (absDays t)) as Hm.
  split; [|exact Hm]. apply month_length. exact Hm.
Qed.

(** ** Rounding to binary64, as far as the window test needs it *)

Lemma shr_1_m (mrs : shr_record) :
  0 <= shr_m mrs -> shr_m (shr_1 mrs) = shr_m mrs / 2.
Proof.
  destruct mrs as [m r s]. cbn [shr_m]. intros Hm.
  destruct m as [|[p|p|]|p]; cbn [shr_1 shr_m]; try lia.
  - reflexivity.
  - rewrite (Pos2Z.inj_xI p). Z.div_mod_to_equations. lia.
  - rewrite (Pos2Z.inj_xO p). Z.div_mod_to_equations. lia.
  - reflexivity.
Qed.

Lemma iter_shr_1_m (p : positive) : forall mrs : shr_record,
  0 <= shr_m mrs ->
  shr_m (SpecFloat.iter_pos shr_1 p mrs) = shr_m mrs / 2 ^ Zpos p.
Proof.
  assert (Hpos : forall q, 0 < 2 ^ Zpos q) by (intros q; apply Z.pow_pos_nonneg; lia).
  induction p as [p IH|p IH|]; intros mrs Hm; cbn [SpecFloat.iter_pos].
  - assert (H1 : 0 <= shr_m (shr_1 mrs)).
    { rewrite shr_1_m by exact Hm. apply Z.div_pos; lia. }
    assert (H2 : 0 <= shr_m (SpecFloat.iter_pos shr_1 p (shr_1 mrs))).
    { rewrite IH by exact H1. apply Z.div_pos; [exact H1|apply Hpos]. }
    rewrite IH by exact H2. rewrite IH by exact H1. rewrite shr_1_m by exact Hm.
    pose proof (Hpos p) as Hp.
    rewrite !Z.div_div by lia. f_equal.
    rewrite <- Z.pow_add_r, <- Z.pow_succ_r by lia. f_equal. lia.
  - assert (H2 : 0 <= shr_m (SpecFloat.iter_pos shr_1 p mrs)).
    { rewrite IH by exact Hm. apply Z.div_pos; [exact Hm|apply Hpos]. }
    rewrite IH by exact H2. rewrite IH by exact Hm.
    pose proof (Hpos p) as Hp.
    rewrite Z.div_div by lia. f_equal.
    rewrite <- Z.pow_add_r by lia. f_equal. lia.
  - rewrite shr_1_m by exact Hm. now rewrite Z.pow_1_r.
Qed.

Lemma shr_spec (mrs : shr_record) (e n : Z) :
  0 <= shr_m mrs ->
  shr_m (shr mrs e n).1 = shr_m mrs / 2 ^ Z.max n 0
  /\ (shr mrs e n).2 = e + Z.max n 0.
Proof.
  intros Hm. destruct n as [|p|p]; cbn [shr fst snd].
  - rewrite Z.max_id, Z.pow_0_r, Z.div_1_r. split; [reflexivity|lia].
  - rewrite iter_shr_1_m by exact Hm.
    replace (Z.max (Zpos p) 0) with (Zpos p) by lia. split; reflexivity.
  - replace (Z.max (Zneg p) 0) with 0 by lia.
    rewrite Z.pow_0_r, Z.div_1_r. split; [reflexivity|lia].
Qed.

Lemma shr_m_of_loc (m : Z) (l : location) : shr_m (shr_record_of_loc m l) = m.
Proof. now destruct l as [|[]]. Qed.

Lemma round_nearest_even_cases (m : Z) (l : location) :
  round_nearest_even m l = m \/ round_nearest_even m l = m + 1.
Proof.
  destruct l as [|[]]; cbn [round_nearest_even]; auto.
  destruct (Z.even m); auto.
Qed.

(** [binary_round_aux] shifts right to the exponent of the format, rounds
    the last place up or down, and shifts once more when the rounding
    has carried into a new digit. *)
Lemma binary_round_aux_spec (s : bool) (mx ex : Z) (lx : location) :
  0 <= mx ->
  let n1 := Z.max (fexp prec emax (Zdigits2 mx + ex) - ex) 0 in
  exists m1 : Z,
    (m1 = mx / 2 ^ n1 \/ m1 = mx / 2 ^ n1 + 1)
    /\ (lx = loc_Exact -> n1 = 0 -> m1 = mx)
    /\ let e1 := ex + n1 in
       let n2 := Z.max (fexp prec emax (Zdigits2 m1 + e1) - e1) 0 in
       binary_round_aux prec emax s mx ex lx
       = match m1 / 2 ^ n2 with
         | 0 => S754_zero s
         | Zpos m =>
             if e1 + n2 <=? emax - prec then S754_finite s m (e1 + n2)
             else S754_infinity s
         | Zneg _ => S754_nan
         end.
Proof.
  intros Hmx n1. unfold binary_round_aux, shr_fexp.
  assert (Hexact : lx = loc_Exact -> n1 = 0 ->
            shr (shr_record_of_loc mx lx) ex
              (fexp prec emax (Zdigits2 mx + ex) - ex)
            = (Build_shr_record mx false false, ex)).
  { intros -> Hn. unfold n1 in Hn.
    destruct (fexp prec emax (Zdigits2 mx + ex) - ex); try reflexivity; lia. }
  destruct (shr_spec (shr_record_of_loc mx lx) ex
              (fexp prec emax (Zdigits2 mx + ex) - ex)) as [Hm He].
  { now rewrite shr_m_of_loc. }
  rewrite shr_m_of_loc in Hm. fold n1 in Hm, He.
  destruct (shr (shr_record_of_loc mx lx) ex
              (fexp prec emax (Zdigits2 mx + ex) - ex)) as [mrs' e'].
  cbn [fst snd] in Hm, He. subst e'.
  set (m1 := round_nearest_even (shr_m mrs') (loc_of_shr_record mrs')).
  assert (Hm1 : m1 = mx / 2 ^ n1 \/ m1 = mx / 2 ^ n1 + 1).
  { rewrite <- Hm. apply round_nearest_even_cases. }
  exists m1. split; [exact Hm1|]. split.
  { intros Hl Hn. specialize (Hexact Hl Hn). injection Hexact as -> _.
    reflexivity. }
  cbv zeta.
  assert (H0 : 0 <= m1).
  { assert (0 <= mx / 2 ^ n1) by (apply Z.div_pos; [exact Hmx|apply Z.pow_pos_nonneg; lia]).
    lia. }
  destruct (shr_spec (shr_record_of_loc m1 loc_Exact) (ex + n1)
              (fexp prec emax (Zdigits2 m1 + (ex + n1)) - (ex + n1))) as [Hm' He'].
  { exact H0. }
  rewrite shr_m_of_loc in Hm'.
  destruct (shr (shr_record_of_loc m1 loc_Exact) (ex + n1)
              (fexp prec emax (Zdigits2 m1 + (ex + n1)) - (ex + n1))) as [mrs'' e''].
  cbn [fst snd] in Hm', He'. now rewrite Hm', He'.
Qed.

(** The number of binary digits. *)
Lemma digits2_pos_bounds (p : positive) :
  2 ^ (Zpos (digits2_pos p) - 1) <= Zpos p < 2 ^ Zpos (digits2_pos p).
Proof.
  induction p as [p IH|p IH|]; cbn [digits2_pos].
  - rewrite Pos2Z.inj_succ, (Pos2Z.inj_xI p).
    replace (Z.succ (Zpos (digits2_pos p)) - 1) with (Z.succ (Zpos (digits2_pos p) - 1)) by lia.
    rewrite !Z.pow_succ_r by lia.
    revert IH. generalize (2 ^ (Zpos (digits2_pos p) - 1)), (2 ^ Zpos (digits2_pos p)).
    intros a b IH. lia.
  - rewrite Pos2Z.inj_succ, (Pos2Z.inj_xO p).
    replace (Z.succ (Zpos (digits2_pos p)) - 1) with (Z.succ (Zpos (digits2_pos p) - 1)) by lia.
    rewrite !Z.pow_succ_r by lia.
    revert IH. generalize (2 ^ (Zpos (digits2_pos p) - 1)), (2 ^ Zpos (digits2_pos p)).
    intros a b IH. lia.
  - cbn. lia.
Qed.

Lemma Zdigits2_unique (z d : Z) :
  2 ^ (d - 1) <= z < 2 ^ d -> 0 < z -> Zdigits2 z = d.
Proof.
  intros Hz Hpos. destruct z as [|p|p]; try lia. cbn [Zdigits2].
  pose proof (digits2_pos_bounds p) as Hp.
  set (k := Zpos (digits2_pos p)) in *.
  assert (Hk : 0 < k) by (unfold k; lia).
  assert (Hd : 0 < d).
  { destruct (Z.lt_trichotomy d 0) as [N|[N|N]]; [|subst d; cbn in Hz; lia|exact N].
    rewrite (Z.pow_neg_r 2 d N) in Hz. lia. }
  destruct (Z.lt_trichotomy k d) as [N|[N|N]]; [|exact N|].
  - assert (2 ^ k <= 2 ^ (d - 1)) by (apply Z.pow_le_mono_r; lia). lia.
  - assert (2 ^ d <= 2 ^ (k - 1)) by (apply Z.pow_le_mono_r; lia). lia.
Qed.

Lemma iter_xO (d p : positive) : Zpos (Pos.iter xO p d) = Zpos p * 2 ^ Zpos d.
Proof.
  induction d as [|d IH] using Pos.peano_ind.
  - cbn. lia.
  - rewrite Pos.iter_succ, Pos2Z.inj_xO, IH, Pos2Z.inj_succ, Z.pow_succ_r by lia.
    ring.
Qed.

(** Aligning a mantissa to a smaller exponent keeps the value. *)
Lemma shl_align_spec (mx : positive) (ex ez : Z) :
  ez <= ex ->
  Zpos (shl_align mx ex ez).1 = Zpos mx * 2 ^ (ex - ez).
Proof.
  intros Hle. unfold shl_align.
  destruct (ez - ex) as [|d|d] eqn:E; cbn [fst].
  - replace (ex - ez) with 0 by lia. rewrite Z.pow_0_r. lia.
  - lia.
  - rewrite iter_xO. f_equal. f_equal. lia.
Qed.

Lemma shl_align_exp (mx : positive) (ex ez : Z) :
  ez <= ex -> (shl_align mx ex ez).2 = ez.
Proof.
  intros Hle. unfold shl_align.
  destruct (ez - ex) as [|d|d] eqn:E; cbn [snd]; lia.
Qed.

Lemma fexp_normal (e : Z) : -1021 <= e -> fexp prec emax e = e - 53.
Proof. intros He. unfold fexp, emin, prec, emax. lia. Qed.

(** A mantissa of 53 digits at an exponent of the format is kept as it is. *)
Lemma binary_round_aux_exact (s : bool) (m : positive) (e : Z) :
  Zpos (digits2_pos m) = 53 -> -1074 <= e <= 971 ->
  binary_round_aux prec emax s (Zpos m) e loc_Exact = S754_finite s m e.
Proof.
  intros Hd He.
  destruct (binary_round_aux_spec s (Zpos m) e loc_Exact) as (m1 & _ & Hm1 & Hr);
    [lia|].
  cbn [Zdigits2] in Hm1, Hr. rewrite Hd in Hm1, Hr.
  rewrite (fexp_normal (53 + e)) in Hm1, Hr by lia.
  replace (Z.max (53 + e - 53 - e) 0) with 0 in Hm1, Hr by lia.
  specialize (Hm1 eq_refl eq_refl). subst m1. cbv zeta in Hr.
  cbn [Zdigits2] in Hr. rewrite Hd, Z.add_0_r in Hr.
  rewrite (fexp_normal (53 + e)) in Hr by lia.
  replace (Z.max (53 + e - 53 - e) 0) with 0 in Hr by lia.
  rewrite Z.pow_0_r, Z.div_1_r, Z.add_0_r in Hr. rewrite Hr.
  replace (e <=? emax - prec) with true; [reflexivity|].
  symmetry. apply Z.leb_le. unfold emax, prec. lia.
Qed.

(** The conversion of an integer below [2^53] is exact: the mantissa is
    the integer shifted to 53 digits. *)
Lemma binary_round_exact (s : bool) (p : positive) :
  let d := Zpos (digits2_pos p) in
  d <= 53 ->
  exists m : positive,
    binary_round prec emax s p 0 = S754_finite s m (d - 53)
    /\ Zpos m = Zpos p * 2 ^ (53 - d)
    /\ Zpos (digits2_pos m) = 53.
Proof.
  intros d Hd. unfold binary_round. fold d.
  rewrite fexp_normal by (unfold d; lia). rewrite Z.add_0_r.
  pose proof (shl_align_spec p 0 (d - 53) ltac:(lia)) as Hm.
  pose proof (shl_align_exp p 0 (d - 53) ltac:(lia)) as He.
  destruct (shl_align p 0 (d - 53)) as [mz ez]. cbn [fst snd] in Hm, He. subst ez.
  replace (0 - (d - 53)) with (53 - d) in Hm by lia.
  assert (Hdz : Zpos (digits2_pos mz) = 53).
  { apply (Zdigits2_unique (Zpos mz) 53); [|lia]. rewrite Hm.
    pose proof (digits2_pos_bounds p) as Hp. fold d in Hp.
    assert (E1 : 2 ^ (53 - 1) = 2 ^ (d - 1) * 2 ^ (53 - d)).
    { rewrite <- Z.pow_add_r by (unfold d; lia). f_equal. lia. }
    assert (E2 : 2 ^ 53 = 2 ^ d * 2 ^ (53 - d)).
    { rewrite <- Z.pow_add_r by (unfold d; lia). f_equal. lia. }
    rewrite E1, E2.
    assert (0 < 2 ^ (53 - d)) by (apply Z.pow_pos_nonneg; lia).
    split; [apply Z.mul_le_mono_nonneg_r; lia|apply Z.mul_lt_mono_pos_r; lia]. }
  exists mz. split; [|split; [exact Hm|exact Hdz]].
  apply binary_round_aux_exact; [exact Hdz|unfold d; lia].
Qed.

(** Rounding a mantissa of 53 or 54 digits: the result is finite, at most
    two binades up, with a mantissa of 53 digits within one unit of the
    shifted input. *)
Lemma binary_round_aux_normal (s : bool) (mx ex : Z) (lx : location) :
  2 ^ 52 <= mx < 2 ^ 54 -> -1074 <= ex <= 969 ->
  exists (m : positive) (N : Z),
    0 <= N <= 2
    /\ binary_round_aux prec emax s mx ex lx = S754_finite s m (ex + N)
    /\ 2 ^ 52 <= Zpos m < 2 ^ 53
    /\ (Zpos m - 1) * 2 ^ N <= mx < (Zpos m + 1) * 2 ^ N.
Proof.
  intros Hmx Hex.
  destruct (binary_round_aux_spec s mx ex lx) as (m1 & Hm1 & _ & Hres); [lia|].
  set (n1 := Z.max (fexp prec emax (Zdigits2 mx + ex) - ex) 0) in *.
  assert (Hn1 : (mx < 2 ^ 53 /\ n1 = 0) \/ (2 ^ 53 <= mx /\ n1 = 1)).
  { destruct (Z.lt_ge_cases mx (2 ^ 53)) as [H|H]; [left|right]; (split; [exact H|]);
      unfold n1.
    - rewrite (Zdigits2_unique mx 53) by (change (53 - 1) with 52; lia).
      rewrite fexp_normal by lia. lia.
    - rewrite (Zdigits2_unique mx 54) by (change (54 - 1) with 53; lia).
      rewrite fexp_normal by lia. lia. }
  assert (Hm1b : 2 ^ 52 <= m1 <= 2 ^ 53
                 /\ (m1 - 1) * 2 ^ n1 <= mx < (m1 + 1) * 2 ^ n1).
  { change (2 ^ 52) with 4503599627370496 in *.
    change (2 ^ 53) with 9007199254740992 in *.
    change (2 ^ 54) with 18014398509481984 in *.
    destruct Hn1 as [[H ->]|[H ->]].
    - change (2 ^ 0) with 1 in *. rewrite Z.div_1_r in Hm1. lia.
    - change (2 ^ 1) with 2 in *. Z.div_mod_to_equations. lia. }
  cbv zeta in Hres.
  set (e1 := ex + n1) in *.
  set (n2 := Z.max (fexp prec emax (Zdigits2 m1 + e1) - e1) 0) in *.
  assert (Hn2 : (m1 < 2 ^ 53 /\ n2 = 0) \/ (m1 = 2 ^ 53 /\ n2 = 1)).
  { destruct (Z.lt_ge_cases m1 (2 ^ 53)) as [H|H]; [left|right];
      (split; [lia|]); unfold n2.
    - rewrite (Zdigits2_unique m1 53) by (change (53 - 1) with 52; lia).
      rewrite fexp_normal by (unfold e1; lia). lia.
    - rewrite (Zdigits2_unique m1 54)
        by (change (54 - 1) with 53; change (2 ^ 54) with (2 * 2 ^ 53); lia).
      rewrite fexp_normal by (unfold e1; lia). lia. }
  assert (Hm : 2 ^ 52 <= m1 / 2 ^ n2 < 2 ^ 53
               /\ m1 / 2 ^ n2 * 2 ^ n2 = m1).
  { change (2 ^ 52) with 4503599627370496 in *.
    change (2 ^ 53) with 9007199254740992 in *.
    destruct Hn2 as [[H ->]|[H ->]].
    - change (2 ^ 0) with 1 in *. rewrite Z.div_1_r. lia.
    - change (2 ^ 1) with 2 in *. Z.div_mod_to_equations. lia. }
  destruct (m1 / 2 ^ n2) as [|m|m] eqn:Em; try lia.
  exists m, (n1 + n2). split; [lia|].
  split.
  { rewrite Hres, Z.add_assoc. fold e1.
    replace (e1 + n2 <=? emax - prec) with true; [reflexivity|].
    symmetry. apply Z.leb_le. unfold emax, prec, e1. lia. }
  split; [lia|].
  destruct Hm as [_ Hm]. destruct Hm1b as [_ Hb].
  rewrite Z.pow_add_r by lia.
  assert (HA : 0 < 2 ^ n1) by (apply Z.pow_pos_nonneg; lia).
  assert (HB : 0 < 2 ^ n2) by (apply Z.pow_pos_nonneg; lia).
  revert Hm Hb HA HB. generalize (2 ^ n1), (2 ^ n2). intros A B Hm Hb HA HB.
  rewrite <- Hm in Hb.
  assert (HAB : A <= A * B) by nia. lia.
Qed.

(** Whatever the mantissa, a finite result of the rounding keeps the sign
    and lies within one unit of its last place of the input. *)
Lemma binary_round_aux_bounds (s : bool) (mx ex : Z) (lx : location)
    (s' : bool) (m : positive) (e : Z) :
  0 <= mx ->
  binary_round_aux prec emax s mx ex lx = S754_finite s' m e ->
  s' = s /\ ex <= e
  /\ (Zpos m - 1) * 2 ^ (e - ex) <= mx < (Zpos m + 1) * 2 ^ (e - ex).
Proof.
  intros Hmx Hres.
  destruct (binary_round_aux_spec s mx ex lx) as (m1 & Hm1 & _ & Hspec); [lia|].
  set (n1 := Z.max (fexp prec emax (Zdigits2 mx + ex) - ex) 0) in *.
  cbv zeta in Hspec.
  set (n2 := Z.max (fexp prec emax (Zdigits2 m1 + (ex + n1)) - (ex + n1)) 0) in *.
  rewrite Hspec in Hres.
  destruct (m1 / 2 ^ n2) as [|m'|m'] eqn:Em; try discriminate.
  destruct (ex + n1 + n2 <=? emax - prec); try discriminate.
  injection Hres as <- <- <-.
  split; [reflexivity|]. split; [lia|].
  replace (ex + n1 + n2 - ex) with (n1 + n2) by lia.
  rewrite Z.pow_add_r by lia.
  assert (HA : 0 < 2 ^ n1) by (apply Z.pow_pos_nonneg; lia).
  assert (HB : 0 < 2 ^ n2) by (apply Z.pow_pos_nonneg; lia).
  pose proof (Z.mul_div_le m1 (2 ^ n2) HB) as H1.
  pose proof (Z.mul_succ_div_gt m1 (2 ^ n2) HB) as H2.
  pose proof (Z.mul_div_le mx (2 ^ n1) HA) as H3.
  pose proof (Z.mul_succ_div_gt mx (2 ^ n1) HA) as H4.
  rewrite Em in H1, H2.
  revert Hm1 H1 H2 H3 H4 HA HB.
  generalize (2 ^ n1), (2 ^ n2), (mx / 2 ^ n1). intros A B t Hm1 H1 H2 H3 H4 HA HB.
  split; nia.
Qed.

Lemma digits_le_53 (p : positive) : Zpos p < 2 ^ 53 -> Zpos (digits2_pos p) <= 53.
Proof.
  intros Hp. pose proof (digits2_pos_bounds p) as [Hlo _].
  destruct (Z.le_gt_cases (Zpos (digits2_pos p)) 53) as [H|H]; [exact H|].
  assert (2 ^ 53 <= 2 ^ (Zpos (digits2_pos p) - 1)) by (apply Z.pow_le_mono_r; lia).
  lia.
Qed.

(** [float64(n)] for [0 < n < 2^53]. *)
Lemma of_uint63_exact (n : Z) :
  0 < n < 2 ^ 53 ->
  exists m : positive,
    Prim2SF (PrimFloat.of_uint63 (Uint63.of_Z n))
    = S754_finite false m (Zdigits2 n - 53)
    /\ Zpos m = n * 2 ^ (53 - Zdigits2 n)
    /\ Zpos (digits2_pos m) = 53.
Proof.
  intros Hn. rewrite FloatAxioms.of_uint63_spec, Uint63.of_Z_spec.
  rewrite Z.mod_small by (change Uint63Axioms.wB with (2 ^ 63); lia).
  destruct n as [|p|p]; try lia. cbn [binary_normalize Zdigits2].
  apply binary_round_exact. apply digits_le_53. lia.
Qed.

Lemma ofInt_pos (n : Z) :
  0 < n < 2 ^ 53 ->
  exists m : positive,
    Prim2SF (f64.ofInt n) = S754_finite false m (Zdigits2 n - 53)
    /\ Zpos m = n * 2 ^ (53 - Zdigits2 n)
    /\ Zpos (digits2_pos m) = 53.
Proof.
  intros Hn. unfold f64.ofInt.
  replace (n <? 0) with false by (symmetry; apply Z.ltb_ge; lia).
  now apply of_uint63_exact.
Qed.

Lemma ofInt_neg (n : Z) :
  - 2 ^ 53 < n < 0 ->
  exists m : positive,
    Prim2SF (f64.ofInt n) = S754_finite true m (Zdigits2 (- n) - 53)
    /\ Zpos m = - n * 2 ^ (53 - Zdigits2 (- n))
    /\ Zpos (digits2_pos m) = 53.
Proof.
  intros Hn. unfold f64.ofInt.
  replace (n <? 0) with true by (symmetry; apply Z.ltb_lt; lia).
  destruct (of_uint63_exact (- n)) as (m & Hm & Hv & Hd); [lia|].
  exists m. rewrite FloatAxioms.opp_spec, Hm. cbn [SFopp negb]. now split.
Qed.

Lemma ofInt_zero : Prim2SF (f64.ofInt 0) = S754_zero false.
Proof. reflexivity. Qed.

Lemma Zdigits2_range (n : Z) (hi : Z) :
  0 < n < 2 ^ hi -> 1 <= Zdigits2 n <= hi.
Proof.
  intros Hn. destruct n as [|p|p]; try lia. cbn [Zdigits2].
  pose proof (digits2_pos_bounds p) as [Hlo _]. split; [lia|].
  destruct (Z.le_gt_cases (Zpos (digits2_pos p)) hi) as [H|H]; [exact H|].
  assert (0 <= hi).
  { destruct (Z.le_gt_cases 0 hi) as [G|G]; [exact G|].
    rewrite (Z.pow_neg_r 2 hi) in Hn by lia. lia. }
  assert (2 ^ hi <= 2 ^ (Zpos (digits2_pos p) - 1)) by (apply Z.pow_le_mono_r; lia).
  lia.
Qed.

Lemma div_by_1e9 (s : bool) (mN : positive) (k nsec : Z) :
  0 < nsec < 1000000000 -> 1 <= k <= 30 ->
  Zpos mN = nsec * 2 ^ (53 - k) -> Zpos (digits2_pos mN) = 53 ->
  exists (mQ : positive) (eQ : Z),
    SF64div (S754_finite s mN (k - 53))
            (S754_finite false 8388608000000000 (-23))
    = S754_finite s mQ eQ
    /\ -82 <= eQ <= -51
    /\ 2 ^ 52 <= Zpos mQ
    /\ 1000000000 * Zpos mQ <= 999999999 * 2 ^ (- eQ) + 1000000000.
Proof.
  intros Hnsec Hk HmN Hd.
  unfold SF64div, SFdiv, SFdiv_core_binary. cbn [Zdigits2]. rewrite Hd.
  change (Zpos (digits2_pos 8388608000000000)) with 53.
  rewrite (fexp_normal (53 + (k - 53) - (53 + -23))) by lia.
  replace (Z.min (53 + (k - 53) - (53 + -23) - 53) (k - 53 - -23)) with (k - 83) by lia.
  replace (k - 53 - -23 - (k - 83)) with 53 by lia.
  rewrite Z.shiftl_mul_pow2 by lia.
  pose proof (Z_div_mod (Zpos mN * 2 ^ 53) 8388608000000000 eq_refl) as Hdiv.
  destruct (Z.div_eucl (Zpos mN * 2 ^ 53) 8388608000000000) as [q r].
  destruct Hdiv as [Hq Hr]. rewrite xorb_false_r.
  pose proof (digits2_pos_bounds mN) as HN. rewrite Hd in HN.
  change (2 ^ (53 - 1)) with 4503599627370496 in HN.
  change (2 ^ 53) with 9007199254740992 in HN, Hq.
  assert (Hqb : 4503599627370496 <= q < 18014398509481984) by lia.
  set (P := 2 ^ (53 - k)) in *.
  assert (HP : 0 < P) by (apply Z.pow_pos_nonneg; lia).
  assert (HNP : Zpos mN <= 999999999 * P).
  { rewrite HmN. apply Z.mul_le_mono_nonneg_r; lia. }
  destruct (binary_round_aux_normal s q (k - 83)
              (new_location 8388608000000000 r))
    as (m & N & HN2 & Hres & Hm & Hb).
  { change (2 ^ 52) with 4503599627370496. change (2 ^ 54) with 18014398509481984.
    lia. }
  { lia. }
  exists m, (k - 83 + N). split; [exact Hres|]. split; [lia|]. split; [lia|].
  assert (HB : 2 ^ (- (k - 83 + N)) * 2 ^ N = P * 2 ^ 30).
  { unfold P. rewrite <- !Z.pow_add_r by lia. f_equal. lia. }
  revert HB. generalize (2 ^ (- (k - 83 + N))). intros B HB.
  change (2 ^ 30) with 1073741824 in HB.
  assert (HN3 : N = 0 \/ N = 1 \/ N = 2) by lia.
  destruct HN3 as [->|[->| ->]];
    [change (2 ^ 0) with 1 in *|change (2 ^ 1) with 2 in *
    |change (2 ^ 2) with 4 in *]; lia.
Qed.

(** [float64(nsec)/1e9] for a positive, and for a negative, number of
    nanoseconds below one second. *)
Lemma nanoseconds_pos (nsec : Z) :
  0 < nsec < 1000000000 ->
  exists (mQ : positive) (eQ : Z),
    Prim2SF (f64.div (f64.ofInt nsec) 1e9%float) = S754_finite false mQ eQ
    /\ -82 <= eQ <= -51
    /\ 2 ^ 52 <= Zpos mQ
    /\ 1000000000 * Zpos mQ <= 999999999 * 2 ^ (- eQ) + 1000000000.
Proof.
  intros Hn. unfold f64.div. rewrite FloatAxioms.div_spec.
  destruct (ofInt_pos nsec) as (mN & HmN & Hv & Hd).
  { change (2 ^ 53) with 9007199254740992. lia. }
  rewrite HmN.
  change (Prim2SF 1e9%float) with (S754_finite false 8388608000000000 (-23)).
  apply (div_by_1e9 false mN (Zdigits2 nsec) nsec Hn); [|exact Hv|exact Hd].
  apply Zdigits2_range. change (2 ^ 30) with 1073741824. lia.
Qed.

Lemma nanoseconds_neg (nsec : Z) :
  -1000000000 < nsec < 0 ->
  exists (mQ : positive) (eQ : Z),
    Prim2SF (f64.div (f64.ofInt nsec) 1e9%float) = S754_finite true mQ eQ
    /\ 2 ^ 52 <= Zpos mQ.
Proof.
  intros Hn. unfold f64.div. rewrite FloatAxioms.div_spec.
  destruct (ofInt_neg nsec) as (mN & HmN & Hv & Hd).
  { change (2 ^ 53) with 9007199254740992. lia. }
  rewrite HmN.
  change (Prim2SF 1e9%float) with (S754_finite false 8388608000000000 (-23)).
  destruct (div_by_1e9 true mN (Zdigits2 (- nsec)) (- nsec))
    as (mQ & eQ & H & _ & Hm & _);
    [lia| |exact Hv|exact Hd|now exists mQ, eQ].
  apply Zdigits2_range. change (2 ^ 30) with 1073741824. lia.
Qed.

Lemma digits_ge_53 (p : positive) : 2 ^ 52 <= Zpos p -> 53 <= Zpos (digits2_pos p).
Proof.
  intros Hp. pose proof (digits2_pos_bounds p) as [_ Hhi].
  destruct (Z.le_gt_cases 53 (Zpos (digits2_pos p))) as [H|H]; [exact H|].
  assert (2 ^ Zpos (digits2_pos p) <= 2 ^ 52) by (apply Z.pow_le_mono_r; lia).
  lia.
Qed.

(** The sum of two finite floats of the same sign with full mantissas:
    a finite result has that sign and lies within one unit of its last
    place of the exact sum. *)
Lemma SFadd_same_sign (s : bool) (m1 : positive) (e1 : Z) (m2 : positive)
    (e2 : Z) (s' : bool) (m : positive) (e : Z) :
  2 ^ 52 <= Zpos m1 -> 2 ^ 52 <= Zpos m2 ->
  SF64add (S754_finite s m1 e1) (S754_finite s m2 e2) = S754_finite s' m e ->
  let ez := Z.min e1 e2 in
  s' = s /\ ez <= e
  /\ (Zpos m - 1) * 2 ^ (e - ez)
     <= Zpos m1 * 2 ^ (e1 - ez) + Zpos m2 * 2 ^ (e2 - ez)
     < (Zpos m + 1) * 2 ^ (e - ez).
Proof.
  intros H1 H2 Hadd ez. unfold SF64add, SFadd in Hadd. fold ez in Hadd.
  pose proof (shl_align_spec m1 e1 ez ltac:(lia)) as E1.
  pose proof (shl_align_spec m2 e2 ez ltac:(lia)) as E2.
  set (M1 := (shl_align m1 e1 ez).1) in *.
  set (M2 := (shl_align m2 e2 ez).1) in *.
  assert (HM : 2 ^ 52 <= Zpos (M1 + M2)).
  { rewrite Pos2Z.inj_add, E1, E2.
    assert (0 < 2 ^ (e1 - ez)) by (apply Z.pow_pos_nonneg; lia).
    assert (0 < 2 ^ (e2 - ez)) by (apply Z.pow_pos_nonneg; lia).
    nia. }
  assert (Hsum : Z.add (cond_Zopp s (Zpos M1)) (cond_Zopp s (Zpos M2))
                 = cond_Zopp s (Zpos (M1 + M2))).
  { destruct s; reflexivity. }
  rewrite Hsum in Hadd.
  assert (Hround : binary_normalize prec emax (cond_Zopp s (Zpos (M1 + M2))) ez false
                   = binary_round_aux prec emax s (Zpos (M1 + M2)) ez loc_Exact).
  { assert (Hr : binary_round prec emax s (M1 + M2) ez
                 = binary_round_aux prec emax s (Zpos (M1 + M2)) ez loc_Exact).
    { unfold binary_round, shl_align.
      pose proof (digits_ge_53 (M1 + M2) HM) as Hd.
      assert (Hf : 0 <= fexp prec emax (Zpos (digits2_pos (M1 + M2)) + ez) - ez).
      { unfold fexp, prec. lia. }
      destruct (fexp prec emax (Zpos (digits2_pos (M1 + M2)) + ez) - ez);
        try reflexivity; lia. }
    destruct s; exact Hr. }
  rewrite Hround in Hadd.
  apply binary_round_aux_bounds in Hadd as (Hs & He & Hb); [|lia].
  rewrite Pos2Z.inj_add, E1, E2 in Hb. now split.
Qed.

Lemma SFeqb_finite (x : spec_float) (m : positive) (e : Z) :
  SFeqb x (S754_finite false m e) = true -> x = S754_finite false m e.
Proof.
  unfold SFeqb, SFcompare. destruct x as [[]|[]| |[] m' e']; try discriminate.
  destruct (Z.compare_spec e' e) as [->|H|H]; try discriminate.
  rewrite Pos.compare_cont_spec. cbn [Pos.switch_Eq].
  destruct (Pos.compare_spec m' m) as [->|H|H]; try discriminate. reflexivity.
Qed.

(** Seconds and a positive number of nanoseconds never add up to the
    float 86400. *)
Lemma add_nanoseconds_not_86400 (sec : Z) (mQ : positive) (eQ : Z) :
  0 < sec < 2 ^ 34 ->
  -82 <= eQ <= -51 ->
  2 ^ 52 <= Zpos mQ ->
  1000000000 * Zpos mQ <= 999999999 * 2 ^ (- eQ) + 1000000000 ->
  SF64add (Prim2SF (f64.ofInt sec)) (S754_finite false mQ eQ)
    <> S754_finite false 5937362789990400 (-36).
Proof.
  intros Hsec HeQ HmQ Hval Hadd.
  destruct (ofInt_pos sec) as (mF & HF & HvF & HdF).
  { change (2 ^ 53) with (2 ^ 34 * 524288). lia. }
  pose proof (Zdigits2_range sec 34 Hsec) as Hks.
  set (ks := Zdigits2 sec) in *.
  rewrite HF in Hadd.
  assert (HmF : 2 ^ 52 <= Zpos mF).
  { pose proof (digits2_pos_bounds mF) as HB. rewrite HdF in HB.
    change (53 - 1) with 52 in HB. lia. }
  apply SFadd_same_sign in Hadd as (_ & Hez & Hb); [|exact HmF|exact HmQ].
  cbv zeta in Hb, Hez.
  set (ez := Z.min (ks - 53) eQ) in *.
  assert (E1 : Zpos mF * 2 ^ (ks - 53 - ez) = sec * (68719476736 * 2 ^ (-36 - ez))).
  { rewrite HvF, <- Z.mul_assoc. f_equal.
    change 68719476736 with (2 ^ 36).
    rewrite <- !Z.pow_add_r by lia. f_equal. lia. }
  assert (E2 : 2 ^ (-36 - ez) = 2 ^ (eQ - ez) * 2 ^ (-36 - eQ)).
  { rewrite <- Z.pow_add_r by lia. f_equal. lia. }
  assert (E3 : 2 ^ (- eQ) = 68719476736 * 2 ^ (-36 - eQ)).
  { change 68719476736 with (2 ^ 36).
    rewrite <- Z.pow_add_r by lia. f_equal. lia. }
  assert (HG : 0 < 2 ^ (eQ - ez)) by (apply Z.pow_pos_nonneg; lia).
  assert (HW : 0 < 2 ^ (-36 - eQ) <= 2 ^ 46).
  { split; [apply Z.pow_pos_nonneg; lia|apply Z.pow_le_mono_r; lia]. }
  rewrite E1, E2 in Hb. rewrite E3 in Hval.
  change (2 ^ 52) with 4503599627370496 in HmQ.
  change (2 ^ 46) with 70368744177664 in HW.
  revert Hb Hval HG HW.
  generalize (2 ^ (eQ - ez)), (2 ^ (-36 - eQ)). intros G W Hb Hval HG HW.
  assert (Hc : (5937362789990400 - 1) * W
               <= sec * (68719476736 * W) + Zpos mQ
               < (5937362789990400 + 1) * W).
  { split.
    - apply (Z.mul_le_mono_pos_l _ _ G HG). lia.
    - apply (Z.mul_lt_mono_pos_l G _ _ HG). lia. }
  clear Hb.
  destruct (Z.lt_trichotomy sec 86399) as [H|[->|H]].
  - assert (sec * W <= 86398 * W) by (apply Z.mul_le_mono_nonneg_r; lia). lia.
  - lia.
  - assert (86400 * W <= sec * W) by (apply Z.mul_le_mono_nonneg_r; lia). lia.
Qed.

(** The float test on the seconds of a duration is exact: [d.Seconds()]
    is the float 86400 for the duration of 86400 seconds and for no
    other. *)
Lemma Seconds_86400 (d : Duration) :
  minDuration <= d <= maxDuration ->
  PrimFloat.eqb (Seconds d) 86400%float = true <-> d = 86400 * Second.
Proof.
  intros Hd. split; [|intros ->; reflexivity].
  unfold Seconds. cbv zeta.
  pose proof (Z.quot_rem' d Second) as Hqr.
  assert (Hsec : - 2 ^ 34 < Z.quot d Second < 2 ^ 34
                 /\ -1000000000 < Z.rem d Second < 1000000000
                 /\ (0 <= Z.quot d Second /\ 0 <= Z.rem d Second
                     \/ Z.quot d Second <= 0 /\ Z.rem d Second <= 0)).
  { pose proof (Z.rem_bound_abs d Second ltac:(discriminate)) as Habs.
    pose proof (Z.rem_nonneg d Second ltac:(discriminate)) as Hnn.
    pose proof (Z.rem_nonpos d Second ltac:(discriminate)) as Hnp.
    unfold minDuration, maxDuration, Second in *.
    change (2 ^ 63) with 9223372036854775808 in Hd.
    change (2 ^ 34) with 17179869184.
    revert Hqr Habs Hnn Hnp.
    generalize (Z.quot d 1000000000), (Z.rem d 1000000000). intros q r. lia. }
  revert Hqr Hsec. generalize (Z.quot d Second), (Z.rem d Second).
  intros sec nsec Hqr (Hs & Hn & Hsign) Heq.
  rewrite FloatAxioms.eqb_spec in Heq. unfold f64.add in Heq. rewrite FloatAxioms.add_spec in Heq.
  change (Prim2SF 86400%float)
    with (S754_finite false 5937362789990400 (-36)) in Heq.
  apply SFeqb_finite in Heq.
  destruct (Z.lt_trichotomy nsec 0) as [Hneg|[->|Hpos]].
  - (* a negative number of nanoseconds: the sum is negative *)
    destruct (nanoseconds_neg nsec) as (mQ & eQ & HQ & HmQ); [lia|].
    rewrite HQ in Heq.
    destruct (Z.lt_trichotomy sec 0) as [Hs0|[->|Hs0]]; [| |lia].
    + destruct (ofInt_neg sec) as (mF & HF & HvF & HdF).
      { change (2 ^ 53) with (2 ^ 34 * 524288). lia. }
      rewrite HF in Heq.
      assert (HmF : 2 ^ 52 <= Zpos mF).
      { pose proof (digits2_pos_bounds mF) as HB. rewrite HdF in HB.
        change (53 - 1) with 52 in HB. lia. }
      apply SFadd_same_sign in Heq as (Hsign' & _); [|exact HmF|exact HmQ].
      discriminate Hsign'.
    + rewrite ofInt_zero in Heq. discriminate Heq.
  - (* whole seconds *)
    change (Prim2SF (f64.div (f64.ofInt 0) 1e9%float)) with (S754_zero false) in Heq.
    destruct (Z.lt_trichotomy sec 0) as [Hs0|[->|Hs0]].
    + destruct (ofInt_neg sec) as (mF & HF & _).
      { change (2 ^ 53) with (2 ^ 34 * 524288). lia. }
      rewrite HF in Heq. discriminate Heq.
    + rewrite ofInt_zero in Heq. discriminate Heq.
    + destruct (ofInt_pos sec) as (mF & HF & HvF & HdF).
      { change (2 ^ 53) with (2 ^ 34 * 524288). lia. }
      rewrite HF in Heq. cbn [SF64add SFadd] in Heq.
      injection Heq as -> He.
      assert (Hk : Zdigits2 sec = 17) by lia.
      rewrite Hk in HvF. change (2 ^ (53 - 17)) with 68719476736 in HvF.
      unfold Second in *. lia.
  - (* a positive number of nanoseconds *)
    destruct (nanoseconds_pos nsec) as (mQ & eQ & HQ & HeQ & HmQ & Hval); [lia|].
    rewrite HQ in Heq.
    destruct (Z.lt_trichotomy sec 0) as [Hs0|[->|Hs0]]; [lia| |].
    + rewrite ofInt_zero in Heq. cbn [SF64add SFadd] in Heq.
      injection Heq as _ He. lia.
    + exfalso.
      apply (add_nanoseconds_not_86400 sec mQ eQ); [lia|exact HeQ|exact HmQ|exact Hval|exact Heq].
Qed.

(** ** The rows of the upload *)

Lemma isReservation_spec (u : UsageRecord.t) :
  isReservation u
  = String.eqb (UsageRecord.Type_ u) "HardwareReservation"
    && negb (String.eqb (UsageRecord.Plan u) "Outbound Bandwidth").
Proof.
  unfold isReservation, normalizeType.
  destruct (String.eqb_spec (UsageRecord.Plan u) "Outbound Bandwidth") as [E|E].
  - cbn [UsageRecord.Type_]. rewrite E. now rewrite andb_false_r.
  - now rewrite andb_true_r.
Qed.

Lemma full_day_window (up : UploadToBigqueryT.t) :
  Sub (UploadToBigqueryT.endTime up) (UploadToBigqueryT.startTime up)
    = 86400 * Second ->
  notFullDay up = false.
Proof. unfold notFullDay. intros ->. reflexivity. Qed.

Lemma Sub_range (t u : Time) : minDuration <= Sub t u <= maxDuration.
Proof.
  unfold Sub. cbv zeta.
  destruct (Z.ltb_spec ((unixSec t - unixSec u) * Second + (nsec t - nsec u))
              minDuration) as [H|H]; [unfold minDuration, maxDuration; lia|].
  destruct (Z.ltb_spec maxDuration
              ((unixSec t - unixSec u) * Second + (nsec t - nsec u))) as [G|G];
    [unfold minDuration, maxDuration in *; lia|lia].
Qed.

(** The window test of the upload fails exactly on the windows of 86400
    seconds. *)
Lemma notFullDay_false_iff (up : UploadToBigqueryT.t) :
  notFullDay up = false
  <-> Sub (UploadToBigqueryT.endTime up) (UploadToBigqueryT.startTime up)
      = 86400 * Second.
Proof.
  unfold notFullDay, f64.neq. rewrite negb_false_iff.
  apply Seconds_86400, Sub_range.
Qed.

Lemma notFullDay_true_iff (up : UploadToBigqueryT.t) :
  notFullDay up = true
  <-> Sub (UploadToBigqueryT.endTime up) (UploadToBigqueryT.startTime up)
      <> 86400 * Second.
Proof.
  rewrite <- notFullDay_false_iff. now destruct (notFullDay up).
Qed.

Lemma fold_appendItem up project usages : forall items,
  fold_left (appendItem up project) usages items
  = (items ++ fold_left (appendItem up project) usages [])%list.
Proof.
  induction usages as [|u usages IH]; intros items; cbn [fold_left].
  - now rewrite app_nil_r.
  - rewrite IH, (IH (appendItem up project [] u)). unfold appendItem.
    destruct (prorate up (normalizeType u)); [|reflexivity].
    now rewrite app_assoc.
Qed.

Lemma uploadItems_cons up project u usages :
  uploadItems up project (u :: usages)
  = (appendItem up project [] u ++ uploadItems up project usages)%list.
Proof. unfold uploadItems. cbn [fold_left]. apply fold_appendItem. Qed.

Lemma type_of_reservation (u : UsageRecord.t) :
  isReservation u = true ->
  normalizeType u = u /\ UsageRecord.Type_ u = "HardwareReservation".
Proof.
  rewrite isReservation_spec. intros Hres.
  apply andb_true_iff in Hres as [Htype Hplan].
  apply String.eqb_eq in Htype. apply negb_true_iff in Hplan.
  unfold normalizeType. now rewrite Hplan.
Qed.

(** C3, amended.  A record counts as a hardware reservation for the upload
    when its type is "HardwareReservation" and its plan is not "Outbound
    Bandwidth" (the type of such a plan is overwritten first).  When the
    window is exactly 86400 seconds, every record yields one row, in
    order, and the row of a reservation carries its price and its total
    divided by the number of days of the calendar month of the window
    start, read in the time zone of the start time, and the name
    "Hardware Reservation daily pro-rated".  When the window is not
    exactly 86400 seconds, the reservations yield no row and every other
    record yields its row. *)
Theorem upload_reservation_rows (up : UploadToBigqueryT.t) (project : string)
    (usages : list UsageRecord.t) :
  let startTime := UploadToBigqueryT.startTime up in
  let days := f64.ofInt (daysIn (MonthOf startTime) (Year startTime)) in
  (Sub (UploadToBigqueryT.endTime up) startTime = 86400 * Second ->
     uploadItems up project usages
     = map (fun u => if isReservation u then dailyRow up project days u
                     else plainRow up project u) usages)
  /\ (Sub (UploadToBigqueryT.endTime up) startTime <> 86400 * Second ->
     uploadItems up project usages
     = map (plainRow up project)
           (List.filter (fun u => negb (isReservation u)) usages)).
Proof.
  intros startTime days. split.
  - intros Hday. apply full_day_window in Hday.
    induction usages as [|u usages IH]; [reflexivity|].
    rewrite uploadItems_cons, IH. cbn [map]. unfold appendItem, prorate.
    fold (isReservation u). rewrite Hday.
    destruct (isReservation u) eqn:Hres; [|reflexivity].
    apply type_of_reservation in Hres as [Hnorm Htype].
    unfold cmd.daysInMonth.
    rewrite (proj1 (last_day_of_month (UploadToBigqueryT.startTime up))).
    rewrite Hnorm. unfold dailyRow, bqRow. cbn. now rewrite Htype.
  - intros Hnot. apply notFullDay_true_iff in Hnot.
    induction usages as [|u usages IH]; [reflexivity|].
    rewrite uploadItems_cons, IH. cbn [List.filter]. unfold appendItem, prorate.
    fold (isReservation u). rewrite Hnot.
    now destruct (isReservation u).
Qed.

(** The window test on some windows: one day, two days, and one day give
    or take a nanosecond. *)
Lemma notFullDay_examples :
  notFullDay (demoUpload january22 86400) = false
  /\ notFullDay (demoUpload january22 172800) = true
  /\ notFullDay (UploadToBigqueryT.mk (Equinix.mk "token") january22
                   (Add january22 (86400 * Second + 1)) "" "" "") = true
  /\ notFullDay (UploadToBigqueryT.mk (Equinix.mk "token") january22
                   (Add january22 (86400 * Second - 1)) "" "" "") = true.
Proof. repeat split; reflexivity. Qed.

Lemma upload_reservation_rows_witness :
  let r := usage "HardwareReservation" "res-1" "m3.large.x86"
                 310%float 1%float 310%float in
  let i := usage "Instance" "node-1" "c3.small.x86" 2.5%float 1%float 2.5%float in
  uploadItems (demoUpload january22 86400) "alpha" [r; i]
    = [usageRecord.mk january22 (Add january22 (86400 * Second)) "alpha" ""
         "m3.large.x86" "HardwareReservation"
         "Hardware Reservation daily pro-rated" 10%float 1%float 10%float;
       usageRecord.mk january22 (Add january22 (86400 * Second)) "alpha" ""
         "c3.small.x86" "Instance" "node-1" 2.5%float 1%float 2.5%float]
  /\ uploadItems (demoUpload january22 172800) "alpha" [r; i]
    = [usageRecord.mk january22 (Add january22 (172800 * Second)) "alpha" ""
         "c3.small.x86" "Instance" "node-1" 2.5%float 1%float 2.5%float].
Proof.
  intros r i. split.
  - rewrite (proj1 (upload_reservation_rows (demoUpload january22 86400)
                      "alpha" [r; i]) eq_refl).
    reflexivity.
  - rewrite (proj2 (upload_reservation_rows (demoUpload january22 172800)
                      "alpha" [r; i])); [reflexivity|].
    intros H. vm_compute in H. discriminate H.
Defined.

(** C3 as stated fails twice over: a reservation on an "Outbound
    Bandwidth" plan is uploaded untouched whatever the window, and the
    divisor is the length of the month of the start in its own time zone. *)
Lemma upload_reservation_exceptions :
  let b := UsageRecord.mk "" "SV" "Outbound Bandwidth" "HardwareReservation"
                          "uplink" 4%float 1%float 4%float in
  let r := usage "HardwareReservation" "res-1" "m3.large.x86"
                 310%float 1%float 310%float in
  let march1 := Date 2024 3 1 0 30 0 0 7200 in
  (UsageRecord.Type_ b = "HardwareReservation"
   /\ (Sub (Add january22 (172800 * Second)) january22 =? 86400 * Second) = false
   /\ uploadItems (demoUpload january22 172800) "alpha" [b]
      = [usageRecord.mk january22 (Add january22 (172800 * Second)) "alpha" "SV"
           "Outbound Bandwidth" "Outbound Bandwidth" "uplink"
           4%float 1%float 4%float])
  /\ (Sub (Add march1 (86400 * Second)) march1 = 86400 * Second
      /\ (Year (toUTC march1), MonthOf (toUTC march1), Day (toUTC march1))
         = (2024, 2, 29)
      /\ daysIn 2 2024 = 29
      /\ uploadItems (demoUpload march1 86400) "alpha" [r]
         = [usageRecord.mk march1 (Add march1 (86400 * Second)) "alpha" ""
              "m3.large.x86" "HardwareReservation"
              "Hardware Reservation daily pro-rated"
              (f64.div 310%float 31%float) 1%float (f64.div 310%float 31%float)]
      /\ PrimFloat.eqb (f64.div 310%float 31%float) (f64.div 310%float 29%float)
         = false).
Proof. repeat split; reflexivity. Qed.

(** * The constructors, the client and the runs *)

(** ** The calendar: round trip *)

Lemma daysSinceEpoch_cuts (n n1 n2 n3 : Z) :
  0 <= n1 <= 3 -> 0 <= n2 <= 24 -> 0 <= n3 <= 3 ->
  daysSinceEpoch (400 * n + 100 * n1 + 4 * n2 + n3 + 1)
  = daysPer400Years * n + daysPer100Years * n1 + daysPer4Years * n2 + 365 * n3.
Proof.
  intros H1 H2 H3. unfold daysSinceEpoch. cbv zeta.
  unfold daysPer400Years, daysPer100Years, daysPer4Years.
  Z.div_mod_to_equations. lia.
Qed.

Lemma cycle_cuts (d : Z) :
  let n := d / daysPer400Years in
  let r := d - daysPer400Years * n in
  let n1 := r / daysPer100Years - Z.shiftr (r / daysPer100Years) 2 in
  let r1 := r - daysPer100Years * n1 in
  let n2 := r1 / daysPer4Years in
  let r2 := r1 - daysPer4Years * n2 in
  let n3 := r2 / 365 - Z.shiftr (r2 / 365) 2 in
  0 <= n1 <= 3 /\ 0 <= n2 <= 24 /\ 0 <= n3 <= 3.
Proof.
  intros n r n1 r1 n2 r2 n3.
  unfold daysPer400Years, daysPer100Years, daysPer4Years in *.
  subst n3 r2 n2 r1 n1 r n.
  rewrite !Z.shiftr_div_pow2 by lia.
  change (2 ^ 2) with 4.
  Z.div_mod_to_equations; lia.
Qed.

Lemma absDate_dayNumber (d : Z) :
  let '(year, month, day) := absDate d in
  dayNumber year month day = d /\ 1 <= month <= 12 /\ 1 <= day <= 31.
Proof.
  pose proof (yday_range d) as Hy. pose proof (cycle_cuts d) as Hc.
  cbv zeta in Hy, Hc. unfold absDate. cbv zeta.
  set (n := d / daysPer400Years) in *.
  set (r := d - daysPer400Years * n) in *.
  set (n1 := r / daysPer100Years - Z.shiftr (r / daysPer100Years) 2) in *.
  set (r1 := r - daysPer100Years * n1) in *.
  set (n2 := r1 / daysPer4Years) in *.
  set (r2 := r1 - daysPer4Years * n2) in *.
  set (n3 := r2 / 365 - Z.shiftr (r2 / 365) 2) in *.
  set (r3 := r2 - 365 * n3) in *.
  set (year := 400 * n + 100 * n1 + 4 * n2 + n3 + 1) in *.
  destruct Hy as [Hrange Hleap]. destruct Hc as (Hn1 & Hn2 & Hn3).
  assert (Hd : d = daysSinceEpoch year + r3).
  { unfold year. rewrite daysSinceEpoch_cuts by assumption.
    subst r3 r2 r1 r. lia. }
  clearbody year r3. clear r r1 r2 n n1 n2 n3 Hn1 Hn2 Hn3.
  unfold dayNumber.
  destruct (isLeap year) eqn:Eleap; cbn [andb].
  - destruct (r3 =? 31 + 29 - 1) eqn:Efeb.
    + apply Z.eqb_eq in Efeb. rewrite Eleap. unfold February, March.
      change (daysBeforeAt (2 - 1)) with 31. change (2 >=? 3) with false.
      cbn [andb]. lia.
    + apply Z.eqb_neq in Efeb.
      set (day := if r3 >? 31 + 29 - 1 then r3 - 1 else r3).
      assert (Hday : 0 <= day <= 364 /\ (day < 59 -> r3 = day)
                     /\ (59 <= day -> r3 = day + 1)).
      { subst day. destruct (r3 >? 31 + 29 - 1) eqn:G; lia. }
      destruct Hday as (Hday & Hlo & Hhi).
      assert (Hm : 0 <= day / 31 <= 11) by (Z.div_mod_to_equations; lia).
      assert (Hcases : day / 31 = 0 \/ day / 31 = 1 \/ day / 31 = 2
                       \/ day / 31 = 3 \/ day / 31 = 4 \/ day / 31 = 5
                       \/ day / 31 = 6 \/ day / 31 = 7 \/ day / 31 = 8
                       \/ day / 31 = 9 \/ day / 31 = 10 \/ day / 31 = 11) by lia.
      assert (Hq : 31 * (day / 31) <= day < 31 * (day / 31) + 31)
        by (Z.div_mod_to_equations; lia).
      clearbody day.
      repeat (destruct Hcases as [E|Hcases]; [rewrite E in *; clear E|]);
        try rewrite Hcases in *;
        cbn [daysBeforeAt];
        match goal with
        | |- context [?a >=? daysBeforeAt ?b] =>
            let v := eval vm_compute in (daysBeforeAt b) in
            change (daysBeforeAt b) with v;
            destruct (a >=? v) eqn:G
        end;
        cbn [fst snd]; rewrite Eleap; cbn [andb];
        repeat match goal with
        | |- context [daysBeforeAt ?b] =>
            let v := eval vm_compute in (daysBeforeAt b) in
            change (daysBeforeAt b) with v
        end;
        repeat match goal with
        | |- context [?a >=? March] =>
            let v := eval vm_compute in (a >=? March) in
            change (a >=? March) with v
        end; cbv iota; lia.
  - set (day := r3).
    assert (r3 <> 365) by (intros H365; specialize (Hleap H365); discriminate).
    assert (Hday : 0 <= day <= 364) by (subst day; lia).
    assert (Hcases : day / 31 = 0 \/ day / 31 = 1 \/ day / 31 = 2
                     \/ day / 31 = 3 \/ day / 31 = 4 \/ day / 31 = 5
                     \/ day / 31 = 6 \/ day / 31 = 7 \/ day / 31 = 8
                     \/ day / 31 = 9 \/ day / 31 = 10 \/ day / 31 = 11)
      by (Z.div_mod_to_equations; lia).
    assert (Hq : 31 * (day / 31) <= day < 31 * (day / 31) + 31)
      by (Z.div_mod_to_equations; lia).
    subst day.
    repeat (destruct Hcases as [E|Hcases]; [rewrite E in *; clear E|]);
      try rewrite Hcases in *;
      match goal with
      | |- context [?a >=? daysBeforeAt ?b] =>
          let v := eval vm_compute in (daysBeforeAt b) in
          change (daysBeforeAt b) with v;
          destruct (a >=? v) eqn:G
      end;
      cbn [fst snd]; rewrite Eleap; cbn [andb];
      repeat match goal with
      | |- context [daysBeforeAt ?b] =>
          let v := eval vm_compute in (daysBeforeAt b) in
          change (daysBeforeAt b) with v
      end; lia.
Qed.

Lemma Date_of_day (year : Z) (month : Month) (day clock ns : Z) (l : Location) :
  1 <= month <= 12 -> 0 <= clock < secondsPerDay -> 0 <= ns < 1000000000 ->
  Date year month day 0 0 clock ns l
  = mkTime ((dayNumber year month day - unixToInternalDays) * secondsPerDay
            + clock - l) ns l.
Proof.
  intros Hm Hc Hn. unfold Date, norm, dayNumber, secondsPerDay in *.
  cbv zeta beta iota.
  replace ((month - 1) / 12) with 0 by (Z.div_mod_to_equations; lia).
  replace ((month - 1) mod 12) with (month - 1) by (Z.div_mod_to_equations; lia).
  replace (ns / 1000000000) with 0 by (Z.div_mod_to_equations; lia).
  replace (ns mod 1000000000) with ns by (Z.div_mod_to_equations; lia).
  replace (year + 0) with year by lia.
  replace (month - 1 + 1) with month by lia.
  replace (clock + 0) with clock by lia.
  replace ((0 + clock / 60) / 60) with (clock / 3600)
    by (Z.div_mod_to_equations; lia).
  replace ((0 + clock / 3600) / 24) with 0 by (Z.div_mod_to_equations; lia).
  replace ((0 + clock / 3600) mod 24) with (clock / 3600)
    by (Z.div_mod_to_equations; lia).
  replace ((0 + clock / 60) mod 60) with (clock / 60 - 60 * (clock / 3600))
    by (Z.div_mod_to_equations; lia).
  f_equal.
  destruct (isLeap year && (month >=? March)); Z.div_mod_to_equations; lia.
Qed.

(** [AddDate(0, 0, days)] moves a time by whole days. *)
Lemma AddDate_days (t : Time) (days : Z) :
  validTime t ->
  AddDate t 0 0 days = mkTime (unixSec t + secondsPerDay * days) (nsec t) (time.loc t).
Proof.
  intros Hv. unfold AddDate.
  pose proof (absDate_dayNumber (absDays t)) as Hrt.
  destruct (absDate (absDays t)) as [[year month] day].
  destruct Hrt as (Hnum & Hmonth & Hday).
  replace (year + 0) with year by lia. replace (month + 0) with month by lia.
  assert (Hclock : 0 <= clockSeconds t < secondsPerDay).
  { unfold clockSeconds, secondsPerDay. apply Z.mod_pos_bound. lia. }
  rewrite Date_of_day by assumption.
  f_equal.
  assert (Hshift : dayNumber year month (day + days) = absDays t + days).
  { rewrite <- Hnum. unfold dayNumber. lia. }
  rewrite Hshift. unfold absDays, clockSeconds, secondsPerDay.
  Z.div_mod_to_equations. lia.
Qed.

(** ** The windows of [cost_summary] *)

Lemma validTime_daysAfter t days : validTime t -> validTime (daysAfter t days).
Proof. intros H. exact H. Qed.

Lemma AddDate_daysAfter (t : Time) (days : Z) :
  validTime t -> AddDate t 0 0 days = daysAfter t days.
Proof. apply AddDate_days. Qed.

Lemma daysAfter_daysAfter (t : Time) (a b : Z) :
  daysAfter (daysAfter t a) b = daysAfter t (a + b).
Proof. unfold daysAfter. cbn [unixSec nsec time.loc]. f_equal. lia. Qed.

Section ConstructorFacts.

Variable parseDate : string -> option Time.
Variable parseISO : string -> option Time.

(** X1.  With -h unset, a known report type, an end date that parses and
    a day count d of at most 2^30 in absolute value, CostSummary builds
    a command whose report window is the d days that end on the end
    date. Without -b the baseline window is the d days that end on the
    day before the start date; with a -b that parses it is the d days
    that end on that date. *)
Theorem CostSummary_windows (eq : Equinix.t) (flags : CostSummaryFlags.t)
    (reportType : ReportType) (endTime : Time) :
  CostSummaryFlags.h flags = false ->
  reportTypeOf (CostSummaryFlags.t_ flags) = Some reportType ->
  parseDate (CostSummaryFlags.e flags) = Some endTime ->
  validTime endTime ->
  Z.abs (CostSummaryFlags.d flags) <= 2 ^ 30 ->
  let days := CostSummaryFlags.d flags in
  (CostSummaryFlags.b flags = "" ->
   CostSummary parseDate eq flags
   = Built (CostSummaryT.mk eq reportType (CostSummaryFlags.g flags)
              (daysAfter endTime (- (days - 1))) endTime
              (daysAfter endTime (- (2 * days - 1))) (daysAfter endTime (- days))))
  /\ (forall baseEnd,
        CostSummaryFlags.b flags <> "" ->
        parseDate (CostSummaryFlags.b flags) = Some baseEnd ->
        validTime baseEnd ->
        CostSummary parseDate eq flags
        = Built (CostSummaryT.mk eq reportType (CostSummaryFlags.g flags)
                   (daysAfter endTime (- (days - 1))) endTime
                   (daysAfter baseEnd (- (days - 1))) baseEnd)).
Proof.
  intros Hh Htype Hend Hvalid _ days. unfold reportTypeOf in Htype.
  assert (Hstart : AddDate endTime 0 0 (- days + 1) = daysAfter endTime (- (days - 1))).
  { rewrite AddDate_daysAfter by exact Hvalid. f_equal. lia. }
  split.
  - intros Hb. unfold CostSummary. rewrite Hh, Htype, Hend, Hb. cbn [String.eqb].
    cbv zeta. fold days. rewrite Hstart.
    rewrite (AddDate_daysAfter (daysAfter endTime (- (days - 1))) (-1))
      by (apply validTime_daysAfter; exact Hvalid).
    rewrite daysAfter_daysAfter.
    rewrite (AddDate_daysAfter (daysAfter endTime _) (- days + 1))
      by (apply validTime_daysAfter; exact Hvalid).
    rewrite daysAfter_daysAfter.
    do 2 f_equal; f_equal; lia.
  - intros baseEnd Hb Hparse Hvb. unfold CostSummary. rewrite Hh, Htype, Hend.
    apply String.eqb_neq in Hb. rewrite Hb, Hparse. cbv zeta. fold days.
    rewrite Hstart. rewrite AddDate_daysAfter by exact Hvb.
    do 3 f_equal. lia.
Qed.

(** X2.  CostSummary exits with code 0 when -h is set. With -h unset it
    exits with code 1 when -t is neither empty nor reservations, when -e
    does not parse, or when a non-empty -b does not parse; a command
    that it does build carries the client, the -g flag, the report type
    selected by -t and the parsed end date. *)
Theorem CostSummary_exit (eq : Equinix.t) (flags : CostSummaryFlags.t) :
  (CostSummaryFlags.h flags = true -> CostSummary parseDate eq flags = ExitCode 0)
  /\ (CostSummaryFlags.h flags = false ->
      (reportTypeOf (CostSummaryFlags.t_ flags) = None
       \/ parseDate (CostSummaryFlags.e flags) = None
       \/ (CostSummaryFlags.b flags <> ""
           /\ parseDate (CostSummaryFlags.b flags) = None)) ->
      CostSummary parseDate eq flags = ExitCode 1)
  /\ (forall s, CostSummary parseDate eq flags = Built s ->
        CostSummaryFlags.h flags = false
        /\ reportTypeOf (CostSummaryFlags.t_ flags) = Some (CostSummaryT.reportType s)
        /\ parseDate (CostSummaryFlags.e flags) = Some (CostSummaryT.endDate s)
        /\ CostSummaryT.onlyGateways s = CostSummaryFlags.g flags
        /\ CostSummaryT.equinix s = eq).
Proof.
  unfold CostSummary, reportTypeOf. split; [|split].
  - now intros ->.
  - intros -> Hbad.
    destruct (if String.eqb (CostSummaryFlags.t_ flags) "reservations"
              then Some ReservationsReport
              else if String.eqb (CostSummaryFlags.t_ flags) ""
                   then Some NonReservationsReport else None) as [rt|];
      [|reflexivity].
    destruct (parseDate (CostSummaryFlags.e flags)) as [endTime|]; [|reflexivity].
    destruct Hbad as [Hbad|[Hbad|[Hb Hbad]]]; try discriminate.
    apply String.eqb_neq in Hb. now rewrite Hb, Hbad.
  - intros s. destruct (CostSummaryFlags.h flags); [discriminate|].
    destruct (if String.eqb (CostSummaryFlags.t_ flags) "reservations"
              then Some ReservationsReport
              else if String.eqb (CostSummaryFlags.t_ flags) ""
                   then Some NonReservationsReport else None) as [rt|];
      [|discriminate].
    destruct (parseDate (CostSummaryFlags.e flags)) as [endTime|]; [|discriminate].
    destruct (if String.eqb (CostSummaryFlags.b flags) "" then _ else _)
      as [baseEnd|]; [|discriminate].
    intros [= <-]. cbn. repeat split; reflexivity.
Qed.

Lemma Sub_Add (t : Time) (d : Duration) :
  minDuration <= d <= maxDuration -> Sub (Add t d) t = d.
Proof.
  intros Hd. unfold Sub, Add, norm, Second. cbn [unixSec nsec].
  set (e := (unixSec t + (nsec t + d) / 1000000000 - unixSec t) * 1000000000
            + ((nsec t + d) mod 1000000000 - nsec t)).
  assert (He : e = d) by (subst e; Z.div_mod_to_equations; lia).
  rewrite He.
  destruct (d <? minDuration) eqn:E1; [lia|].
  destruct (maxDuration <? d) eqn:E2; [lia|reflexivity].
Qed.

Lemma secondsDuration_exact (seconds : Z) :
  minDuration <= seconds * Second <= maxDuration ->
  secondsDuration seconds = seconds * Second.
Proof.
  unfold secondsDuration, wrapInt64, minDuration, maxDuration. intros H.
  Z.div_mod_to_equations. lia.
Qed.

(** X3.  With -h unset and a start time that parses once
    PartialToFullIso has completed it, UploadToBigquery builds a command
    whose window starts at that time and lasts exactly -i seconds, for
    an interval that a Duration can hold. With -i 86400 the window
    counts as a full day for the treatment of reservations. *)
Theorem UploadToBigquery_window (eq : Equinix.t) (flags : UploadFlags.t)
    (startTime : Time) :
  UploadFlags.h flags = false ->
  parseISO (common.PartialToFullIso (UploadFlags.s flags)) = Some startTime ->
  minDuration <= UploadFlags.i flags * Second <= maxDuration ->
  exists up,
    UploadToBigquery parseISO eq flags = Built up
    /\ UploadToBigqueryT.startTime up = startTime
    /\ Sub (UploadToBigqueryT.endTime up) (UploadToBigqueryT.startTime up)
       = UploadFlags.i flags * Second
    /\ (UploadFlags.i flags = 86400 -> notFullDay up = false).
Proof.
  intros Hh Hparse Hrange. unfold UploadToBigquery, common.ParsePartialIsoTime.
  cbv zeta. rewrite Hh, Hparse. eexists. split; [reflexivity|].
  cbn [UploadToBigqueryT.startTime UploadToBigqueryT.endTime].
  split; [reflexivity|].
  rewrite secondsDuration_exact by exact Hrange.
  assert (Hsub : Sub (Add startTime (UploadFlags.i flags * Second)) startTime
                 = UploadFlags.i flags * Second) by (now apply Sub_Add).
  split; [exact Hsub|].
  intros Hday. apply full_day_window.
  cbn [UploadToBigqueryT.startTime UploadToBigqueryT.endTime].
  rewrite Hsub, Hday. reflexivity.
Qed.

End ConstructorFacts.

(** ** The aggregator: keys, visiting order and grand total *)

Lemma summarize_lookup_None reportType baseline usages result project :
  summarize reportType baseline usages result ->
  usages !! project = None -> result.1 !! project = None.
Proof.
  intros [entries Hrange] Hnone. unfold summarizeEntries.
  rewrite fold_summarizeStep_notin; [apply lookup_empty|].
  rewrite (mapRange_keys usages entries project Hrange), Hnone.
  now intros [v Hv].
Qed.

Lemma summarize_dom reportType baseline usages result :
  summarize reportType baseline usages result -> dom result.1 = dom usages.
Proof.
  intros Hrun. apply set_eq. intros k. rewrite !elem_of_dom.
  destruct (usages !! k) as [l|] eqn:E.
  - rewrite (summarize_lookup reportType baseline usages result k l Hrun E).
    split; intros _; eauto.
  - rewrite (summarize_lookup_None reportType baseline usages result k Hrun E).
    split; intros [? ?]; discriminate.
Qed.

(** X4.  The per-project map returned by summarize has exactly the keys
    of the usages map: every project with usages gets an entry, and a
    project that occurs only in the baseline gets none. *)
Theorem summarize_keys (reportType : ReportType)
    (baseline usages : gmap string (list UsageRecord.t))
    (result : gmap string SummaryRecord.t * SummaryRecord.t) :
  summarize reportType baseline usages result ->
  dom result.1 = dom usages.
Proof. apply summarize_dom. Qed.

(** X5.  The per-project summaries do not depend on the order in which
    the range over the usages map visits the projects: two results of
    summarize on the same maps have the same per-project map. *)
Theorem summarize_order_independent (reportType : ReportType)
    (baseline usages : gmap string (list UsageRecord.t))
    (result1 result2 : gmap string SummaryRecord.t * SummaryRecord.t) :
  summarize reportType baseline usages result1 ->
  summarize reportType baseline usages result2 ->
  result1.1 = result2.1.
Proof.
  intros H1 H2. apply map_eq. intros k.
  destruct (usages !! k) as [l|] eqn:E.
  - now rewrite (summarize_lookup _ _ _ _ k l H1 E),
                (summarize_lookup _ _ _ _ k l H2 E).
  - now rewrite (summarize_lookup_None _ _ _ _ k H1 E),
                (summarize_lookup_None _ _ _ _ k H2 E).
Qed.

Lemma fold_addTotals (summaries : list SummaryRecord.t) : forall totals,
  fold_left addTotals summaries totals =
  SummaryRecord.mk
    (f64.sumFrom (SummaryRecord.Price totals) (map SummaryRecord.Price summaries))
    (f64.sumFrom (SummaryRecord.Quantity totals)
       (map SummaryRecord.Quantity summaries))
    (f64.sumFrom (SummaryRecord.Total totals) (map SummaryRecord.Total summaries))
    (f64.sumFrom (SummaryRecord.BasePrice totals)
       (map SummaryRecord.BasePrice summaries))
    (f64.sumFrom (SummaryRecord.BaseQuantity totals)
       (map SummaryRecord.BaseQuantity summaries))
    (f64.sumFrom (SummaryRecord.BaseTotal totals)
       (map SummaryRecord.BaseTotal summaries)).
Proof.
  induction summaries as [|s summaries IH]; intros totals.
  - now destruct totals.
  - cbn [fold_left map]. rewrite IH. reflexivity.
Qed.

(** X6.  The totals returned by summarize are, field by field, the sums
    of the per-project sums, added from zero in the order in which the
    usages map was visited. *)
Theorem summarize_totals (reportType : ReportType)
    (baseline usages : gmap string (list UsageRecord.t))
    (result : gmap string SummaryRecord.t * SummaryRecord.t) :
  summarize reportType baseline usages result ->
  exists entries,
    mapRange usages entries
    /\ result.2
       = summarySums
           (map (fun e => projectSums reportType e.2 (index baseline e.1)) entries).
Proof.
  intros [entries Hrange]. exists entries. split; [exact Hrange|].
  unfold summarizeEntries. rewrite fold_summarizeStep_snd, fold_addTotals.
  reflexivity.
Qed.

(** ** The gateway split: nothing lost, nothing else kept *)

Lemma keyed_partition (l : list UsageRecord.t) :
  (keyed "gateway-kubo" l ++ keyed "gateway-lb" l ++ keyed "" l)%list ≡ₚ l.
Proof.
  rewrite keyed_kubo, keyed_lb, keyed_empty.
  induction l as [|u l IH]; [reflexivity|].
  cbn [List.filter].
  destruct (kuboRule u); cbn [negb andb].
  - cbn [app]. now constructor.
  - destruct (lbRule u); cbn [negb].
    + cbn [app]. rewrite <- Permutation_middle. now constructor.
    + rewrite app_assoc, <- Permutation_middle, <- app_assoc. now constructor.
Qed.

(** X7.  splitGateways neither loses nor invents a record of the project
    gateway: the lists it stores under gateway-kubo, gateway-lb and the
    empty key are together a rearrangement of the records of that
    project. *)
Theorem splitGateways_partition (usages : gmap string (list UsageRecord.t)) :
  (index (splitGateways usages) "gateway-kubo"
   ++ index (splitGateways usages) "gateway-lb"
   ++ index (splitGateways usages) "")%list
  ≡ₚ index usages "gateway".
Proof. rewrite !index_splitGateways. apply keyed_partition. Qed.

Lemma gatewayKey_cases (u : UsageRecord.t) :
  gatewayKey u = "gateway-kubo" \/ gatewayKey u = "gateway-lb" \/ gatewayKey u = "".
Proof.
  rewrite gatewayKey_rules. destruct (kuboRule u); [now left|].
  destruct (lbRule u); [right; now left|right; now right].
Qed.

Lemma keyed_other (k : string) (l : list UsageRecord.t) :
  k <> "gateway-kubo" -> k <> "gateway-lb" -> k <> "" -> keyed k l = [].
Proof.
  intros H1 H2 H3. unfold keyed. induction l as [|u l IH]; [reflexivity|].
  cbn [List.filter]. destruct (String.eqb_spec (gatewayKey u) k) as [E|E]; [|exact IH].
  exfalso. destruct (gatewayKey_cases u) as [G|[G|G]]; congruence.
Qed.

(** X8.  Every key of the map returned by splitGateways is gateway-kubo,
    gateway-lb or the empty string; its list is not empty and holds the
    records of the project gateway that belong to the key, in their
    original order. *)
Theorem splitGateways_keys (usages : gmap string (list UsageRecord.t))
    (k : string) (l : list UsageRecord.t) :
  splitGateways usages !! k = Some l ->
  (k = "gateway-kubo" \/ k = "gateway-lb" \/ k = "")
  /\ l <> []
  /\ l = List.filter (fun u => String.eqb (gatewayKey u) k) (index usages "gateway").
Proof.
  rewrite lookup_splitGateways. fold (keyed k (index usages "gateway")).
  intros Hl.
  assert (Hk : keyed k (index usages "gateway") = l /\ l <> []).
  { destruct (keyed k (index usages "gateway")); [discriminate|].
    inversion Hl. split; [reflexivity|discriminate]. }
  destruct Hk as [Hk Hne]. split; [|split; [exact Hne|now symmetry]].
  destruct (decide (k = "gateway-kubo")) as [|N1]; [now left|].
  destruct (decide (k = "gateway-lb")) as [|N2]; [right; now left|].
  destruct (decide (k = "")) as [|N3]; [right; now right|].
  exfalso. apply Hne. rewrite <- Hk. now apply keyed_other.
Qed.

(** X9.  When the usages hold no record under the project gateway,
    splitGateways returns the empty map; in particular splitting the
    result of a split gives the empty map. *)
Theorem splitGateways_without_gateway
    (usages : gmap string (list UsageRecord.t)) :
  (index usages "gateway" = [] -> splitGateways usages = ∅)
  /\ splitGateways (splitGateways usages) = ∅.
Proof.
  assert (Hempty : forall m : gmap string (list UsageRecord.t),
            index m "gateway" = [] -> splitGateways m = ∅).
  { intros m Hm. unfold splitGateways. cbv zeta. now rewrite Hm. }
  split; [apply Hempty|].
  apply Hempty. rewrite index_splitGateways. now apply keyed_other.
Qed.

(** ** The rows of the upload: what every row carries *)

Lemma appendItem_itemOf up project items u :
  appendItem up project items u
  = (items ++ match itemOf up project u with Some r => [r] | None => [] end)%list.
Proof.
  unfold appendItem, itemOf. destruct (prorate up (normalizeType u)).
  - reflexivity.
  - now rewrite app_nil_r.
Qed.

Lemma itemOf_uploaded up project u :
  itemOf up project u = None <-> uploaded up u = false.
Proof.
  unfold itemOf, uploaded, prorate. fold (isReservation u).
  destruct (isReservation u); destruct (notFullDay up); cbn; split;
    intros; congruence.
Qed.

Lemma itemOf_fields up project u r :
  itemOf up project u = Some r ->
  usageRecord.startTime r = UploadToBigqueryT.startTime up
  /\ usageRecord.endTime r = UploadToBigqueryT.endTime up
  /\ usageRecord.project r = project
  /\ usageRecord.metro r = UsageRecord.Metro u
  /\ usageRecord.plan r = UsageRecord.Plan u
  /\ usageRecord.quantity r = UsageRecord.Quantity u.
Proof.
  unfold itemOf, prorate. fold (isReservation u).
  assert (Hn : UsageRecord.Metro (normalizeType u) = UsageRecord.Metro u
               /\ UsageRecord.Plan (normalizeType u) = UsageRecord.Plan u
               /\ UsageRecord.Quantity (normalizeType u) = UsageRecord.Quantity u).
  { unfold normalizeType.
    destruct (String.eqb (UsageRecord.Plan u) "Outbound Bandwidth");
      repeat split. }
  destruct Hn as (Hm & Hp & Hq).
  destruct (isReservation u); [destruct (notFullDay up); [discriminate|]|];
    intros [= <-]; cbn; repeat split; assumption.
Qed.

Lemma uploadItems_flat up project usages :
  uploadItems up project usages
  = flat_map (fun u => match itemOf up project u with
                       | Some r => [r] | None => [] end) usages.
Proof.
  induction usages as [|u usages IH]; [reflexivity|].
  rewrite uploadItems_cons, IH, appendItem_itemOf. reflexivity.
Qed.

(** X10.  Every row built from the records of a project carries the
    start and end time of the command and the name of the project. The
    rows keep the metro, plan and quantity of the records that are
    uploaded, in their order, and are never more than the records. *)
Theorem uploadItems_rows (up : UploadToBigqueryT.t) (project : string)
    (usages : list UsageRecord.t) :
  (forall r, r ∈ uploadItems up project usages ->
     usageRecord.startTime r = UploadToBigqueryT.startTime up
     /\ usageRecord.endTime r = UploadToBigqueryT.endTime up
     /\ usageRecord.project r = project)
  /\ map (fun r => (usageRecord.metro r, usageRecord.plan r, usageRecord.quantity r))
         (uploadItems up project usages)
     = map (fun u => (UsageRecord.Metro u, UsageRecord.Plan u, UsageRecord.Quantity u))
           (List.filter (uploaded up) usages)
  /\ (length (uploadItems up project usages) <= length usages)%nat.
Proof.
  rewrite uploadItems_flat. split; [|split].
  - intros r Hr. apply list_elem_of_In, in_flat_map in Hr as (u & _ & Hr).
    destruct (itemOf up project u) as [r'|] eqn:E; [|contradiction].
    destruct Hr as [<-|[]].
    destruct (itemOf_fields up project u r' E) as (H1 & H2 & H3 & _).
    now repeat split.
  - induction usages as [|u usages IH]; [reflexivity|].
    cbn [flat_map List.filter]. rewrite map_app, IH.
    destruct (itemOf up project u) as [r|] eqn:E.
    + destruct (uploaded up u) eqn:U.
      * destruct (itemOf_fields up project u r E) as (_ & _ & _ & H4 & H5 & H6).
        cbn. now rewrite H4, H5, H6.
      * apply (itemOf_uploaded up project) in U. congruence.
    + apply itemOf_uploaded in E. now rewrite E.
  - induction usages as [|u usages IH]; [reflexivity|].
    cbn [flat_map]. rewrite length_app. cbn [length].
    destruct (itemOf up project u); cbn [length]; lia.
Qed.

(** ** The batches of the upload *)

Section Batches.

Context {World : Type}.
Variable Put :
  World -> string -> string -> list usageRecord.t -> World * option string.

Lemma putBatches_prefix up entries : forall batches w w' batches' ok,
  putBatches Put up entries batches w = (w', batches', ok) ->
  exists submitted rest,
    entries = (submitted ++ rest)%list
    /\ batches' = (batches ++ map (batchOf up) submitted)%list
    /\ (ok = true -> rest = []).
Proof.
  induction entries as [|[project usages] entries IH];
    intros batches w w' batches' ok Hrun; cbn [putBatches] in Hrun.
  - inversion Hrun; subst. exists [], []. cbn [map app].
    split; [reflexivity|]. split; [now rewrite app_nil_r|reflexivity].
  - destruct (Put w _ _ _) as [w1 [cause|]] eqn:E.
    + inversion Hrun; subst. exists [(project, usages)], entries.
      repeat split; discriminate.
    + destruct (IH _ _ _ _ _ Hrun) as (submitted & rest & -> & -> & Hok).
      exists ((project, usages) :: submitted), rest.
      split; [reflexivity|]. split; [|exact Hok].
      rewrite <- app_assoc. reflexivity.
Qed.

Lemma putBatches_app up before : forall after batches w w1 batches1,
  putBatches Put up before batches w = (w1, batches1, true) ->
  putBatches Put up (before ++ after) batches w
  = putBatches Put up after batches1 w1.
Proof.
  induction before as [|[project usages] before IH];
    intros after batches w w1 batches1 Hrun; cbn [putBatches app] in *.
  - now inversion Hrun.
  - destruct (Put w _ _ _) as [w' [cause|]]; [discriminate|]. now apply IH.
Qed.

(** X11.  When the Put of a project fails after the Puts of the projects
    before it succeeded, the loop ends there: the batches handed to Put
    are those of the earlier projects followed by the failing one, and
    no later project is submitted. *)
Theorem putBatches_stops_at_failure (up : UploadToBigqueryT.t)
    (before : list (string * list UsageRecord.t))
    (entry : string * list UsageRecord.t)
    (after : list (string * list UsageRecord.t))
    (w w1 w2 : World) (batches1 : list (list usageRecord.t)) (cause : string) :
  putBatches Put up before [] w = (w1, batches1, true) ->
  Put w1 (UploadToBigqueryT.datasetId up) (UploadToBigqueryT.tableId up)
      (batchOf up entry) = (w2, Some cause) ->
  batches1 = map (batchOf up) before
  /\ putBatches Put up (before ++ entry :: after) [] w
     = (w2, (map (batchOf up) before ++ [batchOf up entry])%list, false).
Proof.
  intros Hbefore Hput.
  destruct (putBatches_prefix up before [] w w1 batches1 true Hbefore)
    as (submitted & rest & Hsplit & Hb & Hrest).
  rewrite (Hrest eq_refl), app_nil_r in Hsplit. subst submitted.
  cbn [app] in Hb. split; [exact Hb|].
  rewrite (putBatches_app up before (entry :: after) [] w w1 batches1 Hbefore).
  destruct entry as [project usages]. cbn [putBatches].
  unfold batchOf in Hput. cbn [fst snd] in Hput. rewrite Hput, Hb. reflexivity.
Qed.

(** X12.  The batches handed to Put are, one per project, those of an
    initial part of the projects in visiting order; when the loop runs
    to its end they are the batches of all the projects. *)
Theorem putBatches_completes (up : UploadToBigqueryT.t)
    (entries : list (string * list UsageRecord.t))
    (w w' : World) (batches : list (list usageRecord.t)) (ok : bool) :
  putBatches Put up entries [] w = (w', batches, ok) ->
  (ok = true -> batches = map (batchOf up) entries)
  /\ (length batches <= length entries)%nat
  /\ exists submitted, submitted `prefix_of` entries
                       /\ batches = map (batchOf up) submitted.
Proof.
  intros Hrun.
  destruct (putBatches_prefix up entries [] w w' batches ok Hrun)
    as (submitted & rest & -> & -> & Hrest).
  cbn [app]. split; [|split].
  - intros Hok. now rewrite (Hrest Hok), app_nil_r.
  - rewrite length_map, length_app. lia.
  - exists submitted. split; [now exists rest|reflexivity].
Qed.

End Batches.

(** ** The usage client: what a call sends and returns *)

Section ClientResults.

Context {World : Type}.
Variable parseURL : string -> option string.
Variable Do : World -> Request.t -> World * (string + Response.t).
Variable unmarshalProjects : string -> string + list Project.t.
Variable unmarshalUsages : string -> string + list UsageRecord.t.

Lemma fetchUsages_ok eq startDate endDate project (n n' : Net) records :
  fetchUsages parseURL Do unmarshalUsages eq startDate endDate project n
    = (n', inr records) ->
  exists w body,
    Do (world n) (usagesRequest eq startDate endDate project)
      = (w, inr (Response.mk 200 (inr body)))
    /\ unmarshalUsages body = inr records
    /\ n' = mkNet w (sent n ++ [usagesRequest eq startDate endDate project]).
Proof.
  unfold fetchUsages, NewRequest, send. cbv zeta.
  destruct (parseURL _) as [cause|]; [discriminate|].
  cbn [Request.Method Request.URL].
  fold (usagesRequest eq startDate endDate project).
  destruct (Do (world n) _) as [w [cause|[status [cause|body]]]];
    try discriminate.
  cbn [Response.Body Response.StatusCode].
  destruct (Z.eqb_spec status 200) as [->|Hne]; cbn [negb]; [|discriminate].
  destruct (unmarshalUsages body) as [cause|records'] eqn:E; [discriminate|].
  intros [= <- <-]. now exists w, body.
Qed.

Lemma fetchUsages_error eq startDate endDate project (n n' : Net) err :
  fetchUsages parseURL Do unmarshalUsages eq startDate endDate project n
    = (n', inl err) ->
  errorProject err = Project.Id project
  /\ (sent n' = sent n
      \/ sent n' = (sent n ++ [usagesRequest eq startDate endDate project])%list).
Proof.
  unfold fetchUsages, NewRequest, send. cbv zeta.
  destruct (parseURL _) as [cause|]; [intros [= <- <-]; split; [reflexivity|now left]|].
  cbn [Request.Method Request.URL].
  fold (usagesRequest eq startDate endDate project).
  destruct (Do (world n) _) as [w [cause|[status [cause|body]]]];
    cbn [Response.Body Response.StatusCode];
    try (intros [= <- <-]; split; [reflexivity|now right]).
  destruct (negb (status =? 200));
    [intros [= <- <-]; split; [reflexivity|now right]|].
  destruct (unmarshalUsages body) as [cause|records'];
    [intros [= <- <-]; split; [reflexivity|now right]|discriminate].
Qed.

Section Keyed.

Context {K : Type} `{Countable K} (key : Project.t -> K).
Variables (eq : Equinix.t) (startDate endDate : Time).

Lemma GetUsagesLoop_ok projects : forall usages (n n' : Net) usages',
  GetUsagesLoop parseURL Do unmarshalUsages key eq startDate endDate
    projects usages n = (n', inr usages') ->
  sent n' = (sent n ++ map (usagesRequest eq startDate endDate) projects)%list
  /\ dom usages' = dom usages ∪ list_to_set (map key projects).
Proof.
  induction projects as [|p projects IH]; intros usages n n' usages' Hrun;
    cbn [GetUsagesLoop] in Hrun.
  - inversion Hrun; subst. cbn [map list_to_set]. rewrite app_nil_r.
    split; [reflexivity|]. now rewrite (right_id_L ∅ (∪)).
  - destruct (fetchUsages _ _ _ _ _ _ p n) as [n1 [err|records]] eqn:E;
      [discriminate|].
    destruct (fetchUsages_ok _ _ _ _ _ _ _ E) as (w & body & _ & _ & ->).
    destruct (IH _ _ _ _ Hrun) as [Hsent Hdom]. cbn [sent] in Hsent.
    split.
    + rewrite Hsent, <- app_assoc. reflexivity.
    + rewrite Hdom, dom_insert_L. cbn [map list_to_set].
      rewrite (comm_L (∪) {[key p]} (dom usages)).
      now rewrite <- (assoc_L (∪)).
Qed.

Lemma GetUsagesLoop_error projects : forall usages (n n' : Net) err,
  GetUsagesLoop parseURL Do unmarshalUsages key eq startDate endDate
    projects usages n = (n', inl err) ->
  exists before project after,
    projects = (before ++ project :: after)%list
    /\ errorProject err = Project.Id project
    /\ (sent n' = (sent n ++ map (usagesRequest eq startDate endDate) before)%list
        \/ sent n' = (sent n ++ map (usagesRequest eq startDate endDate)
                                    (before ++ [project]))%list).
Proof.
  induction projects as [|p projects IH]; intros usages n n' err Hrun;
    cbn [GetUsagesLoop] in Hrun; [discriminate|].
  destruct (fetchUsages _ _ _ _ _ _ p n) as [n1 [err1|records]] eqn:E.
  - inversion Hrun; subst. exists [], p, projects.
    destruct (fetchUsages_error _ _ _ _ _ _ _ E) as [Hid Hsent].
    split; [reflexivity|]. split; [exact Hid|].
    cbn [map app]. rewrite app_nil_r. exact Hsent.
  - destruct (fetchUsages_ok _ _ _ _ _ _ _ E) as (w & body & _ & _ & ->).
    destruct (IH _ _ _ _ Hrun) as (before & q & after & -> & Hid & Hsent).
    exists (p :: before), q, after. split; [reflexivity|]. split; [exact Hid|].
    cbn [sent] in Hsent. cbn [map app]. rewrite <- !app_assoc in Hsent.
    exact Hsent.
Qed.

End Keyed.

(** X13.  A call of GetUsages that succeeds has sent exactly one request
    per project of the slice, in the order of the slice, and returns a
    map whose keys are exactly the projects of the slice. *)
Theorem GetUsages_success (eq : Equinix.t) (startDate endDate : Time)
    (projects : list Project.t) (n n' : Net)
    (usages : gmap Project.t (list UsageRecord.t)) :
  GetUsages parseURL Do unmarshalUsages eq startDate endDate projects n
    = (n', inr usages) ->
  sent n' = (sent n ++ map (usagesRequest eq startDate endDate) projects)%list
  /\ dom usages = list_to_set projects.
Proof.
  intros Hrun. unfold GetUsages, GetUsagesBy in Hrun.
  destruct (GetUsagesLoop_ok (fun p => p) eq startDate endDate projects ∅ n n'
              usages Hrun) as [Hsent Hdom].
  split; [exact Hsent|].
  now rewrite Hdom, dom_empty_L, map_id, (left_id_L ∅ (∪)).
Qed.

(** X14.  The error of a call of GetUsages that fails names a project of
    the slice. The call has sent the requests of the projects before it
    and at most the request of that project: nothing is requested after
    the first failure. *)
Theorem GetUsages_error_names_project (eq : Equinix.t)
    (startDate endDate : Time) (projects : list Project.t) (n n' : Net)
    (err : error) :
  GetUsages parseURL Do unmarshalUsages eq startDate endDate projects n
    = (n', inl err) ->
  exists before project after,
    projects = (before ++ project :: after)%list
    /\ errorProject err = Project.Id project
    /\ (sent n' = (sent n ++ map (usagesRequest eq startDate endDate) before)%list
        \/ sent n' = (sent n ++ map (usagesRequest eq startDate endDate)
                                    (before ++ [project]))%list).
Proof. unfold GetUsages, GetUsagesBy. apply GetUsagesLoop_error. Qed.

(** X15.  When the answer for a project has a status other than 200,
    GetUsages returns an error that carries the id of the project, the
    status and the body, after sending the request of that project and
    without a request for any later project. *)
Theorem GetUsages_status_error (eq : Equinix.t) (startDate endDate : Time)
    (before : list Project.t) (project : Project.t) (after : list Project.t)
    (n n1 : Net) (usages1 : gmap Project.t (list UsageRecord.t))
    (w : World) (status : Z) (body : string) :
  GetUsages parseURL Do unmarshalUsages eq startDate endDate before n
    = (n1, inr usages1) ->
  parseURL (usagesURI project startDate endDate) = None ->
  Do (world n1) (usagesRequest eq startDate endDate project)
    = (w, inr (Response.mk status (inr body))) ->
  status <> 200 ->
  GetUsages parseURL Do unmarshalUsages eq startDate endDate
    (before ++ project :: after) n
  = (mkNet w (sent n1 ++ [usagesRequest eq startDate endDate project]),
     inl (ErrStatus (Project.Id project) status body)).
Proof.
  intros Hbefore Hurl Hdo Hstatus. unfold GetUsages, GetUsagesBy in *.
  rewrite (GetUsagesLoop_app parseURL Do unmarshalUsages (fun p => p)
             eq startDate endDate before (project :: after) ∅ n n1 usages1 Hbefore).
  cbn [GetUsagesLoop]. unfold fetchUsages, NewRequest, send. cbv zeta.
  rewrite Hurl. cbn [Request.Method Request.URL].
  fold (usagesRequest eq startDate endDate project). rewrite Hdo.
  cbn [Response.Body Response.StatusCode].
  apply Z.eqb_neq in Hstatus. now rewrite Hstatus.
Qed.

(** X16.  GetProjects succeeds exactly when the request can be built,
    the transport answers with status 200 and a readable body, and the
    body unmarshals to the list it returns; it has then sent one GET
    request for the projects, carrying the token. *)
Theorem GetProjects_ok_iff (eq : Equinix.t) (n n' : Net)
    (projects : list Project.t) :
  GetProjects parseURL Do unmarshalProjects eq n = (n', inr projects)
  <-> parseURL projectsURI = None
      /\ exists w body,
           Do (world n) (projectsRequest eq)
             = (w, inr (Response.mk 200 (inr body)))
           /\ unmarshalProjects body = inr projects
           /\ n' = mkNet w (sent n ++ [projectsRequest eq]).
Proof.
  unfold GetProjects, NewRequest, send. cbv zeta. split.
  - destruct (parseURL projectsURI) as [cause|]; [discriminate|].
    cbn [Request.Method Request.URL]. fold (projectsRequest eq).
    destruct (Do (world n) _) as [w [cause|[status [cause|body]]]];
      try discriminate.
    cbn [Response.Body Response.StatusCode].
    destruct (Z.eqb_spec status 200) as [->|Hne]; cbn [negb]; [|discriminate].
    destruct (unmarshalProjects body) as [cause|ps] eqn:E; [discriminate|].
    intros [= <- <-]. split; [reflexivity|]. now exists w, body.
  - intros (Hurl & w & body & Hdo & Hjson & ->). rewrite Hurl.
    cbn [Request.Method Request.URL]. fold (projectsRequest eq).
    rewrite Hdo. cbn [Response.Body Response.StatusCode negb Z.eqb Pos.eqb].
    now rewrite Hjson.
Qed.

End ClientResults.

(** ** Reservations in the uploaded rows *)

Lemma itemOf_reservation up project u r :
  itemOf up project u = Some r ->
  usageRecord.tpe r = "HardwareReservation" ->
  usageRecord.name r = "Hardware Reservation daily pro-rated"
  /\ notFullDay up = false.
Proof.
  unfold itemOf, prorate. fold (isReservation u).
  destruct (isReservation u) eqn:Hres.
  - destruct (notFullDay up); [discriminate|]. intros [= <-] _. now split.
  - intros [= <-]. cbn [bqRow usageRecord.tpe]. intros Htype.
    unfold isReservation in Hres. rewrite Htype in Hres. discriminate Hres.
Qed.

(** X17.  A row of type HardwareReservation among the rows built for
    upload carries the name Hardware Reservation daily pro-rated, and
    the window of the command, from its start time to its end time, is
    then exactly 86400 seconds. *)
Theorem uploaded_reservations_are_prorated (up : UploadToBigqueryT.t)
    (project : string) (usages : list UsageRecord.t) (r : usageRecord.t) :
  r ∈ uploadItems up project usages ->
  usageRecord.tpe r = "HardwareReservation" ->
  usageRecord.name r = "Hardware Reservation daily pro-rated"
  /\ Sub (UploadToBigqueryT.endTime up) (UploadToBigqueryT.startTime up)
     = 86400 * Second.
Proof.
  rewrite uploadItems_flat. intros Hr Htype.
  apply list_elem_of_In, in_flat_map in Hr as (u & _ & Hr).
  destruct (itemOf up project u) as [r'|] eqn:E; [|contradiction].
  destruct Hr as [<-|[]].
  destruct (itemOf_reservation up project u r' E Htype) as [Hname Hday].
  split; [exact Hname|]. now apply notFullDay_false_iff.
Qed.

(** ** The runs of the commands *)

Lemma mapRange_fst_NoDup_elem {V : Type} (m : gmap string V) rows :
  mapRange m rows ->
  NoDup rows.*1 /\ forall k, k ∈ rows.*1 <-> k ∈ dom m.
Proof.
  intros Hrange. split; [exact (mapRange_NoDup m rows Hrange)|].
  intros k. rewrite (mapRange_keys m rows k Hrange). now rewrite elem_of_dom.
Qed.

Lemma splitGateways_dom (usages : gmap string (list UsageRecord.t)) (k : string) :
  k ∈ dom (splitGateways usages) ->
  k ∈ ["gateway-kubo"; "gateway-lb"; ""].
Proof.
  rewrite elem_of_dom, lookup_splitGateways.
  fold (keyed k (index usages "gateway")). intros [l Hl].
  destruct (decide (k = "gateway-kubo")) as [->|N1]; [apply list_elem_of_here|].
  destruct (decide (k = "gateway-lb")) as [->|N2];
    [apply list_elem_of_further, list_elem_of_here|].
  destruct (decide (k = "")) as [->|N3];
    [do 2 apply list_elem_of_further; apply list_elem_of_here|].
  rewrite (keyed_other k _ N1 N2 N3) in Hl. discriminate Hl.
Qed.

Section RunFacts.

Context {World : Type}.
Variable parseURL : string -> option string.
Variable Do : World -> Request.t -> World * (string + Response.t).
Variable unmarshalProjects : string -> string + list Project.t.
Variable unmarshalUsages : string -> string + list UsageRecord.t.
Variable NewClient : World -> string -> World * option string.
Variable Put :
  World -> string -> string -> list usageRecord.t -> World * option string.

Lemma GetProjects_ok eq (n n' : Net) projects :
  GetProjects parseURL Do unmarshalProjects eq n = (n', inr projects) ->
  sent n' = (sent n ++ [projectsRequest eq])%list.
Proof.
  unfold GetProjects, NewRequest, send. cbv zeta.
  destruct (parseURL projectsURI) as [cause|]; [discriminate|].
  cbn [Request.Method Request.URL]. fold (projectsRequest eq).
  destruct (Do (world n) _) as [w [cause|[status [cause|body]]]];
    try discriminate.
  cbn [Response.Body Response.StatusCode].
  destruct (negb (status =? 200)); [discriminate|].
  destruct (unmarshalProjects body) as [cause|ps]; [discriminate|].
  now intros [= <- <-].
Qed.

(** X18.  A run of cost_summary that prints its report has sent, in this
    order and nothing else: the request for the projects, one usage
    request per fetched project from the start date to the day after the
    end date, and one per fetched project from the baseline start to the
    day after the baseline end. *)
Theorem CostSummaryRun_requests (s : CostSummaryT.t) (n n' : Net)
    (lines : list Line) :
  CostSummaryRun parseURL Do unmarshalProjects unmarshalUsages s n n'
    (Printed lines) ->
  exists n1 projects fetched,
    GetProjects parseURL Do unmarshalProjects (CostSummaryT.equinix s) n
      = (n1, inr projects)
    /\ fetchedProjects s projects fetched
    /\ sent n'
       = (sent n ++ [projectsRequest (CostSummaryT.equinix s)]
          ++ map (usagesRequest (CostSummaryT.equinix s)
                    (CostSummaryT.startDate s)
                    (AddDate (CostSummaryT.endDate s) 0 0 1)) fetched
          ++ map (usagesRequest (CostSummaryT.equinix s)
                    (CostSummaryT.baselineStart s)
                    (AddDate (CostSummaryT.baselineEnd s) 0 0 1)) fetched)%list.
Proof.
  intros Hrun. inversion Hrun as [| | |n1 projects fetched n2 usages n3 baseline
                                     pps totals rows Hp Hf Hu Hb Hs Hr]; subst.
  exists n1, projects, fetched. split; [exact Hp|]. split; [exact Hf|].
  unfold GetUsagesByName, GetUsagesBy in Hu, Hb.
  destruct (GetUsagesLoop_ok parseURL Do unmarshalUsages _ _ _ _ _ _ _ _ _ Hu)
    as [Hsent2 _].
  destruct (GetUsagesLoop_ok parseURL Do unmarshalUsages _ _ _ _ _ _ _ _ _ Hb)
    as [Hsent3 _].
  rewrite Hsent3, Hsent2, (GetProjects_ok _ _ _ _ Hp).
  now rewrite <- !app_assoc.
Qed.



(** X20.  With -g, the report printed by a run has at most five lines:
    the header, at most one row each for gateway-kubo, gateway-lb and
    the empty label, and the row of the totals. *)
Theorem CostSummaryRun_gateway_rows (s : CostSummaryT.t) (n n' : Net)
    (lines : list Line) :
  CostSummaryRun parseURL Do unmarshalProjects unmarshalUsages s n n'
    (Printed lines) ->
  CostSummaryT.onlyGateways s = true ->
  exists rows totals,
    lines = report s rows totals
    /\ NoDup rows.*1
    /\ (forall name, name ∈ rows.*1 ->
          name ∈ ["gateway-kubo"; "gateway-lb"; ""])
    /\ (length lines <= 5)%nat.
Proof.
  intros Hrun Hmode.
  inversion Hrun as [| | |n1 projects fetched n2 usages n3 baseline
                       pps totals rows Hp Hf Hu Hb Hs Hr]; subst.
  exists rows, totals. split; [reflexivity|].
  destruct (mapRange_fst_NoDup_elem pps rows Hr) as [Hnd Helem].
  split; [exact Hnd|].
  assert (Hin : forall name, name ∈ rows.*1 ->
                  name ∈ ["gateway-kubo"; "gateway-lb"; ""]).
  { intros name Hname. apply Helem in Hname.
    pose proof (summarize_dom _ _ _ _ Hs) as Hdom. cbn [fst] in Hdom.
    rewrite Hdom in Hname. unfold splitIfGateways in Hname.
    rewrite Hmode in Hname. now apply (splitGateways_dom usages). }
  split; [exact Hin|].
  pose proof (submseteq_length _ _ (NoDup_submseteq _ _ Hnd Hin)) as Hlen.
  rewrite length_fmap in Hlen. unfold report. cbn [length] in *.
  rewrite length_app, length_map. cbn [length]. lia.
Qed.


End RunFacts.

(** ** Completion of a partial timestamp, again *)

Lemma PartialToFullIso_unfold (partial : string) :
  common.PartialToFullIso partial =
  if (String.length partial =? 10)%nat then partial +:+ "T00:00:00.000-0000"
  else if (String.length partial =? 19)%nat then partial +:+ ".000-0000"
  else if (String.length partial =? 23)%nat then partial +:+ "-0000"
  else partial.
Proof.
  unfold common.PartialToFullIso.
  generalize (String.length partial) as n. intros n.
  do 24 (destruct n as [|n]; [reflexivity|]). reflexivity.
Qed.

Lemma length_append (s1 s2 : string) :
  String.length (s1 +:+ s2) = (String.length s1 + String.length s2)%nat.
Proof. induction s1 as [|c s1 IH]; simpl; [reflexivity|now rewrite IH]. Qed.

Lemma prefix_append (s1 s2 : string) : String.prefix s1 (s1 +:+ s2) = true.
Proof.
  induction s1 as [|c s1 IH]; simpl; [now destruct s2|].
  destruct (ascii_dec c c); [exact IH|contradiction].
Qed.

Lemma prefix_refl (s : string) : String.prefix s s = true.
Proof.
  induction s as [|c s IH]; simpl; [reflexivity|].
  destruct (ascii_dec c c); [exact IH|contradiction].
Qed.

(** X22.  PartialToFullIso is idempotent: completing a completed
    timestamp changes nothing. Its result begins with its argument, and
    a result that differs from the argument is 28 characters long. *)
Theorem PartialToFullIso_idempotent (partial : string) :
  common.PartialToFullIso (common.PartialToFullIso partial)
    = common.PartialToFullIso partial
  /\ String.prefix partial (common.PartialToFullIso partial) = true
  /\ (common.PartialToFullIso partial <> partial ->
      String.length (common.PartialToFullIso partial) = 28%nat).
Proof.
  rewrite (PartialToFullIso_unfold (common.PartialToFullIso partial)).
  rewrite (PartialToFullIso_unfold partial).
  destruct (Nat.eqb_spec (String.length partial) 10) as [E10|N10].
  - rewrite length_append, E10. cbn. split; [reflexivity|].
    split; [apply prefix_append|reflexivity].
  - destruct (Nat.eqb_spec (String.length partial) 19) as [E19|N19].
    + rewrite length_append, E19. cbn. split; [reflexivity|].
      split; [apply prefix_append|reflexivity].
    + destruct (Nat.eqb_spec (String.length partial) 23) as [E23|N23].
      * rewrite length_append, E23. cbn. split; [reflexivity|].
        split; [apply prefix_append|reflexivity].
      * apply Nat.eqb_neq in N10, N19, N23. rewrite N10, N19, N23.
        split; [reflexivity|]. split; [apply prefix_refl|congruence].
Qed.

(** ** The comparison of the sort *)

Lemma ascii_compare_refl (c : ascii) : Ascii.compare c c = Eq.
Proof. unfold Ascii.compare. apply N.compare_refl. Qed.

Lemma string_compare_refl (s : string) : String.compare s s = Eq.
Proof.
  induction s as [|c s IH]; simpl; [reflexivity|].
  now rewrite ascii_compare_refl.
Qed.

Lemma ascii_compare_lt_trans (a b c : ascii) :
  Ascii.compare a b = Lt -> Ascii.compare b c = Lt -> Ascii.compare a c = Lt.
Proof.
  unfold Ascii.compare. rewrite !N.compare_lt_iff. apply N.lt_trans.
Qed.

Lemma string_compare_lt_trans (s1 : string) : forall s2 s3,
  String.compare s1 s2 = Lt -> String.compare s2 s3 = Lt ->
  String.compare s1 s3 = Lt.
Proof.
  induction s1 as [|c1 s1 IH]; intros [|c2 s2] [|c3 s3]; simpl;
    try discriminate; try reflexivity.
  destruct (Ascii.compare c1 c2) eqn:E12; try discriminate.
  - apply Ascii.compare_eq_iff in E12. subst c2.
    destruct (Ascii.compare c1 c3); try discriminate; [apply IH|reflexivity].
  - intros _. destruct (Ascii.compare c2 c3) eqn:E23; try discriminate.
    + apply Ascii.compare_eq_iff in E23. subst c3. now rewrite E12.
    + intros _. now rewrite (ascii_compare_lt_trans c1 c2 c3 E12 E23).
Qed.

Lemma upperByte_idempotent (c : ascii) :
  Strings.upperByte (Strings.upperByte c) = Strings.upperByte c.
Proof.
  unfold Strings.upperByte.
  destruct ((97 <=? nat_of_ascii c)%nat && (nat_of_ascii c <=? 122)%nat) eqn:E.
  - apply andb_true_iff in E as [Hlo Hhi].
    apply Nat.leb_le in Hlo. apply Nat.leb_le in Hhi.
    rewrite nat_ascii_embedding by lia.
    destruct (97 <=? nat_of_ascii c - 32)%nat eqn:F; [|reflexivity].
    apply Nat.leb_le in F. lia.
  - now rewrite E.
Qed.

Lemma ToUpper_idempotent (s : string) :
  Strings.ToUpper (Strings.ToUpper s) = Strings.ToUpper s.
Proof.
  induction s as [|c s IH]; simpl; [reflexivity|].
  now rewrite upperByte_idempotent, IH.
Qed.

(** X23.  The comparison that CostSummaryT.Run hands to sort.Slice is a
    strict order on the projects: no project is before itself, it is
    asymmetric and transitive, and two projects are each not before the
    other exactly when their upper-cased names are equal. *)
Theorem less_strict_order (a b c : Project.t) :
  less a a = false
  /\ (less a b = true -> less b a = false)
  /\ (less a b = true -> less b c = true -> less a c = true)
  /\ (less a b = false /\ less b a = false
      <-> Strings.ToUpper (Project.Name a) = Strings.ToUpper (Project.Name b)).
Proof.
  unfold less, String.ltb.
  set (x := Strings.ToUpper (Project.Name a)).
  set (y := Strings.ToUpper (Project.Name b)).
  set (z := Strings.ToUpper (Project.Name c)).
  split; [now rewrite string_compare_refl|]. split; [|split].
  - rewrite (String.compare_antisym y x).
    now destruct (String.compare x y).
  - destruct (String.compare x y) eqn:Exy; try discriminate.
    destruct (String.compare y z) eqn:Eyz; try discriminate.
    now rewrite (string_compare_lt_trans x y z Exy Eyz).
  - split.
    + rewrite (String.compare_antisym y x).
      destruct (String.compare x y) eqn:Exy; cbn; intros [H1 H2];
        try discriminate.
      now apply String.compare_eq_iff.
    + intros ->. now rewrite string_compare_refl.
Qed.

(** ** The dates the report asks for *)

Section FetchWindows.

Variable parseDate : string -> option Time.

(** X24.  For a command built without -b and with a day count d of at
    most 2^30 in absolute value, the two windows that Run passes to
    GetUsages are each d days long and adjacent: the end passed for each
    window is d days after its start, and the end passed for the
    baseline is the start date of the report. *)
Theorem CostSummary_fetch_windows (eq : Equinix.t) (flags : CostSummaryFlags.t)
    (s : CostSummaryT.t) (endTime : Time) :
  CostSummary parseDate eq flags = Built s ->
  parseDate (CostSummaryFlags.e flags) = Some endTime ->
  validTime endTime ->
  Z.abs (CostSummaryFlags.d flags) <= 2 ^ 30 ->
  CostSummaryFlags.b flags = "" ->
  AddDate (CostSummaryT.endDate s) 0 0 1
    = daysAfter (CostSummaryT.startDate s) (CostSummaryFlags.d flags)
  /\ AddDate (CostSummaryT.baselineEnd s) 0 0 1
    = daysAfter (CostSummaryT.baselineStart s) (CostSummaryFlags.d flags)
  /\ AddDate (CostSummaryT.baselineEnd s) 0 0 1 = CostSummaryT.startDate s.
Proof.
  intros Hbuilt Hend Hvalid _ Hb. unfold CostSummary in Hbuilt.
  destruct (CostSummaryFlags.h flags); [discriminate|].
  destruct (if String.eqb (CostSummaryFlags.t_ flags) "reservations"
            then Some ReservationsReport
            else if String.eqb (CostSummaryFlags.t_ flags) ""
                 then Some NonReservationsReport else None) as [rt|];
    [|discriminate].
  rewrite Hend, Hb in Hbuilt. cbn [String.eqb] in Hbuilt. cbv zeta in Hbuilt.
  injection Hbuilt as <-.
  cbn [CostSummaryT.endDate CostSummaryT.startDate CostSummaryT.baselineEnd
       CostSummaryT.baselineStart].
  set (days := CostSummaryFlags.d flags).
  rewrite (AddDate_daysAfter endTime (- days + 1)) by exact Hvalid.
  rewrite (AddDate_daysAfter (daysAfter endTime _) (-1))
    by (apply validTime_daysAfter; exact Hvalid).
  rewrite (AddDate_daysAfter (daysAfter (daysAfter endTime _) _) (- days + 1))
    by (do 2 apply validTime_daysAfter; exact Hvalid).
  rewrite (AddDate_daysAfter endTime 1) by exact Hvalid.
  rewrite (AddDate_daysAfter (daysAfter (daysAfter endTime _) _) 1)
    by (do 2 apply validTime_daysAfter; exact Hvalid).
  rewrite !daysAfter_daysAfter.
  repeat split; f_equal; lia.
Qed.

End FetchWindows.

(** ** The properties on the sample data *)

Lemma NoDup_alpha_Beta : NoDup ["alpha"; "Beta"].
Proof.
  apply NoDup_cons. split; [|apply NoDup_singleton].
  intros Hin. apply list_elem_of_singleton in Hin. discriminate Hin.
Qed.

Lemma NoDup_Beta_alpha : NoDup ["Beta"; "alpha"].
Proof.
  apply NoDup_cons. split; [|apply NoDup_singleton].
  intros Hin. apply list_elem_of_singleton in Hin. discriminate Hin.
Qed.

Lemma validTime_january22 : validTime january22.
Proof. unfold validTime. change (nsec january22) with 0. lia. Qed.

Lemma demoFlags_days : Z.abs (CostSummaryFlags.d demoFlags) <= 2 ^ 30.
Proof. change (CostSummaryFlags.d demoFlags) with 7. lia. Qed.

Lemma CostSummary_windows_witness :
  CostSummary demoParseDate (Equinix.mk "token") demoFlags
  = Built (CostSummaryT.mk (Equinix.mk "token") NonReservationsReport false
             (daysAfter january22 (- (7 - 1))) january22
             (daysAfter january22 (- (2 * 7 - 1))) (daysAfter january22 (- 7))).
Proof.
  apply (proj1 (CostSummary_windows demoParseDate (Equinix.mk "token") demoFlags
                  NonReservationsReport january22 eq_refl eq_refl eq_refl
                  validTime_january22 demoFlags_days)).
  reflexivity.
Defined.

Lemma UploadToBigquery_window_witness :
  exists up,
    UploadToBigquery demoParseISO (Equinix.mk "token") demoUploadFlags = Built up
    /\ UploadToBigqueryT.startTime up = january22
    /\ Sub (UploadToBigqueryT.endTime up) (UploadToBigqueryT.startTime up)
       = 86400 * Second
    /\ (86400 = 86400 -> notFullDay up = false).
Proof.
  apply (UploadToBigquery_window demoParseISO (Equinix.mk "token")
           demoUploadFlags january22 eq_refl eq_refl).
  change (UploadFlags.i demoUploadFlags) with 86400.
  unfold minDuration, maxDuration, Second. lia.
Defined.

Lemma demo_summarize :
  summarize NonReservationsReport ∅ {["alpha" := [demoNode]]}
    (summarizeEntries NonReservationsReport ∅ [("alpha", [demoNode])]).
Proof. apply summarize_intro. unfold mapRange. now rewrite map_to_list_singleton. Qed.

Lemma summarize_keys_witness :
  dom (summarizeEntries NonReservationsReport ∅ [("alpha", [demoNode])]).1
  = dom ({["alpha" := [demoNode]]} : gmap string (list UsageRecord.t)).
Proof. exact (summarize_keys _ _ _ _ demo_summarize). Defined.

Lemma demo_summarize_order (first second : string * list UsageRecord.t) :
  first.1 <> second.1 ->
  summarize NonReservationsReport ∅ (list_to_map [first; second])
    (summarizeEntries NonReservationsReport ∅ [second; first]).
Proof.
  intros Hne. apply summarize_intro. unfold mapRange.
  rewrite <- (mapRange_list_to_map [first; second]).
  - apply perm_swap.
  - apply NoDup_cons. split; [|apply NoDup_singleton].
    intros Hin. apply list_elem_of_singleton in Hin. exact (Hne Hin).
Qed.

Lemma summarize_order_independent_witness :
  (summarizeEntries NonReservationsReport ∅
     [("Beta", [demoReservation]); ("alpha", [demoNode])]).1
  = (summarizeEntries NonReservationsReport ∅
       [("alpha", [demoNode]); ("Beta", [demoReservation])]).1.
Proof.
  apply (summarize_order_independent NonReservationsReport ∅
           (list_to_map [("alpha", [demoNode]); ("Beta", [demoReservation])])).
  - apply (demo_summarize_order ("alpha", [demoNode]) ("Beta", [demoReservation])).
    discriminate.
  - apply summarize_intro. apply mapRange_list_to_map. exact NoDup_alpha_Beta.
Defined.

Lemma summarize_totals_witness :
  exists entries,
    mapRange ({["alpha" := [demoNode]]} : gmap string (list UsageRecord.t)) entries
    /\ (summarizeEntries NonReservationsReport ∅ [("alpha", [demoNode])]).2
       = summarySums
           (map (fun e => projectSums NonReservationsReport e.2 (index ∅ e.1))
                entries).
Proof. exact (summarize_totals _ _ _ _ demo_summarize). Defined.

Lemma splitGateways_keys_witness :
  let r := usage "Instance" "ipfs-node-1" "c3.medium.x86" 1%float 24%float 24%float in
  ("gateway-kubo" = "gateway-kubo" \/ "gateway-kubo" = "gateway-lb"
   \/ "gateway-kubo" = "")
  /\ [r] <> []
  /\ [r] = List.filter (fun u => String.eqb (gatewayKey u) "gateway-kubo")
             (index {["gateway" := [r]]} "gateway").
Proof.
  intros r.
  apply (splitGateways_keys {["gateway" := [r]]} "gateway-kubo" [r]).
  rewrite lookup_splitGateways. unfold index. now rewrite lookup_singleton_eq.
Defined.

Lemma putBatches_stops_at_failure_witness :
  [@nil usageRecord.t] = map (batchOf (demoUpload january22 86400)) [("alpha", [])]
  /\ putBatches demoPut (demoUpload january22 86400)
       ([("alpha", [])] ++ ("Beta", [demoNode]) :: [("gamma", [])]) [] tt
     = (tt, (map (batchOf (demoUpload january22 86400)) [("alpha", [])]
             ++ [batchOf (demoUpload january22 86400) ("Beta", [demoNode])])%list,
        false).
Proof.
  pose proof (putBatches_stops_at_failure demoPut (demoUpload january22 86400)
                [("alpha", [])] ("Beta", [demoNode]) [("gamma", [])]
                tt tt tt [[]] "rejected" eq_refl eq_refl) as [H1 H2].
  split; [exact H1|exact H2].
Defined.

Lemma putBatches_completes_witness :
  (true = true ->
   [@nil usageRecord.t; []]
   = map (batchOf (demoUpload january22 86400)) [("alpha", []); ("Beta", [])])
  /\ (length [@nil usageRecord.t; []] <= length [("alpha", @nil UsageRecord.t);
                                                 ("Beta", [])])%nat
  /\ exists submitted,
       submitted `prefix_of` [("alpha", @nil UsageRecord.t); ("Beta", [])]
       /\ [@nil usageRecord.t; []]
          = map (batchOf (demoUpload january22 86400)) submitted.
Proof.
  exact (putBatches_completes demoPut (demoUpload january22 86400)
           [("alpha", []); ("Beta", [])] tt tt [[]; []] true eq_refl).
Defined.

Lemma GetUsages_success_witness :
  sent (mkNet tt [usagesRequest (Equinix.mk "token") demoStart demoEnd alpha])
  = (sent demoNet
     ++ map (usagesRequest (Equinix.mk "token") demoStart demoEnd) [alpha])%list
  /\ dom (<[alpha := []]> ∅ : gmap Project.t (list UsageRecord.t))
     = list_to_set [alpha].
Proof.
  apply (GetUsages_success demoParseURL demoDo demoUnmarshalUsages
           (Equinix.mk "token") demoStart demoEnd [alpha] demoNet
           (mkNet tt [usagesRequest (Equinix.mk "token") demoStart demoEnd alpha])
           (<[alpha := []]> ∅)).
  reflexivity.
Defined.

Lemma GetUsages_error_names_project_witness :
  exists before project after,
    [alpha; demoDown] = (before ++ project :: after)%list
    /\ errorProject (ErrStatus "p-down" 503 "unavailable") = Project.Id project
    /\ (sent (mkNet tt [usagesRequest (Equinix.mk "token") demoStart demoEnd alpha;
                        usagesRequest (Equinix.mk "token") demoStart demoEnd demoDown])
        = (sent demoNet
           ++ map (usagesRequest (Equinix.mk "token") demoStart demoEnd) before)%list
        \/ sent (mkNet tt [usagesRequest (Equinix.mk "token") demoStart demoEnd alpha;
                           usagesRequest (Equinix.mk "token") demoStart demoEnd demoDown])
           = (sent demoNet
              ++ map (usagesRequest (Equinix.mk "token") demoStart demoEnd)
                     (before ++ [project]))%list).
Proof.
  apply (GetUsages_error_names_project demoParseURL demoDo demoUnmarshalUsages
           (Equinix.mk "token") demoStart demoEnd [alpha; demoDown] demoNet
           (mkNet tt [usagesRequest (Equinix.mk "token") demoStart demoEnd alpha;
                      usagesRequest (Equinix.mk "token") demoStart demoEnd demoDown])
           (ErrStatus "p-down" 503 "unavailable")).
  reflexivity.
Defined.

Lemma GetUsages_status_error_witness :
  GetUsages demoParseURL demoDo demoUnmarshalUsages (Equinix.mk "token")
    demoStart demoEnd ([alpha] ++ demoDown :: [Beta]) demoNet
  = (mkNet tt
       (sent (mkNet tt [usagesRequest (Equinix.mk "token") demoStart demoEnd alpha])
        ++ [usagesRequest (Equinix.mk "token") demoStart demoEnd demoDown]),
     inl (ErrStatus (Project.Id demoDown) 503 "unavailable")).
Proof.
  apply (GetUsages_status_error demoParseURL demoDo demoUnmarshalUsages
           (Equinix.mk "token") demoStart demoEnd [alpha] demoDown [Beta] demoNet
           (mkNet tt [usagesRequest (Equinix.mk "token") demoStart demoEnd alpha])
           (<[alpha := []]> ∅) tt 503 "unavailable");
    first [reflexivity | discriminate].
Defined.

Lemma uploaded_reservations_are_prorated_witness :
  usageRecord.name
    (usageRecord.mk january22 (Add january22 (86400 * Second)) "alpha" ""
       "m3.large.x86" "HardwareReservation"
       "Hardware Reservation daily pro-rated" 10%float 1%float 10%float)
  = "Hardware Reservation daily pro-rated"
  /\ Sub (UploadToBigqueryT.endTime (demoUpload january22 86400))
         (UploadToBigqueryT.startTime (demoUpload january22 86400))
     = 86400 * Second.
Proof.
  apply (uploaded_reservations_are_prorated (demoUpload january22 86400)
           "alpha" [demoReservation; demoNode]).
  - apply list_elem_of_here.
  - reflexivity.
Defined.

Lemma demo_cost_summary_run :
  CostSummaryRun demoParseURL demoDo demoUnmarshalProjects demoUnmarshalUsages
    demoSummary demoNet (mkNet tt demoSent)
    (Printed (report demoSummary demoRows SummaryRecord.zero)).
Proof.
  set (entries := [("alpha", @nil UsageRecord.t); ("Beta", @nil UsageRecord.t)]).
  apply (CostSummary_printed demoParseURL demoDo demoUnmarshalProjects
           demoUnmarshalUsages demoSummary demoNet
           (mkNet tt [projectsRequest (Equinix.mk "token")])
           [alpha; Beta] [alpha; Beta]
           (mkNet tt
              ([projectsRequest (Equinix.mk "token")]
               ++ map (usagesRequest (Equinix.mk "token")
                         (CostSummaryT.startDate demoSummary)
                         (AddDate (CostSummaryT.endDate demoSummary) 0 0 1))
                      [alpha; Beta]))
           (list_to_map entries) (mkNet tt demoSent) (list_to_map entries)
           (list_to_map demoRows) SummaryRecord.zero demoRows).
  - reflexivity.
  - exact sortSlice_alpha_Beta.
  - reflexivity.
  - reflexivity.
  - change (list_to_map demoRows, SummaryRecord.zero)
      with (summarizeEntries (CostSummaryT.reportType demoSummary)
              (list_to_map entries) entries).
    apply summarize_intro. apply mapRange_list_to_map. exact NoDup_alpha_Beta.
  - apply mapRange_list_to_map. exact NoDup_Beta_alpha.
Qed.

Lemma CostSummaryRun_requests_witness :
  exists n1 projects fetched,
    GetProjects demoParseURL demoDo demoUnmarshalProjects
      (CostSummaryT.equinix demoSummary) demoNet = (n1, inr projects)
    /\ fetchedProjects demoSummary projects fetched
    /\ sent (mkNet tt demoSent)
       = (sent demoNet ++ [projectsRequest (CostSummaryT.equinix demoSummary)]
          ++ map (usagesRequest (CostSummaryT.equinix demoSummary)
                    (CostSummaryT.startDate demoSummary)
                    (AddDate (CostSummaryT.endDate demoSummary) 0 0 1)) fetched
          ++ map (usagesRequest (CostSummaryT.equinix demoSummary)
                    (CostSummaryT.baselineStart demoSummary)
                    (AddDate (CostSummaryT.baselineEnd demoSummary) 0 0 1)) fetched)%list.
Proof.
  exact (CostSummaryRun_requests demoParseURL demoDo demoUnmarshalProjects
           demoUnmarshalUsages demoSummary demoNet (mkNet tt demoSent) _
           demo_cost_summary_run).
Defined.





Lemma NoDup_gateway_keys : NoDup ["gateway-kubo"; "gateway-lb"; ""].
Proof.
  repeat (apply NoDup_cons; split;
          [intros Hin; repeat (apply elem_of_cons in Hin as [Hin|Hin];
                               [discriminate Hin|]);
           now apply elem_of_nil in Hin|]).
  apply NoDup_nil_2.
Qed.

Lemma demo_gateway_run :
  CostSummaryRun demoParseURL demoDo gatewayUnmarshalProjects gatewayUnmarshalUsages
    demoGatewaySummary demoNet (mkNet tt gatewaySent)
    (Printed (report demoGatewaySummary gatewayRows gatewayTotals)).
Proof.
  set (fetchedUsages := <["gateway" := [demoKubo; demoLb; demoBandwidth]]> ∅
         : gmap string (list UsageRecord.t)).
  apply (CostSummary_printed demoParseURL demoDo gatewayUnmarshalProjects
           gatewayUnmarshalUsages demoGatewaySummary demoNet
           (mkNet tt [projectsRequest (Equinix.mk "token")])
           [alpha; gatewayProject] [gatewayProject]
           (mkNet tt (firstn 2 gatewaySent))
           fetchedUsages (mkNet tt gatewaySent) fetchedUsages
           (list_to_map gatewayRows) gatewayTotals gatewayRows).
  - reflexivity.
  - reflexivity.
  - reflexivity.
  - reflexivity.
  - assert (Hsplit : splitIfGateways demoGatewaySummary fetchedUsages
                     = list_to_map gatewayEntries) by reflexivity.
    rewrite Hsplit.
    change (list_to_map gatewayRows, gatewayTotals)
      with (summarizeEntries (CostSummaryT.reportType demoGatewaySummary)
              (list_to_map gatewayEntries) gatewayEntries).
    apply summarize_intro. apply mapRange_list_to_map. exact NoDup_gateway_keys.
  - apply mapRange_list_to_map. exact NoDup_gateway_keys.
Qed.

Lemma CostSummaryRun_gateway_rows_witness :
  exists rows totals,
    report demoGatewaySummary gatewayRows gatewayTotals
      = report demoGatewaySummary rows totals
    /\ NoDup rows.*1
    /\ (forall name, name ∈ rows.*1 ->
          name ∈ ["gateway-kubo"; "gateway-lb"; ""])
    /\ (length (report demoGatewaySummary gatewayRows gatewayTotals) <= 5)%nat.
Proof.
  exact (CostSummaryRun_gateway_rows demoParseURL demoDo gatewayUnmarshalProjects
           gatewayUnmarshalUsages demoGatewaySummary demoNet
           (mkNet tt gatewaySent) _ demo_gateway_run eq_refl).
Defined.



Lemma CostSummary_fetch_windows_witness :
  let s := CostSummaryT.mk (Equinix.mk "token") NonReservationsReport false
             (daysAfter january22 (- (7 - 1))) january22
             (daysAfter january22 (- (2 * 7 - 1))) (daysAfter january22 (- 7)) in
  AddDate (CostSummaryT.endDate s) 0 0 1
    = daysAfter (CostSummaryT.startDate s) (CostSummaryFlags.d demoFlags)
  /\ AddDate (CostSummaryT.baselineEnd s) 0 0 1
    = daysAfter (CostSummaryT.baselineStart s) (CostSummaryFlags.d demoFlags)
  /\ AddDate (CostSummaryT.baselineEnd s) 0 0 1 = CostSummaryT.startDate s.
Proof.
  intros s.
  apply (CostSummary_fetch_windows demoParseDate (Equinix.mk "token") demoFlags
           s january22).
  - vm_compute. reflexivity.
  - reflexivity.
  - exact validTime_january22.
  - exact demoFlags_days.
  - reflexivity.
Defined.
